(** * HotelPro PMS: reservations, rooms, guests, taxes and branches.

    A shallow embedding of the request handlers of [server/routes.ts]
    (reservation create / update / cancel, branch delete, guest search) and
    of the [DatabaseStorage] methods of [server/storage.ts] they call, with
    the properties the specification states about them.

    JavaScript numbers are binary64 values (the kernel's primitive floats);
    the relational store is a record of tables, each a list of rows; a
    handler is a function from the store to a response and a store. *)

From Stdlib Require Import ZArith List String Ascii Bool Lia Floats.
Import ListNotations.
Open Scope string_scope.
Open Scope list_scope.
Open Scope Z_scope.

(* ================================================================== *)
(** * JavaScript values *)
(* ================================================================== *)

Module JS.

(** A Number is an IEEE 754 binary64 value. *)
Definition number := float.

Definition is_digit (c : ascii) : bool :=
  let n := nat_of_ascii c in (48 <=? n)%nat && (n <=? 57)%nat.

Definition digit_val (c : ascii) : Z := Z.of_nat (nat_of_ascii c) - 48.

Definition digit_char (d : Z) : ascii := ascii_of_nat (Z.to_nat (48 + d)).

Fixpoint span_digits (s : list ascii) : list ascii * list ascii :=
  match s with
  | c :: r =>
      if is_digit c then let (d, t) := span_digits r in (c :: d, t)
      else ([], s)
  | [] => ([], [])
  end.

Definition digits_val (ds : list ascii) : Z :=
  fold_left (fun acc c => 10 * acc + digit_val c) ds 0.

Fixpoint Z_digits_fuel (fuel : nat) (n : Z) (acc : list ascii) : list ascii :=
  match fuel with
  | O => acc
  | S f =>
      if n <? 10 then digit_char n :: acc
      else Z_digits_fuel f (n / 10) (digit_char (n mod 10) :: acc)
  end.

(** The decimal digits of a non-negative integer, most significant first. *)
Definition Z_digits (n : Z) : list ascii :=
  Z_digits_fuel (S (Z.to_nat (Z.log2 n))) n [].

(** The decimal rendering of an integer. *)
Definition Z_to_string (n : Z) : string :=
  string_of_list_ascii
    (if n <? 0 then "-"%char :: Z_digits (- n) else Z_digits n).

(** The binary64 value nearest to [m * 10^e], ties to even: what the
    language calls "the Number value for" a decimal literal. *)
Definition decimal_to_SF (neg : bool) (m : Z) (e : Z) : spec_float :=
  match m with
  | Zpos p =>
      if 0 <=? e then
        binary_normalize prec emax
          (if neg then - (m * 10 ^ e) else m * 10 ^ e) 0 neg
      else
        SFdiv prec emax (S754_finite neg p 0)
          (S754_finite false (Z.to_pos (10 ^ (- e))) 0)
  | _ => S754_zero neg
  end.

Definition decimal_to_number (neg : bool) (m e : Z) : number :=
  SF2Prim (decimal_to_SF neg m e).

Definition is_space (c : ascii) : bool :=
  let n := nat_of_ascii c in
  ((9 <=? n)%nat && (n <=? 13)%nat) || (n =? 32)%nat.

Fixpoint trim_start (s : list ascii) : list ascii :=
  match s with
  | c :: r => if is_space c then trim_start r else s
  | [] => []
  end.

Definition take_sign (s : list ascii) : bool * list ascii :=
  match s with
  | "+"%char :: r => (false, r)
  | "-"%char :: r => (true, r)
  | _ => (false, s)
  end.

Fixpoint starts_with (p s : list ascii) : bool :=
  match p, s with
  | [], _ => true
  | a :: p', b :: s' => Ascii.eqb a b && starts_with p' s'
  | _ :: _, [] => false
  end.

Definition exponent_part (s : list ascii) : Z :=
  match s with
  | c :: r =>
      if Ascii.eqb c "e" || Ascii.eqb c "E" then
        let (neg, r') := take_sign r in
        let (ds, _) := span_digits r' in
        match ds with
        | [] => 0
        | _ => if neg then - digits_val ds else digits_val ds
        end
      else 0
  | [] => 0
  end.

(** The longest prefix of the trimmed text that is a StrDecimalLiteral:
    [inr sign] for Infinity, [inl (Some (sign, mantissa, exponent))] for a
    decimal, [inl None] when there is no such prefix. *)
Definition str_decimal_literal (s : list ascii)
  : option (bool * Z * Z) + bool :=
  let (neg, r) := take_sign (trim_start s) in
  if starts_with (list_ascii_of_string "Infinity") r then inr neg
  else
    let (ip, r1) := span_digits r in
    let (fp, r2) :=
      match r1 with
      | "."%char :: t => span_digits t
      | _ => ([], r1)
      end in
    match ip, fp with
    | [], [] => inl None
    | _, _ =>
        inl (Some (neg, digits_val (ip ++ fp),
                   exponent_part r2 - Z.of_nat (List.length fp)))
    end.

(** [parseFloat(string)]. *)
Definition parseFloat (s : string) : number :=
  match str_decimal_literal (list_ascii_of_string s) with
  | inr neg => if neg then neg_infinity else infinity
  | inl None => nan
  | inl (Some (neg, m, e)) => decimal_to_number neg m e
  end.

(** The exact value of a finite binary64 magnitude, as a fraction. *)
Definition SF_fraction (m : positive) (e : Z) : Z * Z :=
  if 0 <=? e then (Zpos m * 2 ^ e, 1) else (Zpos m, 2 ^ (- e)).

Definition zeros (n : Z) : list ascii := repeat "0"%char (Z.to_nat n).

Fixpoint find_up (fuel : nat) (num den : Z) (u : Z) : Z :=
  match fuel with
  | O => u
  | S f => if den <=? num * 10 ^ u then u else find_up f num den (u + 1)
  end.

(** [t] with [10^t <= num/den < 10^(t+1)]. *)
Definition floor_log10 (num den : Z) : Z :=
  if den <=? num then Z.of_nat (List.length (Z_digits (num / den))) - 1
  else - find_up 400 num den 1.

Definition scale10 (num den p : Z) : Z * Z :=
  if 0 <=? p then (num, den * 10 ^ p) else (num * 10 ^ (- p), den).

(** The [k]-digit decimals [s * 10^p] on either side of the value: the one
    that reads back as the same binary64, the closer one when both do, the
    even one on a tie. *)
Definition shortest_at (x : spec_float) (num den : Z) (t : Z) (k : Z)
  : option (Z * Z) :=
  let p := t - k + 1 in
  let (A, B) := scale10 num den p in
  let lo := A / B in
  let r := A mod B in
  let hi := lo + 1 in
  let ok s := SFeqb (decimal_to_SF false s p) x in
  let pick :=
    match ok lo, ok hi with
    | true, true =>
        if 2 * r <? B then Some lo
        else if B <? 2 * r then Some hi
        else Some (if Z.even lo then lo else hi)
    | true, false => Some lo
    | false, true => Some hi
    | false, false => None
    end in
  match pick with
  | Some s => if s =? 10 ^ k then Some (10 ^ (k - 1), p + 1) else Some (s, p)
  | None => None
  end.

Fixpoint shortest_from (fuel : nat) (x : spec_float) (num den t k : Z)
  : Z * Z :=
  match fuel with
  | O => (0, 0)
  | S f =>
      match shortest_at x num den t k with
      | Some sp => sp
      | None => shortest_from f x num den t (k + 1)
      end
  end.

Definition format_digits (ds : list ascii) (n : Z) : list ascii :=
  let k := Z.of_nat (List.length ds) in
  if (k <=? n) && (n <=? 21) then ds ++ zeros (n - k)
  else if (0 <? n) && (n <=? 21) then
    firstn (Z.to_nat n) ds ++ "."%char :: skipn (Z.to_nat n) ds
  else if (-6 <? n) && (n <=? 0) then
    "0"%char :: "."%char :: zeros (- n) ++ ds
  else
    let e := n - 1 in
    let es := (if e <? 0 then "-"%char else "+"%char) :: Z_digits (Z.abs e) in
    match ds with
    | [d] => d :: "e"%char :: es
    | d :: rest => d :: "."%char :: rest ++ "e"%char :: es
    | [] => []
    end.

(** [Number.prototype.toString()], radix 10: the shortest decimal that
    reads back as the same value. *)
Definition toString (x : number) : string :=
  match Prim2SF x with
  | S754_nan => "NaN"
  | S754_zero _ => "0"
  | S754_infinity s => if s then "-Infinity" else "Infinity"
  | S754_finite s m e =>
      let (num, den) := SF_fraction m e in
      let t := floor_log10 num den in
      let (d, p) := shortest_from 17 (S754_finite false m e) num den t 1 in
      let ds := Z_digits d in
      let body := format_digits ds (p + Z.of_nat (List.length ds)) in
      string_of_list_ascii (if s then "-"%char :: body else body)
  end.

(** [Number.prototype.toFixed(2)]: the integer [n] with [n / 100] nearest
    to the value, the larger one on a tie. *)
Definition toFixed2 (x : number) : string :=
  match Prim2SF x with
  | S754_finite s m e =>
      let (num, den) := SF_fraction m e in
      if 10 ^ 21 * den <=? num then toString x
      else
        let n := (2 * 100 * num + den) / (2 * den) in
        let ds := Z_digits n in
        let ds := zeros (3 - Z.of_nat (List.length ds)) ++ ds in
        let k := (List.length ds - 2)%nat in
        let body := firstn k ds ++ "."%char :: skipn k ds in
        string_of_list_ascii (if s then "-"%char :: body else body)
  | S754_zero _ => "0.00"
  | _ => toString x
  end.

(** The value of a hexadecimal digit, if the character is one. *)
Definition hex_val (c : ascii) : option Z :=
  let n := nat_of_ascii c in
  if is_digit c then Some (digit_val c)
  else if (97 <=? n)%nat && (n <=? 102)%nat then Some (Z.of_nat n - 87)
  else if (65 <=? n)%nat && (n <=? 70)%nat then Some (Z.of_nat n - 55)
  else None.

Fixpoint hex_prefix_val (s : list ascii) (acc : option Z) : option Z :=
  match s with
  | c :: r =>
      match hex_val c with
      | Some d =>
          hex_prefix_val r (Some (16 * match acc with Some a => a | None => 0 end + d))
      | None => acc
      end
  | [] => acc
  end.

(** [parseInt(string)] without a radix, on the texts a route parameter
    carries: leading white space and a sign are skipped, a [0x] or [0X]
    prefix selects base 16, otherwise the longest prefix of decimal digits
    is read. [None] is NaN. The result is the exact integer; a Number
    agrees with it up to 2^53. *)
Definition parseInt (s : string) : option Z :=
  let (neg, r) := take_sign (trim_start (list_ascii_of_string s)) in
  let signed (v : Z) := if neg then - v else v in
  match r with
  | "0"%char :: x :: h =>
      if Ascii.eqb x "x" || Ascii.eqb x "X" then
        option_map signed (hex_prefix_val h None)
      else
        let (ds, _) := span_digits r in Some (signed (digits_val ds))
  | _ =>
      let (ds, _) := span_digits r in
      match ds with
      | [] => None
      | _ => Some (signed (digits_val ds))
      end
  end.

(** [text.slice(-n)]: the last [n] characters. *)
Definition slice_last (n : nat) (s : list ascii) : list ascii :=
  skipn (List.length s - n) s.

(** Truthiness of the values the handlers test. *)
Definition truthy_string (s : option string) : bool :=
  match s with
  | Some "" => false
  | Some _ => true
  | None => false
  end.

Definition truthy_int (n : option Z) : bool :=
  match n with
  | Some z => negb (z =? 0)
  | None => false
  end.

(** [a === b] between a nullable and an optional number. *)
Definition strict_eq_int (a b : option Z) : bool :=
  match a, b with
  | Some x, Some y => x =? y
  | _, _ => false
  end.

Definition dquote : ascii := ascii_of_nat 34.

(** JSON text of a string value. *)
Definition hex_digit (n : nat) : ascii :=
  if (n <? 10)%nat then ascii_of_nat (48 + n) else ascii_of_nat (87 + n).

Definition json_escape_char (c : ascii) : list ascii :=
  let n := nat_of_ascii c in
  if (n =? 34)%nat then ["\"%char; dquote]
  else if (n =? 92)%nat then ["\"%char; "\"%char]
  else if (n =? 8)%nat then ["\"%char; "b"%char]
  else if (n =? 12)%nat then ["\"%char; "f"%char]
  else if (n =? 10)%nat then ["\"%char; "n"%char]
  else if (n =? 13)%nat then ["\"%char; "r"%char]
  else if (n =? 9)%nat then ["\"%char; "t"%char]
  else if (n <? 32)%nat then
    ["\"%char; "u"%char; "0"%char; "0"%char;
     hex_digit (n / 16); hex_digit (n mod 16)]
  else [c].

Definition json_string (s : string) : string :=
  string_of_list_ascii
    (dquote :: flat_map json_escape_char (list_ascii_of_string s)
       ++ [dquote]).

(** JSON text of a Number: non-finite values serialise as null. *)
Definition json_number (x : number) : string :=
  match Prim2SF x with
  | S754_nan | S754_infinity _ => "null"
  | _ => toString x
  end.

End JS.

(* ================================================================== *)
(** * Permission helpers *)
(* ================================================================== *)

(** [checkBranchPermissions(userRole, userBranchId, targetBranchId)].
    [userBranchId] is [number | null], [targetBranchId] is optional;
    [!targetBranchId] holds for an absent target and for [0]. *)
Definition checkBranchPermissions
  (userRole : string) (userBranchId : option Z) (targetBranchId : option Z)
  : bool :=
  if String.eqb userRole "superadmin" then true
  else if negb (JS.truthy_int targetBranchId) then true
  else if String.eqb userRole "branch-admin" || String.eqb userRole "custom" then
    JS.strict_eq_int userBranchId targetBranchId
  else false.

(* ================================================================== *)
(** * The database server's text operations *)
(* ================================================================== *)

Module Pg.

Definition lower_char (c : ascii) : ascii :=
  let n := nat_of_ascii c in
  if (65 <=? n)%nat && (n <=? 90)%nat then ascii_of_nat (n + 32) else c.

Definition lower (s : list ascii) : list ascii := map lower_char s.

Definition is_nil (t : list ascii) : bool :=
  match t with
  | [] => true
  | _ :: _ => false
  end.

(** [text LIKE pattern]: [%] stands for any run of characters, [_] for one
    character, a backslash takes the next character literally.  A pattern
    ending in a lone backslash is an error on the server; the patterns of
    [searchGuests] end in [%] and never reach that case. *)
Fixpoint like_match (p : list ascii) (t : list ascii) {struct p} : bool :=
  match p with
  | [] => is_nil t
  | c :: p' =>
      if Ascii.eqb c "%" then
        (fix any (u : list ascii) : bool :=
           like_match p' u
           || match u with
              | [] => false
              | _ :: u' => any u'
              end) t
      else if Ascii.eqb c "_" then
        match t with
        | _ :: t' => like_match p' t'
        | [] => false
        end
      else if Ascii.eqb c "\" then
        match p' with
        | e :: p'' =>
            match t with
            | d :: t' => Ascii.eqb e d && like_match p'' t'
            | [] => false
            end
        | [] => false
        end
      else
        match t with
        | d :: t' => Ascii.eqb c d && like_match p' t'
        | [] => false
        end
  end.

(** [column ILIKE pattern] on a nullable text column: NULL matches nothing. *)
Definition ilike (column : option string) (pattern : string) : bool :=
  match column with
  | Some text =>
      like_match (lower (list_ascii_of_string pattern))
                 (lower (list_ascii_of_string text))
  | None => false
  end.

Fixpoint trim_end_spaces (s : list ascii) : list ascii :=
  match s with
  | c :: r =>
      match trim_end_spaces r with
      | [] => if JS.is_space c then [] else [c]
      | r' => c :: r'
      end
  | [] => []
  end.

(** Modelled from the spec: the money columns ([totalAmount], [taxAmount],
    [paidAmount]) are declared in [shared/schema.ts], which is not among
    the sources; the spec writes their values with two decimals
    ("200.00", "20.00", "220.00"), so they are taken to be decimal columns
    of scale 2.  The text written to such a column is read as a decimal
    (sign, digits, fraction, exponent), rounded to two places, half away
    from zero, and returned in that form; [None] is the server's error on
    a text that is not a number. *)
Definition numeric2 (s : string) : option string :=
  let body := trim_end_spaces (JS.trim_start (list_ascii_of_string s)) in
  if JS.starts_with (lower body) (list_ascii_of_string "nan")
     && (List.length body =? 3)%nat then Some "NaN"
  else
    let (neg, r) := JS.take_sign body in
    let (ip, r1) := JS.span_digits r in
    let (fp, r2) :=
      match r1 with
      | "."%char :: t => JS.span_digits t
      | _ => ([], r1)
      end in
    let ex :=
      match r2 with
      | [] => Some 0
      | c :: r3 =>
          if Ascii.eqb c "e" || Ascii.eqb c "E" then
            let (eneg, r4) := JS.take_sign r3 in
            let (ds, rest) := JS.span_digits r4 in
            match ds, rest with
            | _ :: _, [] =>
                Some (if eneg then - JS.digits_val ds else JS.digits_val ds)
            | _, _ => None
            end
          else None
      end in
    match ip, fp, ex with
    | [], [], _ => None
    | _, _, None => None
    | _, _, Some e =>
        let m := JS.digits_val (ip ++ fp) in
        let sc := e - Z.of_nat (List.length fp) + 2 in
        let n :=
          if 0 <=? sc then m * 10 ^ sc
          else (2 * m + 10 ^ (- sc)) / (2 * 10 ^ (- sc)) in
        let frac := JS.Z_digits (n mod 100) in
        Some (string_of_list_ascii
                ((if neg && negb (n =? 0) then ["-"%char] else [])
                 ++ JS.Z_digits (n / 100) ++ "."%char
                 :: JS.zeros (2 - Z.of_nat (List.length frac)) ++ frac))
    end.

End Pg.

(* ================================================================== *)
(** * Rows of the relational store *)
(* ================================================================== *)

Module User.
Record t := { id : string; role : string; branchId : option Z }.
End User.

Module Branch.
Record t := { id : Z; name : string; isActive : bool }.
Definition set_isActive (v : bool) (b : t) : t :=
  {| id := id b; name := name b; isActive := v |}.
End Branch.

Module Room.
Record t := { id : Z; branchId : Z; number : string; status : string }.
Definition set_status (v : string) (r : t) : t :=
  {| id := id r; branchId := branchId r; number := number r; status := v |}.
End Room.

Module Guest.
Record t := {
  id : Z;
  firstName : option string;
  lastName : option string;
  phone : option string;
  email : option string;
  branchId : option Z;
  reservationCount : Z;
  isActive : bool;
  createdAt : Z
}.
Definition set_reservationCount (v : Z) (g : t) : t :=
  {| id := id g; firstName := firstName g; lastName := lastName g;
     phone := phone g; email := email g; branchId := branchId g;
     reservationCount := v; isActive := isActive g;
     createdAt := createdAt g |}.
End Guest.

Module Tax.
Record t := {
  id : Z;
  taxName : string;
  rate : string;
  applicationType : string;
  isActive : bool
}.
End Tax.

Module ReservationRoom.
Record t := {
  id : Z;
  reservationId : string;
  roomId : Z;
  checkInDate : string;
  checkOutDate : string;
  adults : Z;
  children : Z;
  ratePerNight : string;
  totalAmount : string;
  specialRequests : option string
}.
End ReservationRoom.

(** A reservation row.  A column the insert leaves out holds [None]: the
    column defaults are declared in the schema, which is not among the
    sources. *)
Module Reservation.
Record t := {
  id : string;
  branchId : option Z;
  guestId : Z;
  status : option string;
  totalAmount : option string;
  taxAmount : option string;
  paidAmount : option string;
  appliedTaxes : option string;
  notes : option string;
  confirmationNumber : string;
  createdById : string
}.
End Reservation.

(** What [storage.getReservation] returns: the row joined with its guest
    and its reservation-rooms. *)
Module ReservationDetail.
Record t := {
  row : Reservation.t;
  guest : option Guest.t;
  reservationRooms : list ReservationRoom.t
}.
End ReservationDetail.

(* ================================================================== *)
(** * Request bodies *)
(* ================================================================== *)

(** A money field of a JSON body arrives as a number or as a string. *)
Inductive Money :=
| MNum (x : JS.number)
| MStr (s : string).

(** The guest part of a body.  No handler validates it: it reaches
    [insert(guests).values] (lines 1005-1008, 1187-1190) and
    [update(guests).set] (line 1341) as the client sent it, so it sets
    every column of [guests] it names.  The members are the columns of
    [guests] that the sources read or write, but for two.  [createdAt] is
    set by the server.  [id] is the serial key: the update handler deletes
    it from the payload (line 1340), and a creation payload is taken to
    name none, what the server does with one being a matter of how the
    schema declares the key. *)
Module GuestData.
Record t := {
  firstName : option string;
  lastName : option string;
  phone : option string;
  email : option string;
  branchId : option Z;
  reservationCount : option Z;
  isActive : option bool
}.
End GuestData.

Module ReservationData.
Record t := {
  branchId : option Z;
  status : option string;
  totalAmount : option Money;
  taxAmount : option Money;
  paidAmount : option Money;
  appliedTaxes : option string;
  notes : option string
}.
Definition empty : t :=
  {| branchId := None; status := None; totalAmount := None;
     taxAmount := None; paidAmount := None; appliedTaxes := None;
     notes := None |}.
End ReservationData.

Module RoomData.
Record t := {
  id : option Z;
  roomId : Z;
  checkInDate : string;
  checkOutDate : string;
  adults : Z;
  children : Z;
  ratePerNight : string;
  totalAmount : string;
  specialRequests : option string
}.
End RoomData.

(** [req.body]: the three members the reservation handlers destructure,
    and the body's own reservation columns (the legacy flat shape). *)
Module Body.
Record t := {
  guest : option GuestData.t;
  reservation : option ReservationData.t;
  rooms : option (list RoomData.t);
  flat : ReservationData.t
}.
End Body.

(** What a handler reads of the request: the session's user, the [:id]
    route parameter, the query text, the body and the clock. *)
Module Request.
Record t := {
  sessionUser : option string;
  param_id : string;
  query_q : option string;
  body : Body.t;
  now : Z
}.
End Request.

(* ================================================================== *)
(** * The store and the effects of a handler *)
(* ================================================================== *)

(** The calls that change the store, and the broadcasts, in the order a
    handler makes them. *)
Inductive Event :=
| EvBroadcast (resource kind : string)
| EvCreateGuest (id : Z)
| EvUpdateGuest (id : Z)
| EvCreateReservation (id : string)
| EvUpdateReservation (id : string)
| EvCreateReservationRoom (id : Z)
| EvUpdateRoom (id : Z) (status : string)
| EvUpdateBranch (id : Z)
| EvDeleteBranch (id : Z).

Inductive PermissionAction := Read | Write | Delete.

Record Store := {
  users : list User.t;
  branches : list Branch.t;
  rooms : list Room.t;
  guests : list Guest.t;
  reservations : list Reservation.t;
  reservationRooms : list ReservationRoom.t;
  taxes : list Tax.t;
  (** the grants of the custom roles: (user id, module, action) *)
  rolePermissions : list (string * string * PermissionAction);
  nextGuestId : Z;
  nextReservationId : Z;
  nextReservationRoomId : Z;
  trace : list Event
}.

Definition with_branches (v : list Branch.t) (s : Store) : Store :=
  {| users := users s; branches := v; rooms := rooms s; guests := guests s;
     reservations := reservations s; reservationRooms := reservationRooms s;
     taxes := taxes s; rolePermissions := rolePermissions s;
     nextGuestId := nextGuestId s; nextReservationId := nextReservationId s;
     nextReservationRoomId := nextReservationRoomId s; trace := trace s |}.

Definition with_rooms (v : list Room.t) (s : Store) : Store :=
  {| users := users s; branches := branches s; rooms := v; guests := guests s;
     reservations := reservations s; reservationRooms := reservationRooms s;
     taxes := taxes s; rolePermissions := rolePermissions s;
     nextGuestId := nextGuestId s; nextReservationId := nextReservationId s;
     nextReservationRoomId := nextReservationRoomId s; trace := trace s |}.

Definition with_guests (v : list Guest.t) (next : Z) (s : Store) : Store :=
  {| users := users s; branches := branches s; rooms := rooms s; guests := v;
     reservations := reservations s; reservationRooms := reservationRooms s;
     taxes := taxes s; rolePermissions := rolePermissions s;
     nextGuestId := next; nextReservationId := nextReservationId s;
     nextReservationRoomId := nextReservationRoomId s; trace := trace s |}.

Definition with_reservations (v : list Reservation.t) (next : Z) (s : Store)
  : Store :=
  {| users := users s; branches := branches s; rooms := rooms s;
     guests := guests s; reservations := v;
     reservationRooms := reservationRooms s; taxes := taxes s;
     rolePermissions := rolePermissions s; nextGuestId := nextGuestId s;
     nextReservationId := next;
     nextReservationRoomId := nextReservationRoomId s; trace := trace s |}.

Definition with_reservationRooms (v : list ReservationRoom.t) (next : Z)
  (s : Store) : Store :=
  {| users := users s; branches := branches s; rooms := rooms s;
     guests := guests s; reservations := reservations s;
     reservationRooms := v; taxes := taxes s;
     rolePermissions := rolePermissions s; nextGuestId := nextGuestId s;
     nextReservationId := nextReservationId s;
     nextReservationRoomId := next; trace := trace s |}.

(** Appends an event to the trace. *)
Definition emit (e : Event) (s : Store) : Store :=
  {| users := users s; branches := branches s; rooms := rooms s;
     guests := guests s; reservations := reservations s;
     reservationRooms := reservationRooms s; taxes := taxes s;
     rolePermissions := rolePermissions s; nextGuestId := nextGuestId s;
     nextReservationId := nextReservationId s;
     nextReservationRoomId := nextReservationRoomId s;
     trace := trace s ++ [e] |}.

(** [res.status(code).json(payload)] and [res.status(code).send()]. *)
Inductive Payload :=
| Message (message : string)
| BranchAction (action message : string)
| ReservationRow (r : option Reservation.t)
| ReservationJoined (r : option ReservationDetail.t)
| GuestList (l : list Guest.t)
| NoBody.

Record Response := { code : Z; payload : Payload }.

(** A step of a handler: it goes on with a value, has sent the response
    (an early [return res...]), or has thrown. *)
Inductive Outcome (A : Type) : Type :=
| Next (a : A)
| Sent (r : Response)
| Thrown.
Arguments Next {A} a.
Arguments Sent {A} r.
Arguments Thrown {A}.

Definition Action (A : Type) : Type := Store -> Outcome A * Store.

Definition ret {A} (a : A) : Action A := fun s => (Next a, s).

Definition bind {A B} (m : Action A) (k : A -> Action B) : Action B :=
  fun s =>
    match m s with
    | (Next a, s') => k a s'
    | (Sent r, s') => (Sent r, s')
    | (Thrown, s') => (Thrown, s')
    end.

Declare Scope action_scope.
Delimit Scope action_scope with action.
Notation "x <- m ;; k" := (bind m (fun x => k))
  (at level 61, m at next level, right associativity) : action_scope.
Notation "m ;;; k" := (bind m (fun _ => k))
  (at level 61, right associativity) : action_scope.

(** [return res.status(code).json(payload)]. *)
Definition respond {A} (c : Z) (p : Payload) : Action A :=
  fun s => (Sent {| code := c; payload := p |}, s).

Definition throw {A} : Action A := fun s => (Thrown, s).

(** A read of the store. *)
Definition query {A} (f : Store -> A) : Action A := fun s => (Next (f s), s).

(** A write to the store. *)
Definition update (f : Store -> Store) : Action unit :=
  fun s => (Next tt, f s).

(** A write that the server may refuse: the call throws and nothing is
    written. *)
Definition attempt {A} (f : Store -> option (A * Store)) : Action A :=
  fun s =>
    match f s with
    | Some (a, s') => (Next a, s')
    | None => (Thrown, s)
    end.

(** [if (c) return res...]. *)
Definition guard (c : bool) (code : Z) (message : string) : Action unit :=
  if c then respond code (Message message) else ret tt.

(** [for (const x of xs) { await f(x) }]. *)
Fixpoint for_each {A} (xs : list A) (f : A -> Action unit) : Action unit :=
  match xs with
  | [] => ret tt
  | x :: r => bind (f x) (fun _ => for_each r f)
  end.

(** [try { body } catch (error) { res.status(500).json({message}) }]: the
    handler's response and the store it leaves. *)
Definition try_catch (body : Action Empty_set) (message : string) (s : Store)
  : Response * Store :=
  match body s with
  | (Next e, _) => match e with end
  | (Sent r, s') => (r, s')
  | (Thrown, s') => ({| code := 500; payload := Message message |}, s')
  end.

(* ================================================================== *)
(** * [DatabaseStorage] *)
(* ================================================================== *)

(** The columns [createReservation] inserts. *)
Module InsertReservation.
Record t := {
  branchId : option Z;
  guestId : Z;
  status : option string;
  totalAmount : option string;
  taxAmount : option string;
  paidAmount : option string;
  appliedTaxes : option string;
  notes : option string;
  confirmationNumber : string;
  createdById : string
}.
End InsertReservation.

(** A validated partial reservation: what
    [insertReservationSchema.partial().parse] returns. *)
Module ReservationPatch.
Record t := {
  branchId : option Z;
  status : option string;
  totalAmount : option string;
  taxAmount : option string;
  paidAmount : option string;
  appliedTaxes : option string;
  notes : option string
}.
Definition only_status (v : string) : t :=
  {| branchId := None; status := Some v; totalAmount := None;
     taxAmount := None; paidAmount := None; appliedTaxes := None;
     notes := None |}.
End ReservationPatch.

(** The value a partial update leaves in a column. *)
Definition patched {A} (new : option A) (old : option A) : option A :=
  match new with
  | Some v => Some v
  | None => old
  end.

Definition is_some {A} (v : option A) : bool :=
  match v with
  | Some _ => true
  | None => false
  end.

(** [Object.keys(patch).length > 0], for a validated reservation patch and
    for a guest payload: the patch names a column. *)
Definition patch_has_keys (p : ReservationPatch.t) : bool :=
  is_some (ReservationPatch.branchId p) || is_some (ReservationPatch.status p)
  || is_some (ReservationPatch.totalAmount p)
  || is_some (ReservationPatch.taxAmount p)
  || is_some (ReservationPatch.paidAmount p)
  || is_some (ReservationPatch.appliedTaxes p)
  || is_some (ReservationPatch.notes p).

Definition guest_has_keys (d : GuestData.t) : bool :=
  is_some (GuestData.firstName d) || is_some (GuestData.lastName d)
  || is_some (GuestData.phone d) || is_some (GuestData.email d)
  || is_some (GuestData.branchId d)
  || is_some (GuestData.reservationCount d)
  || is_some (GuestData.isActive d).

(** The text a money column keeps for the text written to it; [None] at
    the top is the server's refusal. *)
Definition money_column (v : option string) : option (option string) :=
  match v with
  | None => Some None
  | Some text =>
      match Pg.numeric2 text with
      | Some stored => Some (Some stored)
      | None => None
      end
  end.

Module Storage.

Definition getUser (id : string) (s : Store) : option User.t :=
  find (fun u => String.eqb (User.id u) id) (users s).

Definition getBranch (id : Z) (s : Store) : option Branch.t :=
  find (fun b => Branch.id b =? id) (branches s).

(** [updateBranch(id, { isActive })]. *)
Definition updateBranch (id : Z) (isActive : bool) (s : Store) : Store :=
  emit (EvUpdateBranch id)
    (with_branches
       (map (fun b => if Branch.id b =? id
                      then Branch.set_isActive isActive b else b)
            (branches s)) s).

Definition deleteBranch (id : Z) (s : Store) : Store :=
  emit (EvDeleteBranch id)
    (with_branches (filter (fun b => negb (Branch.id b =? id)) (branches s))
       s).

(** [updateRoom(id, { status })]. *)
Definition updateRoom (id : Z) (status : string) (s : Store) : Store :=
  emit (EvUpdateRoom id status)
    (with_rooms
       (map (fun r => if Room.id r =? id then Room.set_status status r else r)
            (rooms s)) s).

Definition getGuest (id : Z) (s : Store) : option Guest.t :=
  find (fun g => Guest.id g =? id) (guests s).

(** [createGuest({ ...guestData, branchId })]: the row holds the columns
    the payload names, and [branchId] is the handler's, which comes after
    the spread.  Modelled from the spec for the column defaults, which the
    schema declares: a count the payload does not name starts at 0, a
    guest is active unless the payload says otherwise, and [createdAt] is
    the time of the insert; the id is the next of the serial. *)
Definition createGuest (data : GuestData.t) (branchId : option Z) (now : Z)
  (s : Store) : Guest.t * Store :=
  let g :=
    {| Guest.id := nextGuestId s;
       Guest.firstName := GuestData.firstName data;
       Guest.lastName := GuestData.lastName data;
       Guest.phone := GuestData.phone data;
       Guest.email := GuestData.email data;
       Guest.branchId := branchId;
       Guest.reservationCount :=
         match GuestData.reservationCount data with
         | Some v => v
         | None => 0
         end;
       Guest.isActive :=
         match GuestData.isActive data with
         | Some v => v
         | None => true
         end;
       Guest.createdAt := now |} in
  (g, emit (EvCreateGuest (Guest.id g))
        (with_guests (guests s ++ [g]) (nextGuestId s + 1) s)).

(** [.set(guest)] on one row: every column the patch names takes the
    patch's value. *)
Definition apply_guest_data (data : GuestData.t) (g : Guest.t) : Guest.t :=
  {| Guest.id := Guest.id g;
     Guest.firstName := patched (GuestData.firstName data) (Guest.firstName g);
     Guest.lastName := patched (GuestData.lastName data) (Guest.lastName g);
     Guest.phone := patched (GuestData.phone data) (Guest.phone g);
     Guest.email := patched (GuestData.email data) (Guest.email g);
     Guest.branchId := patched (GuestData.branchId data) (Guest.branchId g);
     Guest.reservationCount :=
       match GuestData.reservationCount data with
       | Some v => v
       | None => Guest.reservationCount g
       end;
     Guest.isActive :=
       match GuestData.isActive data with
       | Some v => v
       | None => Guest.isActive g
       end;
     Guest.createdAt := Guest.createdAt g |}.

(** [UPDATE guests SET ... WHERE id = $id]. *)
Definition set_guest (id : Z) (data : GuestData.t) (s : Store) : Store :=
  emit (EvUpdateGuest id)
    (with_guests
       (map (fun g => if Guest.id g =? id then apply_guest_data data g else g)
            (guests s))
       (nextGuestId s) s).

(** [updateGuest(id, guest)]: the updated row, if any.  The query builder
    refuses a patch that names no column ("No values to set"): the call
    throws, [None] here, and nothing is written. *)
Definition updateGuest (id : Z) (data : GuestData.t) (s : Store)
  : option (option Guest.t * Store) :=
  if guest_has_keys data then
    Some (getGuest id (set_guest id data s), set_guest id data s)
  else None.

(** [ORDER BY created_at DESC]: insertion into a list that is already in
    descending order, after the rows that are not older. *)
Fixpoint insert_desc (g : Guest.t) (l : list Guest.t) : list Guest.t :=
  match l with
  | [] => [g]
  | h :: r =>
      if Guest.createdAt h <? Guest.createdAt g then g :: l
      else h :: insert_desc g r
  end.

Definition orderBy_createdAt_desc (l : list Guest.t) : list Guest.t :=
  fold_right insert_desc [] l.

Definition guest_matches (pattern : string) (branchId : option Z)
  (g : Guest.t) : bool :=
  Guest.isActive g
  && (Pg.ilike (Guest.firstName g) pattern
      || Pg.ilike (Guest.lastName g) pattern
      || Pg.ilike (Guest.phone g) pattern
      || Pg.ilike (Guest.email g) pattern)
  && (if JS.truthy_int branchId
      then JS.strict_eq_int (Guest.branchId g) branchId else true).

(** [searchGuests(query, branchId?)]. *)
Definition searchGuests (query : string) (branchId : option Z) (s : Store)
  : list Guest.t :=
  firstn 10
    (orderBy_createdAt_desc
       (filter (guest_matches ("%" ++ query ++ "%")%string branchId)
          (guests s))).

Definition getReservation (id : string) (s : Store)
  : option ReservationDetail.t :=
  match find (fun r => String.eqb (Reservation.id r) id) (reservations s) with
  | None => None
  | Some r =>
      Some {| ReservationDetail.row := r;
              ReservationDetail.guest :=
                find (fun g => Guest.id g =? Reservation.guestId r) (guests s);
              ReservationDetail.reservationRooms :=
                filter (fun rr => String.eqb (ReservationRoom.reservationId rr)
                                    (Reservation.id r))
                  (reservationRooms s) |}
  end.

(** The identifier the server gives a new reservation row: an opaque
    text, here the counter's decimal form after a letter. *)
Definition reservation_id (n : Z) : string :=
  ("r" ++ JS.Z_to_string n)%string.

Definition reservationRoom_of (reservationId : string) (id : Z)
  (d : RoomData.t) : ReservationRoom.t :=
  {| ReservationRoom.id := id;
     ReservationRoom.reservationId := reservationId;
     ReservationRoom.roomId := RoomData.roomId d;
     ReservationRoom.checkInDate := RoomData.checkInDate d;
     ReservationRoom.checkOutDate := RoomData.checkOutDate d;
     ReservationRoom.adults := RoomData.adults d;
     ReservationRoom.children := RoomData.children d;
     ReservationRoom.ratePerNight := RoomData.ratePerNight d;
     ReservationRoom.totalAmount := RoomData.totalAmount d;
     ReservationRoom.specialRequests := RoomData.specialRequests d |}.

(** Rows for a list of room assignments, numbered from [next]. *)
Fixpoint number_rooms (reservationId : string) (next : Z)
  (l : list RoomData.t) : list ReservationRoom.t :=
  match l with
  | [] => []
  | d :: r =>
      reservationRoom_of reservationId next d
      :: number_rooms reservationId (next + 1) r
  end.

Definition increment_reservationCount (guestId : Z) (l : list Guest.t)
  : list Guest.t :=
  map (fun g => if Guest.id g =? guestId
                then Guest.set_reservationCount (Guest.reservationCount g + 1) g
                else g) l.

(** [createReservation(reservation, roomsData)]: one transaction.  The
    reservation-room amounts are kept as the text passed; no handler reads
    them back. *)
Definition createReservation (r : InsertReservation.t)
  (roomsData : list RoomData.t) (s : Store)
  : option (Reservation.t * Store) :=
  match money_column (InsertReservation.totalAmount r),
        money_column (InsertReservation.taxAmount r),
        money_column (InsertReservation.paidAmount r) with
  | Some total, Some tax, Some paid =>
      let newReservation :=
        {| Reservation.id := reservation_id (nextReservationId s);
           Reservation.branchId := InsertReservation.branchId r;
           Reservation.guestId := InsertReservation.guestId r;
           Reservation.status := InsertReservation.status r;
           Reservation.totalAmount := total;
           Reservation.taxAmount := tax;
           Reservation.paidAmount := paid;
           Reservation.appliedTaxes := InsertReservation.appliedTaxes r;
           Reservation.notes := InsertReservation.notes r;
           Reservation.confirmationNumber :=
             InsertReservation.confirmationNumber r;
           Reservation.createdById := InsertReservation.createdById r |} in
      let s1 :=
        with_reservations (reservations s ++ [newReservation])
          (nextReservationId s + 1) s in
      let s2 :=
        match roomsData with
        | [] => s1
        | _ :: _ =>
            let s' :=
              with_reservationRooms
                (reservationRooms s1
                 ++ number_rooms (Reservation.id newReservation)
                      (nextReservationRoomId s1) roomsData)
                (nextReservationRoomId s1 + Z.of_nat (List.length roomsData))
                s1 in
            if negb (InsertReservation.guestId r =? 0) then
              with_guests
                (increment_reservationCount (InsertReservation.guestId r)
                   (guests s'))
                (nextGuestId s') s'
            else s'
        end in
      Some (newReservation,
            emit (EvCreateReservation (Reservation.id newReservation)) s2)
  | _, _, _ => None
  end.

Definition apply_reservation_patch (p : ReservationPatch.t)
  (total tax paid : option string) (r : Reservation.t) : Reservation.t :=
  {| Reservation.id := Reservation.id r;
     Reservation.branchId :=
       patched (ReservationPatch.branchId p) (Reservation.branchId r);
     Reservation.guestId := Reservation.guestId r;
     Reservation.status :=
       patched (ReservationPatch.status p) (Reservation.status r);
     Reservation.totalAmount := patched total (Reservation.totalAmount r);
     Reservation.taxAmount := patched tax (Reservation.taxAmount r);
     Reservation.paidAmount := patched paid (Reservation.paidAmount r);
     Reservation.appliedTaxes :=
       patched (ReservationPatch.appliedTaxes p) (Reservation.appliedTaxes r);
     Reservation.notes :=
       patched (ReservationPatch.notes p) (Reservation.notes r);
     Reservation.confirmationNumber := Reservation.confirmationNumber r;
     Reservation.createdById := Reservation.createdById r |}.

(** [updateReservation(id, reservation)]: the updated row, if any.  The
    call throws, [None] here, on a patch that names no column (the query
    builder's "No values to set") and on a money text the server
    refuses. *)
Definition updateReservation (id : string) (p : ReservationPatch.t)
  (s : Store) : option (option Reservation.t * Store) :=
  if patch_has_keys p then
    match money_column (ReservationPatch.totalAmount p),
          money_column (ReservationPatch.taxAmount p),
          money_column (ReservationPatch.paidAmount p) with
    | Some total, Some tax, Some paid =>
        let rows :=
          map (fun r => if String.eqb (Reservation.id r) id
                        then apply_reservation_patch p total tax paid r else r)
              (reservations s) in
        Some (find (fun r => String.eqb (Reservation.id r) id) rows,
              emit (EvUpdateReservation id)
                (with_reservations rows (nextReservationId s) s))
    | _, _, _ => None
    end
  else None.

(** [createReservationRoom(reservationRoom)]. *)
Definition createReservationRoom (reservationId : string) (d : RoomData.t)
  (s : Store) : Store :=
  emit (EvCreateReservationRoom (nextReservationRoomId s))
    (with_reservationRooms
       (reservationRooms s
        ++ [reservationRoom_of reservationId (nextReservationRoomId s) d])
       (nextReservationRoomId s + 1) s).

(** [storage.updateReservationRoom(id, payload)] and
    [storage.deleteReservationRoom(id)].  The update handler calls them
    (lines 1397 and 1376), and [storage.ts] has no member of either name,
    neither in [IStorage] nor in [DatabaseStorage]: [storage.f] is
    [undefined] and the call throws a TypeError, with nothing written. *)
Definition updateReservationRoom (id : Z) (reservationId : string)
  (d : RoomData.t) : Action unit :=
  throw.

Definition deleteReservationRoom (id : Z) : Action unit :=
  throw.

End Storage.

(** Modelled from the spec: [restaurantStorage.getActiveReservationTaxes]
    lives in [restaurant-storage.ts], which is not among the sources.  The
    spec: "fetch all taxes with isActive = true and matching
    applicationType", here [reservation]; the spec names no order, the
    rows come in the order of the table. *)
Definition getActiveReservationTaxes (s : Store) : list Tax.t :=
  filter (fun t => Tax.isActive t
                   && String.eqb (Tax.applicationType t) "reservation")
    (taxes s).

Definition mem_string (x : string) (l : list string) : bool :=
  existsb (String.eqb x) l.

Definition action_eqb (a b : PermissionAction) : bool :=
  match a, b with
  | Read, Read | Write, Write | Delete, Delete => true
  | _, _ => false
  end.

(** [checkUserPermission(userId, module, action)].  The grants of a custom
    role come from [roleStorage.getUserPermissions], read here from the
    store's [rolePermissions]. *)
Definition checkUserPermission (userId module : string)
  (action : PermissionAction) (s : Store) : bool :=
  match Storage.getUser userId s with
  | None => false
  | Some user =>
      if String.eqb (User.role user) "superadmin" then true
      else if String.eqb (User.role user) "branch-admin" then
        negb (mem_string module ["users"; "branches"; "settings"])
      else if String.eqb (User.role user) "front-desk" then
        if negb (mem_string module
                   ["dashboard"; "reservations"; "rooms"; "guests"; "billing"])
        then false
        else if action_eqb action Delete
                && negb (mem_string module ["reservations"])
        then false
        else true
      else if String.eqb (User.role user) "custom" then
        existsb (fun g => match g with
                          | (u, m, a) =>
                              String.eqb u userId && String.eqb m module
                              && action_eqb a action
                          end)
          (rolePermissions s)
      else false
  end.

(* ================================================================== *)
(** * The handlers of [registerRoutes] *)
(* ================================================================== *)

Open Scope action_scope.

(** [if (c) { body }]. *)
Definition when (c : bool) (body : Action unit) : Action unit :=
  if c then body else ret tt.

(** [broadcastChange(resource, kind, data)]. *)
Definition broadcastChange (resource kind : string) : Action unit :=
  update (emit (EvBroadcast resource kind)).

(** Reading a member of a body part that may be undefined throws. *)
Definition defined {A} (v : option A) : Action A :=
  match v with
  | Some a => ret a
  | None => throw
  end.

(** The text the database driver sends for a money field. *)
Definition money_text (m : Money) : string :=
  match m with
  | MNum x => JS.toString x
  | MStr s => s
  end.

(** The range of an [integer] column. *)
Definition int4 (z : Z) : bool := (- 2 ^ 31 <=? z) && (z <? 2 ^ 31).

(** [await storage.get(parseInt(req.params.id))] on a serial key.  The
    server refuses a key that is not a 32-bit integer, NaN included: the
    query throws.  The keys of the rows are in range, so a key out of
    range is one that finds no row. *)
Definition lookup {A} (get : Z -> Store -> option A) (key : option Z)
  : Action (option A) :=
  match key with
  | None => throw
  | Some id =>
      row <- query (get id) ;;
      match row with
      | Some found => ret (Some found)
      | None => if int4 id then ret None else throw
      end
  end.

(** [app.delete("/api/branches/:id", ...)]. *)
Definition deleteBranchHandler (userId : string) (req : Request.t)
  : Store -> Response * Store :=
  try_catch
    (user <- query (Storage.getUser userId) ;;
     guard (match user with
            | Some u => negb (String.eqb (User.role u) "superadmin")
            | None => true
            end) 403 "Insufficient permissions" ;;;
     let branchId := JS.parseInt (Request.param_id req) in
     branch <- lookup Storage.getBranch branchId ;;
     match branch, branchId with
     | Some b, Some id =>
         if Branch.isActive b then
           update (Storage.updateBranch id false) ;;;
           broadcastChange "branches" "updated" ;;;
           respond 200
             (BranchAction "deactivated" "Branch deactivated successfully")
         else
           update (Storage.deleteBranch id) ;;;
           broadcastChange "branches" "deleted" ;;;
           respond 200 (BranchAction "deleted" "Branch deleted permanently")
     | _, _ => respond 404 (Message "Branch not found")
     end)
    "Failed to update branch".

(** [app.get("/api/guests/search", ...)]. *)
Definition searchGuestsHandler (userId : string) (req : Request.t)
  : Store -> Response * Store :=
  try_catch
    (user <- query (Storage.getUser userId) ;;
     guard (match user with Some _ => false | None => true end)
       401 "User not found" ;;;
     if negb (JS.truthy_string (Request.query_q req))
     then respond 200 (GuestList [])
     else
       found <- query (Storage.searchGuests
                         (match Request.query_q req with
                          | Some q => q
                          | None => ""
                          end) None) ;;
       respond 200 (GuestList found))
    "Failed to search guests".

(** [{ isActive: false }]. *)
Definition deactivation : GuestData.t :=
  {| GuestData.firstName := None; GuestData.lastName := None;
     GuestData.phone := None; GuestData.email := None;
     GuestData.branchId := None; GuestData.reservationCount := None;
     GuestData.isActive := Some false |}.

(** [app.delete("/api/guests/:id", ...)]: marks the guest inactive. *)
Definition deleteGuestHandler (userId : string) (req : Request.t)
  : Store -> Response * Store :=
  try_catch
    (user <- query (Storage.getUser userId) ;;
     guard (match user with Some _ => false | None => true end)
       401 "User not found" ;;;
     allowed <- query (checkUserPermission userId "guests" Delete) ;;
     guard (negb allowed) 403
       "You do not have permission to delete guests" ;;;
     let guestId := JS.parseInt (Request.param_id req) in
     existing <- lookup Storage.getGuest guestId ;;
     match existing, guestId with
     | Some _, Some id =>
         attempt (Storage.updateGuest id deactivation) ;;;
         broadcastChange "guests" "deleted" ;;;
         respond 204 NoBody
     | _, _ => respond 404 (Message "Guest not found")
     end)
    "Failed to delete guest".

(** "Check if guest already exists by phone number" and "Create new guest
    if not found": the same statements in both reservation-creating
    handlers (lines 994-1009 and 1176-1191). *)
Definition existingGuests (guestData : GuestData.t) (s : Store)
  : list Guest.t :=
  if JS.truthy_string (GuestData.phone guestData)
  then Storage.searchGuests (match GuestData.phone guestData with
                             | Some p => p
                             | None => ""
                             end) None s
  else [].

Definition resolveGuest (guestData : GuestData.t) (branchId : option Z)
  (now : Z) : Action Guest.t :=
  existingGuests <- query (existingGuests guestData) ;;
  match existingGuests with
  | guest :: _ => ret guest
  | [] => fun s => let (g, s') := Storage.createGuest guestData branchId now s
                   in (Next g, s')
  end.

(** [`RES${Date.now().toString().slice(-8)}`]; [Date.now()] is an integer
    number of milliseconds, whose text is its decimal form. *)
Definition confirmationNumber (now : Z) : string :=
  ("RES" ++ string_of_list_ascii
              (JS.slice_last 8 (list_ascii_of_string (JS.Z_to_string now))))
  %string.

(** "Update room status to reserved": the loop over the payload's rooms,
    in both reservation-creating handlers. *)
Definition reserveRooms (roomsData : list RoomData.t) : Action unit :=
  for_each roomsData
    (fun roomData =>
       update (Storage.updateRoom (RoomData.roomId roomData) "reserved")).

(** [{ ...reservationData, guestId: guest.id, confirmationNumber,
    createdById: user.id }] (line 1013). *)
Definition reservationWithConfirmation (reservationData : ReservationData.t)
  (guest : Guest.t) (user : User.t) (now : Z) : InsertReservation.t :=
  {| InsertReservation.branchId := ReservationData.branchId reservationData;
     InsertReservation.guestId := Guest.id guest;
     InsertReservation.status := ReservationData.status reservationData;
     InsertReservation.totalAmount :=
       option_map money_text (ReservationData.totalAmount reservationData);
     InsertReservation.taxAmount :=
       option_map money_text (ReservationData.taxAmount reservationData);
     InsertReservation.paidAmount :=
       option_map money_text (ReservationData.paidAmount reservationData);
     InsertReservation.appliedTaxes :=
       ReservationData.appliedTaxes reservationData;
     InsertReservation.notes := ReservationData.notes reservationData;
     InsertReservation.confirmationNumber := confirmationNumber now;
     InsertReservation.createdById := User.id user |}.

(** The first [app.post("/api/reservations", ...)] (line 971).  The
    notification that follows the room loop is sent inside its own
    try/catch and touches neither the store nor the response. *)
Definition createReservationHandler (userId : string) (req : Request.t)
  : Store -> Response * Store :=
  try_catch
    (user <- query (Storage.getUser userId) ;;
     match user with
     | None => respond 401 (Message "User not found")
     | Some user =>
         let guestData := Body.guest (Request.body req) in
         let roomsData := Body.rooms (Request.body req) in
         reservationData <- defined (Body.reservation (Request.body req)) ;;
         guard (negb (checkBranchPermissions (User.role user)
                        (User.branchId user)
                        (ReservationData.branchId reservationData)))
           403 "Insufficient permissions for this branch" ;;;
         guestData <- defined guestData ;;
         guest <- resolveGuest guestData
                    (ReservationData.branchId reservationData)
                    (Request.now req) ;;
         let reservationWithConfirmation :=
           reservationWithConfirmation reservationData guest user
             (Request.now req) in
         reservation <-
           attempt (Storage.createReservation reservationWithConfirmation
                      (match roomsData with Some l => l | None => [] end)) ;;
         broadcastChange "reservations" "created" ;;;
         roomsData <- defined roomsData ;;
         reserveRooms roomsData ;;;
         respond 201 (ReservationRow (Some reservation))
     end)
    "Failed to create reservation".

(** An entry of the tax breakdown. *)
Module AppliedTax.
Record t := {
  taxId : Z;
  taxName : string;
  rate : JS.number;
  amount : JS.number
}.
End AppliedTax.

(** [roomsData.reduce((sum, room) => sum + parseFloat(room.totalAmount), 0)]. *)
Definition subtotalOf (roomsData : list RoomData.t) : JS.number :=
  fold_left
    (fun sum room => (sum + JS.parseFloat (RoomData.totalAmount room))%float)
    roomsData 0%float.

(** One turn of [activeTaxes.forEach]: adds the tax's amount to
    [totalTaxAmount] and pushes its entry on [appliedTaxes]. *)
Definition applyTax (subtotal : JS.number)
  (acc : JS.number * list AppliedTax.t) (tax : Tax.t)
  : JS.number * list AppliedTax.t :=
  let taxAmount := (subtotal * JS.parseFloat (Tax.rate tax) / 100)%float in
  ((fst acc + taxAmount)%float,
   snd acc ++ [ {| AppliedTax.taxId := Tax.id tax;
                   AppliedTax.taxName := Tax.taxName tax;
                   AppliedTax.rate := JS.parseFloat (Tax.rate tax);
                   AppliedTax.amount :=
                     JS.parseFloat (JS.toFixed2 taxAmount) |} ]).

(** "Calculate taxes dynamically": [totalTaxAmount] and [appliedTaxes]
    after the loop over the active reservation taxes. *)
Definition calculateTaxes (subtotal : JS.number) (activeTaxes : list Tax.t)
  : JS.number * list AppliedTax.t :=
  fold_left (applyTax subtotal) activeTaxes (0%float, []).

Definition json_appliedTax (a : AppliedTax.t) : string :=
  ("{" ++ JS.json_string "taxId" ++ ":" ++ JS.Z_to_string (AppliedTax.taxId a)
   ++ "," ++ JS.json_string "taxName" ++ ":"
   ++ JS.json_string (AppliedTax.taxName a)
   ++ "," ++ JS.json_string "rate" ++ ":" ++ JS.json_number (AppliedTax.rate a)
   ++ "," ++ JS.json_string "amount" ++ ":"
   ++ JS.json_number (AppliedTax.amount a) ++ "}")%string.

(** [JSON.stringify(appliedTaxes)]. *)
Definition json_appliedTaxes (l : list AppliedTax.t) : string :=
  ("[" ++ String.concat "," (map json_appliedTax l) ++ "]")%string.

(** [{ ...reservationData, guestId, confirmationNumber, createdById,
    totalAmount: finalTotalAmount.toString(),
    appliedTaxes: JSON.stringify(appliedTaxes),
    taxAmount: totalTaxAmount.toString(), branchId }] (line 1220). *)
Definition reservationWithTaxes (reservationData : ReservationData.t)
  (guest : Guest.t) (user : User.t) (now : Z)
  (finalTotalAmount totalTaxAmount : JS.number)
  (appliedTaxes : list AppliedTax.t) : InsertReservation.t :=
  {| InsertReservation.branchId := ReservationData.branchId reservationData;
     InsertReservation.guestId := Guest.id guest;
     InsertReservation.status := ReservationData.status reservationData;
     InsertReservation.totalAmount := Some (JS.toString finalTotalAmount);
     InsertReservation.taxAmount := Some (JS.toString totalTaxAmount);
     InsertReservation.paidAmount :=
       option_map money_text (ReservationData.paidAmount reservationData);
     InsertReservation.appliedTaxes := Some (json_appliedTaxes appliedTaxes);
     InsertReservation.notes := ReservationData.notes reservationData;
     InsertReservation.confirmationNumber := confirmationNumber now;
     InsertReservation.createdById := User.id user |}.

(** [{ ...reservationData, branchId: user.branchId }]: the branch of a
    custom-role user replaces the payload's. *)
Definition withBranchId (branchId : option Z) (d : ReservationData.t)
  : ReservationData.t :=
  {| ReservationData.branchId := branchId;
     ReservationData.status := ReservationData.status d;
     ReservationData.totalAmount := ReservationData.totalAmount d;
     ReservationData.taxAmount := ReservationData.taxAmount d;
     ReservationData.paidAmount := ReservationData.paidAmount d;
     ReservationData.appliedTaxes := ReservationData.appliedTaxes d;
     ReservationData.notes := ReservationData.notes d |}.

(** "For custom role users, automatically set their assigned branchId";
    for the other roles the branch check on the payload's branch. *)
Definition branchOfReservation (user : User.t)
  (payload : option ReservationData.t) : Action ReservationData.t :=
  if String.eqb (User.role user) "custom" then
    guard (negb (JS.truthy_int (User.branchId user))) 403
      "Custom role user must have a branch assignment" ;;;
    ret (withBranchId (User.branchId user)
           (match payload with
            | Some d => d
            | None => ReservationData.empty
            end))
  else
    d <- defined payload ;;
    guard (negb (checkBranchPermissions (User.role user) (User.branchId user)
                   (ReservationData.branchId d)))
      403 "Insufficient permissions for this branch" ;;;
    ret d.

(** The second [app.post("/api/reservations", ...)] (line 1119): the one
    with the permission check, the custom-role branch and the taxes. *)
Definition createReservationWithTaxesHandler (userId : string)
  (req : Request.t) : Store -> Response * Store :=
  try_catch
    (user <- query (Storage.getUser userId) ;;
     match user with
     | None => respond 401 (Message "User not found")
     | Some user =>
         hasWritePermission <-
           query (checkUserPermission userId "reservations" Write) ;;
         guard (negb hasWritePermission) 403
           "You do not have permission to create reservations" ;;;
         let guestData := Body.guest (Request.body req) in
         let roomsData := Body.rooms (Request.body req) in
         reservationData <-
           branchOfReservation user (Body.reservation (Request.body req)) ;;
         guestData <- defined guestData ;;
         guest <- resolveGuest guestData
                    (ReservationData.branchId reservationData)
                    (Request.now req) ;;
         roomsData <- defined roomsData ;;
         let subtotal := subtotalOf roomsData in
         activeTaxes <- query getActiveReservationTaxes ;;
         let (totalTaxAmount, appliedTaxes) :=
           calculateTaxes subtotal activeTaxes in
         let finalTotalAmount := (subtotal + totalTaxAmount)%float in
         let reservationWithConfirmation :=
           reservationWithTaxes reservationData guest user (Request.now req)
             finalTotalAmount totalTaxAmount appliedTaxes in
         reservation <-
           attempt (Storage.createReservation reservationWithConfirmation
                      roomsData) ;;
         broadcastChange "reservations" "created" ;;;
         reserveRooms roomsData ;;;
         respond 201 (ReservationRow (Some reservation))
     end)
    "Failed to create reservation".

(** Truthiness of a money field. *)
Definition truthy_money (m : option Money) : bool :=
  match m with
  | Some (MNum x) => negb (PrimFloat.is_zero x) && negb (PrimFloat.is_nan x)
  | Some (MStr s) => JS.truthy_string (Some s)
  | None => false
  end.

(** "Convert numeric fields to strings if they're numbers":
    [if (d.f && typeof d.f === "number") d.f = d.f.toString()]. *)
Definition stringify_money (m : option Money) : option Money :=
  match m with
  | Some (MNum x) => if truthy_money m then Some (MStr (JS.toString x)) else m
  | _ => m
  end.

(** The schema's check of a money field: a string passes, a number that
    is still a number does not. *)
Definition parse_money (m : option Money) : option (option string) :=
  match m with
  | None => Some None
  | Some (MStr s) => Some (Some s)
  | Some (MNum _) => None
  end.

(** The conversions, then [insertReservationSchema.partial().parse(data)]:
    [None] when the parse throws. *)
Definition parseReservationPatch (d : ReservationData.t)
  : option ReservationPatch.t :=
  match parse_money (stringify_money (ReservationData.totalAmount d)),
        parse_money (stringify_money (ReservationData.taxAmount d)),
        parse_money (stringify_money (ReservationData.paidAmount d)) with
  | Some total, Some tax, Some paid =>
      Some {| ReservationPatch.branchId := ReservationData.branchId d;
              ReservationPatch.status := ReservationData.status d;
              ReservationPatch.totalAmount := total;
              ReservationPatch.taxAmount := tax;
              ReservationPatch.paidAmount := paid;
              ReservationPatch.appliedTaxes := ReservationData.appliedTaxes d;
              ReservationPatch.notes := ReservationData.notes d |}
  | _, _, _ => None
  end.

(** [Object.keys(data).length > 0]. *)
Definition has_keys (d : ReservationData.t) : bool :=
  is_some (ReservationData.branchId d) || is_some (ReservationData.status d)
  || is_some (ReservationData.totalAmount d)
  || is_some (ReservationData.taxAmount d)
  || is_some (ReservationData.paidAmount d)
  || is_some (ReservationData.appliedTaxes d)
  || is_some (ReservationData.notes d).

(** [await storage.updateGuest(id, data)]. *)
Definition updateGuestCall (id : Z) (d : GuestData.t) : Action unit :=
  attempt (Storage.updateGuest id d) ;;; ret tt.

(** [await storage.updateReservation(id, data)]. *)
Definition updateReservationCall (id : string) (p : ReservationPatch.t)
  : Action (option Reservation.t) :=
  attempt (Storage.updateReservation id p).

(** The room status a reservation status cascades to (the [switch] of the
    status-only update). *)
Definition newRoomStatus (status : string) : string :=
  if String.eqb status "checked-in" then "occupied"
  else if String.eqb status "checked-out" then "available"
  else if String.eqb status "cancelled" then "available"
  else if String.eqb status "confirmed" then "reserved"
  else if String.eqb status "pending" then "reserved"
  else "reserved".

(** [roomPayload]: [specialRequests: roomData.specialRequests || ""]. *)
Definition roomPayload (d : RoomData.t) : RoomData.t :=
  {| RoomData.id := RoomData.id d;
     RoomData.roomId := RoomData.roomId d;
     RoomData.checkInDate := RoomData.checkInDate d;
     RoomData.checkOutDate := RoomData.checkOutDate d;
     RoomData.adults := RoomData.adults d;
     RoomData.children := RoomData.children d;
     RoomData.ratePerNight := RoomData.ratePerNight d;
     RoomData.totalAmount := RoomData.totalAmount d;
     RoomData.specialRequests :=
       Some (if JS.truthy_string (RoomData.specialRequests d)
             then match RoomData.specialRequests d with
                  | Some t => t
                  | None => ""
                  end
             else "") |}.

(** [rooms.filter(room => room.id).map(room => room.id)]. *)
Definition incomingRoomIds (rooms : list RoomData.t) : list Z :=
  flat_map (fun room => if JS.truthy_int (RoomData.id room)
                        then match RoomData.id room with
                             | Some i => [i]
                             | None => []
                             end
                        else [])
    rooms.

(** [currentRoomReservations.filter(rr => !incomingRoomIds.includes(rr.id))]. *)
Definition roomsToRemove (current : list ReservationRoom.t)
  (rooms : list RoomData.t) : list ReservationRoom.t :=
  filter (fun rr => negb (existsb (Z.eqb (ReservationRoom.id rr))
                            (incomingRoomIds rooms)))
    current.

(** "Remove rooms that are no longer in the list". *)
Definition removeRooms (toRemove : list ReservationRoom.t) : Action unit :=
  for_each toRemove
    (fun roomToRemove =>
       Storage.deleteReservationRoom (ReservationRoom.id roomToRemove) ;;;
       update (Storage.updateRoom (ReservationRoom.roomId roomToRemove)
                 "available")).

(** "Process each room in the incoming data". *)
Definition processRooms (reservationId : string) (rooms : list RoomData.t)
  : Action unit :=
  for_each rooms
    (fun roomData =>
       if JS.truthy_int (RoomData.id roomData) then
         Storage.updateReservationRoom
           (match RoomData.id roomData with
            | Some i => i
            | None => 0
            end)
           reservationId (roomPayload roomData)
       else
         update (Storage.createReservationRoom reservationId
                   (roomPayload roomData)) ;;;
         update (Storage.updateRoom (RoomData.roomId roomData) "reserved")).

(** "Handle room updates - comprehensive room management". *)
Definition reconcileRooms (reservationId : string)
  (current : list ReservationRoom.t) (rooms : list RoomData.t)
  : Action unit :=
  removeRooms (roomsToRemove current rooms) ;;;
  processRooms reservationId rooms.

(** The status cascade of the status-only update. *)
Definition cascadeRoomStatus (status : string)
  (current : list ReservationRoom.t) : Action unit :=
  for_each current
    (fun roomReservation =>
       update (Storage.updateRoom (ReservationRoom.roomId roomReservation)
                 (newRoomStatus status)) ;;;
       broadcastChange "rooms" "updated").

Definition is_terminal (status : option string) : bool :=
  match status with
  | Some st => String.eqb st "checked-out" || String.eqb st "cancelled"
  | None => false
  end.

(** "Update guest information if provided":
    [if (guest && existingReservation.guestId)]; the payload goes to
    [updateGuest] without its [id]. *)
Definition updateGuestIfProvided (guestId : Z) (guest : option GuestData.t)
  : Action unit :=
  match guest with
  | Some guestUpdateData =>
      when (negb (guestId =? 0)) (updateGuestCall guestId guestUpdateData)
  | None => ret tt
  end.

(** "Update reservation information if provided":
    [if (reservation && Object.keys(reservation).length > 0)]. *)
Definition updateReservationIfProvided (reservationId : string)
  (reservation : option ReservationData.t) : Action unit :=
  match reservation with
  | Some reservationUpdateData =>
      when (has_keys reservationUpdateData)
        (validated <-
           defined (parseReservationPatch reservationUpdateData) ;;
         when (patch_has_keys validated)
           (updateReservationCall reservationId validated ;;;
            ret tt))
  | None => ret tt
  end.

(** [app.patch("/api/reservations/:id", ...)].  The check-in and check-out
    notifications of the status-only update are sent inside their own
    try/catch and touch neither the store nor the response. *)
Definition updateReservationHandler (userId : string) (req : Request.t)
  : Store -> Response * Store :=
  try_catch
    (user <- query (Storage.getUser userId) ;;
     match user with
     | None => respond 401 (Message "User not found")
     | Some user =>
         hasWritePermission <-
           query (checkUserPermission userId "reservations" Write) ;;
         guard (negb hasWritePermission) 403
           "You do not have permission to update reservations" ;;;
         let reservationId := Request.param_id req in
         existingReservation <- query (Storage.getReservation reservationId) ;;
         match existingReservation with
         | None => respond 404 (Message "Reservation not found")
         | Some existing =>
             let row := ReservationDetail.row existing in
             guard (negb (checkBranchPermissions (User.role user)
                            (User.branchId user) (Reservation.branchId row)))
               403 "Insufficient permissions for this branch" ;;;
             guard (is_terminal (Reservation.status row)) 403
               "Cannot edit reservation after checkout or cancellation" ;;;
             let guest := Body.guest (Request.body req) in
             let reservation := Body.reservation (Request.body req) in
             let rooms := Body.rooms (Request.body req) in
             if is_some guest || is_some reservation || is_some rooms then
               updateGuestIfProvided (Reservation.guestId row) guest ;;;
               updateReservationIfProvided reservationId reservation ;;;
               match rooms with
               | Some rooms =>
                   reconcileRooms reservationId
                     (ReservationDetail.reservationRooms existing) rooms
               | None => ret tt
               end ;;;
               updatedReservation <-
                 query (Storage.getReservation reservationId) ;;
               broadcastChange "reservations" "updated" ;;;
               respond 200 (ReservationJoined updatedReservation)
             else
               validatedData <-
                 defined (parseReservationPatch
                            (Body.flat (Request.body req))) ;;
               reservation <-
                 updateReservationCall reservationId validatedData ;;
               broadcastChange "reservations" "updated" ;;;
               when (JS.truthy_string (ReservationPatch.status validatedData))
                 (cascadeRoomStatus
                    (match ReservationPatch.status validatedData with
                     | Some st => st
                     | None => ""
                     end)
                    (ReservationDetail.reservationRooms existing)) ;;;
               respond 200 (ReservationRow reservation)
         end
     end)
    "Failed to update reservation".

(** "Update room status back to available" (the cancel handler's loop). *)
Definition releaseRooms (current : list ReservationRoom.t) : Action unit :=
  for_each current
    (fun roomReservation =>
       update (Storage.updateRoom (ReservationRoom.roomId roomReservation)
                 "available") ;;;
       broadcastChange "rooms" "updated").

(** [app.delete("/api/reservations/:id", ...)]. *)
Definition cancelReservationHandler (userId : string) (req : Request.t)
  : Store -> Response * Store :=
  try_catch
    (user <- query (Storage.getUser userId) ;;
     match user with
     | None => respond 401 (Message "User not found")
     | Some user =>
         hasDeletePermission <-
           query (checkUserPermission userId "reservations" Delete) ;;
         guard (negb hasDeletePermission) 403
           "You do not have permission to delete reservations" ;;;
         let reservationId := Request.param_id req in
         existingReservation <- query (Storage.getReservation reservationId) ;;
         match existingReservation with
         | None => respond 404 (Message "Reservation not found")
         | Some existing =>
             guard (negb (checkBranchPermissions (User.role user)
                            (User.branchId user)
                            (Reservation.branchId
                               (ReservationDetail.row existing))))
               403 "Insufficient permissions for this branch" ;;;
             updateReservationCall reservationId
               (ReservationPatch.only_status "cancelled") ;;;
             broadcastChange "reservations" "deleted" ;;;
             releaseRooms (ReservationDetail.reservationRooms existing) ;;;
             respond 204 NoBody
         end
     end)
    "Failed to cancel reservation".

(* ================================================================== *)
(** * Routing *)
(* ================================================================== *)

Inductive Method := GET | POST | PUT | PATCH | DELETE.

Definition method_eqb (a b : Method) : bool :=
  match a, b with
  | GET, GET | POST, POST | PUT, PUT | PATCH, PATCH | DELETE, DELETE => true
  | _, _ => false
  end.

Record Route := {
  method : Method;
  path : list string;
  handler : string -> Request.t -> Store -> Response * Store
}.

(** The [isAuthenticated] middleware: without a session user the request
    is answered 401; otherwise the handler runs. *)
Definition isAuthenticated
  (h : string -> Request.t -> Store -> Response * Store)
  (req : Request.t) (s : Store) : Response * Store :=
  match Request.sessionUser req with
  | Some userId => h userId req s
  | None => ({| code := 401; payload := Message "Unauthorized" |}, s)
  end.

(** The modelled routes of [registerRoutes], in the order of their
    registration; a path is its list of segments, [":id"] a parameter. *)
Definition registerRoutes : list Route :=
  [ {| method := DELETE; path := ["api"; "branches"; ":id"];
       handler := deleteBranchHandler |};
    {| method := GET; path := ["api"; "guests"; "search"];
       handler := searchGuestsHandler |};
    {| method := DELETE; path := ["api"; "guests"; ":id"];
       handler := deleteGuestHandler |};
    {| method := POST; path := ["api"; "reservations"];
       handler := createReservationHandler |};
    {| method := POST; path := ["api"; "reservations"];
       handler := createReservationWithTaxesHandler |};
    {| method := PATCH; path := ["api"; "reservations"; ":id"];
       handler := updateReservationHandler |};
    {| method := DELETE; path := ["api"; "reservations"; ":id"];
       handler := cancelReservationHandler |} ].

(** A route path against the segments of a request path: the value of
    [:id] when they match. *)
Fixpoint match_path (pattern url : list string) (id : string)
  : option string :=
  match pattern, url with
  | [], [] => Some id
  | p :: pattern', u :: url' =>
      if String.eqb p ":id" then match_path pattern' url' u
      else if String.eqb p u then match_path pattern' url' id
      else None
  | _, _ => None
  end.

Definition with_param (id : string) (req : Request.t) : Request.t :=
  {| Request.sessionUser := Request.sessionUser req;
     Request.param_id := id;
     Request.query_q := Request.query_q req;
     Request.body := Request.body req;
     Request.now := Request.now req |}.

(** The router runs the first registered route whose method and path
    match; none of the handlers above passes the request on ([next] is
    never called after the middleware), so a later route with the same
    method and path is not run. *)
Fixpoint dispatch (routes : list Route) (m : Method) (url : list string)
  (req : Request.t) (s : Store) : Response * Store :=
  match routes with
  | [] => ({| code := 404; payload := NoBody |}, s)
  | r :: rest =>
      if method_eqb (method r) m then
        match match_path (path r) url (Request.param_id req) with
        | Some id => isAuthenticated (handler r) (with_param id req) s
        | None => dispatch rest m url req s
        end
      else dispatch rest m url req s
  end.

Definition app (m : Method) (url : list string) (req : Request.t) (s : Store)
  : Response * Store :=
  dispatch registerRoutes m url req s.

(* ================================================================== *)
(** * Predicates and sample data used by the properties *)
(* ================================================================== *)

(** Every table but [branches] is the same in both stores. *)
Definition same_child_data (s s' : Store) : Prop :=
  users s' = users s /\ rooms s' = rooms s /\ guests s' = guests s
  /\ reservations s' = reservations s
  /\ reservationRooms s' = reservationRooms s /\ taxes s' = taxes s.

(** The status of every room row with that id. *)
Definition room_has_status (s : Store) (roomId : Z) (status : string) : Prop :=
  forall r, In r (rooms s) -> Room.id r = roomId -> Room.status r = status.

(** One turn of the loop over the payload for an entry without an id: the
    row is inserted, then its room is set to [reserved]. *)
Definition insert_step (reservationId : string) (s : Store)
  (d : RoomData.t) : Store :=
  Storage.updateRoom (RoomData.roomId d) "reserved"
    (Storage.createReservationRoom reservationId (roomPayload d) s).

(** The payload entries before the first one that carries an id. *)
Fixpoint leading_new (rooms : list RoomData.t) : list RoomData.t :=
  match rooms with
  | d :: r => if JS.truthy_int (RoomData.id d) then [] else d :: leading_new r
  | [] => []
  end.

(** The pattern [RES\d{8}]: the letters RES, then eight digits. *)
Definition matches_RES_d8 (text : string) : bool :=
  match list_ascii_of_string text with
  | "R"%char :: "E"%char :: "S"%char :: ds =>
      (List.length ds =? 8)%nat && forallb JS.is_digit ds
  | _ => false
  end.

(** The reservation row a response carries. *)
Definition created_row (r : Response) : option Reservation.t :=
  match payload r with
  | ReservationRow row => row
  | _ => None
  end.

(** The phone numbers of the active guests, one entry per guest that has
    one. *)
Definition active_phones (l : list Guest.t) : list string :=
  flat_map (fun g => if Guest.isActive g && JS.truthy_string (Guest.phone g)
                     then match Guest.phone g with
                          | Some p => [p]
                          | None => []
                          end
                     else []) l.

(** At most one active guest per phone number. *)
Definition unique_active_phones (s : Store) : Prop :=
  NoDup (active_phones (guests s)).

(** Guest ids are handed out by a counter that starts at 1, one per row. *)
Definition guest_ids_wf (s : Store) : Prop :=
  0 < nextGuestId s
  /\ (forall g, In g (guests s) -> 0 < Guest.id g < nextGuestId s)
  /\ NoDup (map Guest.id (guests s)).

(** The text has no backslash, the escape character of LIKE. *)
Definition no_backslash (text : string) : bool :=
  forallb (fun c => negb (Ascii.eqb c "\")) (list_ascii_of_string text).

(** The guests table once the guest of a creation is resolved: as it was
    when a guest was found, with the new guest at its end otherwise. *)
Definition guests_after_resolution (found : list Guest.t) (new : Guest.t)
  (s : Store) : list Guest.t :=
  match found with
  | _ :: _ => guests s
  | [] => guests s ++ [new]
  end.

Module Sample.

Definition admin : User.t :=
  {| User.id := "u-admin"; User.role := "superadmin"; User.branchId := None |}.

Definition manager : User.t :=
  {| User.id := "u-manager"; User.role := "branch-admin";
     User.branchId := Some 1 |}.

Definition clerk : User.t :=
  {| User.id := "u-clerk"; User.role := "front-desk";
     User.branchId := Some 1 |}.

Definition room (id : Z) (number status : string) : Room.t :=
  {| Room.id := id; Room.branchId := 1; Room.number := number;
     Room.status := status |}.

Definition vat : Tax.t :=
  {| Tax.id := 1; Tax.taxName := "VAT"; Tax.rate := "10.00";
     Tax.applicationType := "reservation"; Tax.isActive := true |}.

Definition store : Store :=
  {| users := [admin; manager; clerk];
     branches := [ {| Branch.id := 1; Branch.name := "Main";
                      Branch.isActive := true |} ];
     rooms := [room 101 "101" "available"; room 102 "102" "available";
               room 103 "103" "available"; room 104 "104" "available"];
     guests := [];
     reservations := [];
     reservationRooms := [];
     taxes := [vat];
     rolePermissions := [];
     nextGuestId := 1;
     nextReservationId := 1;
     nextReservationRoomId := 1;
     trace := [] |}.

Definition guest (id : Z) (first phone : string) (active : bool) (at_ : Z)
  : Guest.t :=
  {| Guest.id := id; Guest.firstName := Some first;
     Guest.lastName := Some "Doe"; Guest.phone := Some phone;
     Guest.email := None; Guest.branchId := Some 1;
     Guest.reservationCount := 1; Guest.isActive := active;
     Guest.createdAt := at_ |}.

Definition reservation (id status : string) (guestId : Z) : Reservation.t :=
  {| Reservation.id := id; Reservation.branchId := Some 1;
     Reservation.guestId := guestId; Reservation.status := Some status;
     Reservation.totalAmount := Some "220.00";
     Reservation.taxAmount := Some "20.00";
     Reservation.paidAmount := None; Reservation.appliedTaxes := None;
     Reservation.notes := None;
     Reservation.confirmationNumber := "RES28000123";
     Reservation.createdById := "u-admin" |}.

Definition reservationRoom (id : Z) (reservationId : string) (roomId : Z)
  : ReservationRoom.t :=
  {| ReservationRoom.id := id; ReservationRoom.reservationId := reservationId;
     ReservationRoom.roomId := roomId;
     ReservationRoom.checkInDate := "2025-07-01";
     ReservationRoom.checkOutDate := "2025-07-03";
     ReservationRoom.adults := 2; ReservationRoom.children := 0;
     ReservationRoom.ratePerNight := "100.00";
     ReservationRoom.totalAmount := "200.00";
     ReservationRoom.specialRequests := None |}.

(** The sample store with the given guests and a reservation [r1] of the
    given guest and status over rooms 101, 102 and 103. *)
Definition booked_with (guestRows : list Guest.t) (guestId : Z)
  (status : string) : Store :=
  {| users := users store;
     branches := branches store;
     rooms := [room 101 "101" "reserved"; room 102 "102" "reserved";
               room 103 "103" "reserved"; room 104 "104" "available"];
     guests := guestRows;
     reservations := [reservation "r1" status guestId];
     reservationRooms := [reservationRoom 1 "r1" 101;
                          reservationRoom 2 "r1" 102;
                          reservationRoom 3 "r1" 103];
     taxes := taxes store;
     rolePermissions := [];
     nextGuestId := 1 + Z.of_nat (List.length guestRows);
     nextReservationId := 2;
     nextReservationRoomId := 4;
     trace := [] |}.

(** One guest, Ann, phone 555-0100, and her reservation [r1]. *)
Definition booked (status : string) : Store :=
  booked_with [guest 1 "Ann" "555-0100" true 1000] 1 status.

(** Two guests, Ann (555-0100) and Bob (555-0199); [r1] is Bob's. *)
Definition two_guests : Store :=
  booked_with [guest 1 "Ann" "555-0100" true 1000;
               guest 2 "Bob" "555-0199" true 2000] 2 "confirmed".

Definition roomData (id : option Z) (roomId adults : Z) : RoomData.t :=
  {| RoomData.id := id; RoomData.roomId := roomId;
     RoomData.checkInDate := "2025-07-01";
     RoomData.checkOutDate := "2025-07-03";
     RoomData.adults := adults; RoomData.children := 0;
     RoomData.ratePerNight := "100.00"; RoomData.totalAmount := "200.00";
     RoomData.specialRequests := None |}.

(** The payload {B (updated), D (new)} against the rows A, B, C (ids 1, 2,
    3 over rooms 101, 102, 103): row 2 with three adults, and a new entry
    for room 104. *)
Definition rooms_body : Body.t :=
  {| Body.guest := None; Body.reservation := None;
     Body.rooms := Some [roomData (Some 2) 102 3; roomData None 104 2];
     Body.flat := ReservationData.empty |}.

(** The payload {D (new), A, B, C}: no row is dropped, D comes first. *)
Definition add_first_body : Body.t :=
  {| Body.guest := None; Body.reservation := None;
     Body.rooms := Some [roomData None 104 2; roomData (Some 1) 101 2;
                         roomData (Some 2) 102 2; roomData (Some 3) 103 2];
     Body.flat := ReservationData.empty |}.

Definition guestData (first phone : string) : GuestData.t :=
  {| GuestData.firstName := Some first; GuestData.lastName := Some "Doe";
     GuestData.phone := Some phone; GuestData.email := None;
     GuestData.branchId := None; GuestData.reservationCount := None;
     GuestData.isActive := None |}.

(** The reservation part of a creation payload: branch 1, and the totals
    the client sends along (here the room total, with no tax). *)
Definition reservationData : ReservationData.t :=
  {| ReservationData.branchId := Some 1;
     ReservationData.status := Some "confirmed";
     ReservationData.totalAmount := Some (MStr "200.00");
     ReservationData.taxAmount := None;
     ReservationData.paidAmount := None;
     ReservationData.appliedTaxes := None;
     ReservationData.notes := None |}.

(** The spec's scenario: branch 1, guest phone 555-0100, one room at
    100.00 for two nights (line total 200.00). *)
Definition create_body : Body.t :=
  {| Body.guest := Some (guestData "Ann" "555-0100");
     Body.reservation := Some reservationData;
     Body.rooms := Some [roomData None 101 2];
     Body.flat := ReservationData.empty |}.

Definition status_body (status : string) : Body.t :=
  {| Body.guest := None; Body.reservation := None; Body.rooms := None;
     Body.flat :=
       {| ReservationData.branchId := None;
          ReservationData.status := Some status;
          ReservationData.totalAmount := None;
          ReservationData.taxAmount := None;
          ReservationData.paidAmount := None;
          ReservationData.appliedTaxes := None;
          ReservationData.notes := None |} |}.

Definition empty_body : Body.t :=
  {| Body.guest := None; Body.reservation := None; Body.rooms := None;
     Body.flat := ReservationData.empty |}.

Definition request (user : string) (id : string) (body : Body.t)
  : Request.t :=
  {| Request.sessionUser := Some user; Request.param_id := id;
     Request.query_q := None; Request.body := body;
     Request.now := 1751328000123 |}.

Definition create_request : Request.t := request "u-admin" "" create_body.

(** A creation for two rooms with line totals of 200.00 each, the
    reservation part carrying their sum, 400.00, as its total. *)
Definition two_rooms_request : Request.t :=
  request "u-admin" ""
    {| Body.guest := Some (guestData "Ann" "555-0100");
       Body.reservation :=
         Some {| ReservationData.branchId := Some 1;
                 ReservationData.status := Some "confirmed";
                 ReservationData.totalAmount := Some (MStr "400.00");
                 ReservationData.taxAmount := None;
                 ReservationData.paidAmount := None;
                 ReservationData.appliedTaxes := None;
                 ReservationData.notes := None |};
       Body.rooms := Some [roomData None 101 2; roomData None 102 2];
       Body.flat := ReservationData.empty |}.

(** The sample store without its tax. *)
Definition untaxed : Store :=
  {| users := users store; branches := branches store; rooms := rooms store;
     guests := []; reservations := []; reservationRooms := [];
     taxes := []; rolePermissions := []; nextGuestId := 1;
     nextReservationId := 1; nextReservationRoomId := 1; trace := [] |}.

(** The same creation with an empty list of rooms. *)
Definition roomless_request : Request.t :=
  request "u-admin" ""
    {| Body.guest := Some (guestData "Ann" "555-0100");
       Body.reservation := Some reservationData;
       Body.rooms := Some [];
       Body.flat := ReservationData.empty |}.

(** A comprehensive update of [r1] that sets its guest's phone number. *)
Definition phone_request (phone : string) : Request.t :=
  request "u-admin" "r1"
    {| Body.guest :=
         Some {| GuestData.firstName := None; GuestData.lastName := None;
                 GuestData.phone := Some phone; GuestData.email := None;
                 GuestData.branchId := None;
                 GuestData.reservationCount := None;
                 GuestData.isActive := None |};
       Body.reservation := None; Body.rooms := None;
       Body.flat := ReservationData.empty |}.

Definition guest_request (id : string) : Request.t :=
  request "u-admin" id empty_body.

End Sample.

(* ================================================================== *)
(** * Requests, stores and rows of the worked examples *)
(* ================================================================== *)

(** DELETE /api/branches/1 by the superadmin. *)
Definition branch_request : Request.t :=
  Sample.request "u-admin" "1" Sample.empty_body.


(** The reservation data the tax-computing handler goes on with: for a
    custom role the payload with the user's branch, otherwise the
    payload. *)
Definition effectiveReservationData (user : User.t)
  (payload : option ReservationData.t) : option ReservationData.t :=
  if String.eqb (User.role user) "custom" then
    Some (withBranchId (User.branchId user)
            (match payload with
             | Some d => d
             | None => ReservationData.empty
             end))
  else payload.

(** DELETE /api/reservations/r1 by the superadmin. *)
Definition cancel_request : Request.t :=
  Sample.request "u-admin" "r1" Sample.empty_body.

(** PATCH /api/reservations/r1 with the rooms payload {B, D}. *)
Definition rooms_request : Request.t :=
  Sample.request "u-manager" "r1" Sample.rooms_body.

(** PATCH /api/reservations/r1 with the rooms payload {D, A, B, C}. *)
Definition add_first_request : Request.t :=
  Sample.request "u-manager" "r1" Sample.add_first_body.

(** The row the tax-computing handler stores for the sample creation. *)
Definition scenario_row : Reservation.t :=
  {| Reservation.id := "r1"; Reservation.branchId := Some 1;
     Reservation.guestId := 1; Reservation.status := Some "confirmed";
     Reservation.totalAmount := Some "220.00";
     Reservation.taxAmount := Some "20.00";
     Reservation.paidAmount := None;
     Reservation.appliedTaxes :=
       Some (json_appliedTaxes
               [ {| AppliedTax.taxId := 1; AppliedTax.taxName := "VAT";
                    AppliedTax.rate := 10%float;
                    AppliedTax.amount := 20%float |} ]);
     Reservation.notes := None;
     Reservation.confirmationNumber := "RES28000123";
     Reservation.createdById := "u-admin" |}.

(** The booked sample store after DELETE /api/guests/1: Ann is inactive. *)
Definition deactivated : Store :=
  snd (app DELETE ["api"; "guests"; "1"] (Sample.guest_request "")
         (Sample.booked "confirmed")).

(* ================================================================== *)
(** * Further handlers and storage methods *)
(* ================================================================== *)

(** [app.get("/api/reservations/:id", ...)] (line 1079). *)
Definition getReservationHandler (userId : string) (req : Request.t)
  : Store -> Response * Store :=
  try_catch
    (user <- query (Storage.getUser userId) ;;
     match user with
     | None => respond 401 (Message "User not found")
     | Some user =>
         reservation <-
           query (Storage.getReservation (Request.param_id req)) ;;
         match reservation with
         | None => respond 404 (Message "Reservation not found")
         | Some found =>
             guard (negb (checkBranchPermissions (User.role user)
                            (User.branchId user)
                            (Reservation.branchId
                               (ReservationDetail.row found))))
               403 "Insufficient permissions for this branch" ;;;
             respond 200 (ReservationJoined (Some found))
         end
     end)
    "Failed to fetch reservation".

(** [DatabaseStorage.getGuests(branchId?)]: the guests of the branch, or
    all of them when [branchId] is falsy, newest first. *)
Definition getGuests (branchId : option Z) (s : Store) : list Guest.t :=
  Storage.orderBy_createdAt_desc
    (filter (fun g => if JS.truthy_int branchId
                      then JS.strict_eq_int (Guest.branchId g) branchId
                      else true)
       (guests s)).

(** A response that refuses the request: 401, 403 or 404. *)
Definition is_refusal (r : Response) : bool :=
  (code r =? 401) || (code r =? 403) || (code r =? 404).

(** What an update of one reservation may change among the rows that are
    not rooms: no guest and no reservation is added or removed, only the
    guest with [guestId] and the reservation with [reservationId] may
    differ, and the reservation-rooms, users, taxes and branches are as
    they were. *)
Definition touches_only (guestId : Z) (reservationId : string)
  (s s' : Store) : Prop :=
  map Guest.id (guests s') = map Guest.id (guests s)
  /\ (forall g, In g (guests s) -> Guest.id g <> guestId -> In g (guests s'))
  /\ map Reservation.id (reservations s')
     = map Reservation.id (reservations s)
  /\ (forall r, In r (reservations s) -> Reservation.id r <> reservationId ->
                In r (reservations s'))
  /\ reservationRooms s' = reservationRooms s
  /\ users s' = users s /\ taxes s' = taxes s /\ branches s' = branches s.

(** A character that stands for itself in a LIKE pattern: not [%], not
    [_], not the backslash. *)
Definition plain_char (c : ascii) : bool :=
  negb (Ascii.eqb c "%" || Ascii.eqb c "_" || Ascii.eqb c "\").

(** A search text without pattern characters. *)
Definition plain_query (q : string) : bool :=
  forallb plain_char (list_ascii_of_string q).

(** [q] occurs in [t] as a run of consecutive characters. *)
Definition contains (q t : list ascii) : Prop :=
  exists a b, t = a ++ q ++ b.

(** The column is set and its text contains the search text, letter case
    apart. *)
Definition column_contains (q : string) (column : option string) : Prop :=
  exists text,
    column = Some text
    /\ contains (Pg.lower (list_ascii_of_string q))
         (Pg.lower (list_ascii_of_string text)).

(** The guests come newest first: no guest is followed by one created
    later. *)
Definition newest_first (l : list Guest.t) : Prop :=
  ForallOrdPairs (fun a b => Guest.createdAt b <= Guest.createdAt a) l.

(** The last [k] decimal digits of a non-negative integer, most
    significant first, with leading zeros. *)
Fixpoint fixed_digits (k : nat) (n : Z) : list ascii :=
  match k with
  | O => []
  | S k' => fixed_digits k' (n / 10) ++ [JS.digit_char (n mod 10)]
  end.

(** SQL [l LEFT JOIN r ON on]: each left row with every right row that
    satisfies [on], or once with NULL when there is none. *)
Definition leftJoin {A B} (on : A -> B -> bool) (l : list A) (r : list B)
  : list (A * option B) :=
  flat_map (fun a => match filter (on a) r with
                     | [] => [(a, None)]
                     | m => map (fun b => (a, Some b)) m
                     end) l.

(** SQL [count(distinct x)] over the values of [x]. *)
Definition count_distinct (l : list Z) : Z :=
  Z.of_nat (List.length (nodup Z.eq_dec l)).

(** [rooms LEFT JOIN reservation_rooms ON rooms.id = room_id
    LEFT JOIN reservations ON reservation_id = reservations.id]: the rows
    the occupancy queries count over. *)
Definition roomsWithReservations (s : Store)
  : list (Room.t * option ReservationRoom.t * option Reservation.t) :=
  leftJoin
    (fun (row : Room.t * option ReservationRoom.t) (res : Reservation.t) =>
       match snd row with
       | Some rr => String.eqb (ReservationRoom.reservationId rr)
                      (Reservation.id res)
       | None => false
       end)
    (leftJoin (fun (room : Room.t) (rr : ReservationRoom.t) =>
                 Room.id room =? ReservationRoom.roomId rr)
       (rooms s) (reservationRooms s))
    (reservations s).

(** [eq(reservations.status, 'checked-in')] on a joined row. *)
Definition checkedIn (res : option Reservation.t) : bool :=
  match res with
  | Some r =>
      match Reservation.status r with
      | Some st => String.eqb st "checked-in"
      | None => false
      end
  | None => false
  end.

(** [branchId ? eq(rooms.branchId, branchId) : undefined]. *)
Definition branchFilter (branchId : option Z) (room : Room.t) : bool :=
  if JS.truthy_int branchId
  then match branchId with
       | Some b => Room.branchId room =? b
       | None => true
       end
  else true.

(** [getDashboardMetrics(branchId?)], "Get total rooms". *)
Definition totalRooms (branchId : option Z) (s : Store) : Z :=
  Z.of_nat (List.length (filter (branchFilter branchId) (rooms s))).

(** [getDashboardMetrics(branchId?)], "Get occupied rooms (based on
    current reservations)". *)
Definition occupiedRooms (branchId : option Z) (s : Store) : Z :=
  count_distinct
    (map (fun row => Room.id (fst (fst row)))
       (filter (fun row => checkedIn (snd row)
                           && branchFilter branchId (fst (fst row)))
          (roomsWithReservations s))).

(** The room figures of one entry of [branchMetrics] in
    [getSuperAdminDashboardMetrics]: [totalRooms], [bookedRooms] and
    [availableRooms] of the branch. *)
Definition branchRoomMetrics (branch : Branch.t) (s : Store) : Z * Z * Z :=
  let branchTotalRooms :=
    Z.of_nat (List.length
                (filter (fun room => Room.branchId room =? Branch.id branch)
                   (rooms s))) in
  let bookedRooms :=
    count_distinct
      (map (fun row => Room.id (fst (fst row)))
         (filter (fun row => (Room.branchId (fst (fst row)) =? Branch.id branch)
                             && checkedIn (snd row))
            (roomsWithReservations s))) in
  let availableRooms := branchTotalRooms - bookedRooms in
  (branchTotalRooms, bookedRooms, availableRooms).




(* ================================================================== *)
(** * Properties *)
(* ================================================================== *)

(** ** Stepping through a handler *)

Lemma bind_query {A B} (f : Store -> A) (k : A -> Action B) (s : Store) :
  bind (query f) k s = k (f s) s.
Proof. reflexivity. Qed.

Lemma bind_update {B} (f : Store -> Store) (k : unit -> Action B) (s : Store) :
  bind (update f) k s = k tt (f s).
Proof. reflexivity. Qed.

Lemma bind_ret {A B} (a : A) (k : A -> Action B) (s : Store) :
  bind (ret a) k s = k a s.
Proof. reflexivity. Qed.

Lemma bind_guard_false {B} (c : Z) (m : string) (k : unit -> Action B)
  (s : Store) :
  bind (guard false c m) k s = k tt s.
Proof. reflexivity. Qed.

Lemma getBranch_after_update (id : Z) (v : bool) (s : Store) (b : Branch.t) :
  Storage.getBranch id s = Some b ->
  Storage.getBranch id (Storage.updateBranch id v s)
  = Some (Branch.set_isActive v b).
Proof.
  unfold Storage.getBranch, Storage.updateBranch. cbn.
  induction (branches s) as [| x l IH]; cbn; [discriminate |].
  destruct (Branch.id x =? id) eqn:E; cbn.
  - rewrite E. now intros [= ->].
  - rewrite E. exact IH.
Qed.

Lemma getBranch_after_delete (id : Z) (s : Store) :
  Storage.getBranch id (Storage.deleteBranch id s) = None.
Proof.
  unfold Storage.getBranch, Storage.deleteBranch. cbn.
  induction (branches s) as [| x l IH]; cbn; [reflexivity |].
  destruct (Branch.id x =? id) eqn:E; cbn; [exact IH |].
  now rewrite E.
Qed.

Lemma lookup_found {A B} (get : Z -> Store -> option A) (id : Z) (row : A)
  (k : option A -> Action B) (s : Store) :
  get id s = Some row -> bind (lookup get (Some id)) k s = k (Some row) s.
Proof. intros H. unfold lookup, bind, query. now rewrite H. Qed.

Lemma deleteBranchHandler_run (userId : string) (req : Request.t) (s : Store)
  (u : User.t) (id : Z) (b : Branch.t) :
  Storage.getUser userId s = Some u ->
  User.role u = "superadmin" ->
  JS.parseInt (Request.param_id req) = Some id ->
  Storage.getBranch id s = Some b ->
  deleteBranchHandler userId req s
  = if Branch.isActive b then
      ({| code := 200;
          payload := BranchAction "deactivated"
                       "Branch deactivated successfully" |},
       emit (EvBroadcast "branches" "updated") (Storage.updateBranch id false s))
    else
      ({| code := 200;
          payload := BranchAction "deleted" "Branch deleted permanently" |},
       emit (EvBroadcast "branches" "deleted") (Storage.deleteBranch id s)).
Proof.
  intros Hu Hrole Hid Hb.
  unfold deleteBranchHandler, try_catch.
  rewrite bind_query, Hu, Hrole. cbn [String.eqb Ascii.eqb Bool.eqb negb].
  rewrite bind_guard_false, Hid, (lookup_found _ _ _ _ _ Hb).
  destruct (Branch.isActive b); reflexivity.
Qed.

(* ------------------------------------------------------------------ *)
(** ** Branch permissions *)

Lemma string_eqb_false (a b : string) : a <> b -> String.eqb a b = false.
Proof. intros H. now apply String.eqb_neq. Qed.

(** C7, as stated, fails: for a role other than the three the function
    names, equal branches do not give [true].  A front-desk user of
    branch 1 is refused for target branch 1, so "true if and only if the
    caller's branch equals the target branch" does not hold there. *)
Lemma checkBranchPermissions_front_desk_refused :
  ~ (checkBranchPermissions "front-desk" (Some 1) (Some 1) = true
     <-> Some 1 = Some 1 :> option Z).
Proof.
  intros [_ H]. specialize (H eq_refl). discriminate H.
Qed.

(** C7, amended: [checkBranchPermissions] returns [true] for the
    superadmin role and for an absent target branch ([undefined], or the
    falsy [0]); otherwise it returns [true] if and only if the role is
    [branch-admin] or [custom] and the caller's assigned branch equals the
    target branch; every other role is refused. *)
Theorem checkBranchPermissions_spec
  (userRole : string) (userBranchId targetBranchId : option Z) :
  (userRole = "superadmin" ->
   checkBranchPermissions userRole userBranchId targetBranchId = true)
  /\ (targetBranchId = None \/ targetBranchId = Some 0 ->
      checkBranchPermissions userRole userBranchId targetBranchId = true)
  /\ (forall target,
        userRole <> "superadmin" -> targetBranchId = Some target ->
        target <> 0 ->
        (checkBranchPermissions userRole userBranchId targetBranchId = true
         <-> (userRole = "branch-admin" \/ userRole = "custom")
             /\ userBranchId = Some target)).
Proof.
  unfold checkBranchPermissions. split; [| split].
  - intros ->. reflexivity.
  - intros [-> | ->]; destruct (String.eqb userRole "superadmin"); reflexivity.
  - intros target Hrole -> Htarget.
    rewrite (string_eqb_false _ _ Hrole). cbn.
    destruct (target =? 0) eqn:E0; [apply Z.eqb_eq in E0; contradiction |].
    cbn. split.
    + destruct (String.eqb userRole "branch-admin") eqn:Eb.
      * apply String.eqb_eq in Eb. cbn.
        destruct userBranchId as [u |]; cbn; [| discriminate].
        intros E. apply Z.eqb_eq in E. subst. split; [now left | reflexivity].
      * destruct (String.eqb userRole "custom") eqn:Ec; [| discriminate].
        apply String.eqb_eq in Ec. cbn.
        destruct userBranchId as [u |]; cbn; [| discriminate].
        intros E. apply Z.eqb_eq in E. subst. split; [now right | reflexivity].
    + intros [Hr ->]. cbn. rewrite Z.eqb_refl.
      destruct Hr as [-> | ->]; reflexivity.
Qed.

(* ------------------------------------------------------------------ *)
(** ** Two-phase branch delete *)

Lemma deleteBranch_no_row (id : Z) (s : Store) (x : Branch.t) :
  In x (branches (Storage.deleteBranch id s)) -> Branch.id x <> id.
Proof.
  unfold Storage.deleteBranch. cbn. intros H. apply filter_In in H.
  destruct H as [_ H]. apply negb_true_iff in H. now apply Z.eqb_neq.
Qed.

(** C8: the branch delete is two-phase.  For a superadmin caller and an
    existing branch: on an active branch the handler answers
    [action: "deactivated"], the branch row stays with [isActive = false],
    no row is added or removed and every other table is untouched, and the
    same request again answers [action: "deleted"] and leaves no row of
    that branch; on an inactive branch it answers [action: "deleted"] and
    the row is gone. *)
Theorem branch_delete_two_phase
  (userId : string) (req : Request.t) (s : Store) (u : User.t) (id : Z)
  (b : Branch.t) :
  Storage.getUser userId s = Some u ->
  User.role u = "superadmin" ->
  JS.parseInt (Request.param_id req) = Some id ->
  Storage.getBranch id s = Some b ->
  let first := deleteBranchHandler userId req s in
  let second := deleteBranchHandler userId req (snd first) in
  (Branch.isActive b = true ->
     fst first = {| code := 200;
                    payload := BranchAction "deactivated"
                                 "Branch deactivated successfully" |}
     /\ Storage.getBranch id (snd first) = Some (Branch.set_isActive false b)
     /\ List.length (branches (snd first)) = List.length (branches s)
     /\ same_child_data s (snd first)
     /\ fst second = {| code := 200;
                        payload := BranchAction "deleted"
                                     "Branch deleted permanently" |}
     /\ Storage.getBranch id (snd second) = None
     /\ (forall x, In x (branches (snd second)) -> Branch.id x <> id))
  /\ (Branch.isActive b = false ->
        fst first = {| code := 200;
                       payload := BranchAction "deleted"
                                    "Branch deleted permanently" |}
        /\ Storage.getBranch id (snd first) = None
        /\ (forall x, In x (branches (snd first)) -> Branch.id x <> id)).
Proof.
  intros Hu Hrole Hid Hb first second. subst second first.
  rewrite (deleteBranchHandler_run _ _ _ _ _ _ Hu Hrole Hid Hb).
  split; intros Hact; rewrite Hact; cbn [fst snd].
  - pose proof (getBranch_after_update id false s b Hb) as Hb1.
    assert (Hb1' : Storage.getBranch id
                     (emit (EvBroadcast "branches" "updated")
                        (Storage.updateBranch id false s))
                   = Some (Branch.set_isActive false b)) by exact Hb1.
    assert (Hu1 : Storage.getUser userId
                    (emit (EvBroadcast "branches" "updated")
                       (Storage.updateBranch id false s)) = Some u)
      by exact Hu.
    rewrite (deleteBranchHandler_run _ _ _ _ _ _ Hu1 Hrole Hid Hb1').
    cbn [Branch.isActive Branch.set_isActive fst snd].
    repeat split.
    + exact Hb1.
    + cbn. apply length_map.
    + exact (getBranch_after_delete id _).
    + intros x Hx. exact (deleteBranch_no_row id _ x Hx).
  - repeat split.
    + exact (getBranch_after_delete id s).
    + intros x Hx. exact (deleteBranch_no_row id s x Hx).
Qed.

(** The two-phase delete on the sample store's branch 1. *)
Lemma branch_delete_two_phase_witness :
  let first := deleteBranchHandler "u-admin" branch_request Sample.store in
  let second := deleteBranchHandler "u-admin" branch_request (snd first) in
  payload (fst first)
  = BranchAction "deactivated" "Branch deactivated successfully"
  /\ payload (fst second) = BranchAction "deleted" "Branch deleted permanently"
  /\ Storage.getBranch 1 (snd second) = None.
Proof.
  pose proof (branch_delete_two_phase "u-admin" branch_request Sample.store
                Sample.admin 1
                {| Branch.id := 1; Branch.name := "Main";
                   Branch.isActive := true |}
                eq_refl eq_refl eq_refl eq_refl) as H.
  cbv zeta in H. destruct H as [H _]. specialize (H eq_refl).
  destruct H as (H1 & _ & _ & _ & H2 & H3 & _).
  cbv zeta. rewrite H1, H2. split; [reflexivity | split; [reflexivity | exact H3]].
Defined.

(* ------------------------------------------------------------------ *)
(** ** Room status loops *)

Lemma for_each_update {A} (g : A -> Store -> Store) (f : A -> Action unit)
  (xs : list A) :
  (forall x s, f x s = (Next tt, g x s)) ->
  forall s, for_each xs f s = (Next tt, fold_left (fun s x => g x s) xs s).
Proof.
  intros Hf. induction xs as [| x r IH]; intros s; cbn; [reflexivity |].
  unfold bind. rewrite Hf. apply IH.
Qed.

Lemma set_status_id (v : string) (r : Room.t) :
  Room.id (Room.set_status v r) = Room.id r.
Proof. reflexivity. Qed.

(** A loop that sets the status [v] on the room of each element, with
    effects in between that leave the rooms alone, sets [v] on exactly the
    rooms it names. *)
Lemma rooms_fold_updateRoom {A} (v : string) (key : A -> Z)
  (extra : Store -> Store) :
  (forall s, rooms (extra s) = rooms s) ->
  forall (l : list A) (s : Store),
    rooms (fold_left (fun s x => extra (Storage.updateRoom (key x) v s)) l s)
    = map (fun r => if existsb (Z.eqb (Room.id r)) (map key l)
                    then Room.set_status v r else r)
        (rooms s).
Proof.
  intros Hextra. induction l as [| x l IH]; intros s; cbn [fold_left map].
  - cbn. symmetry. apply map_id.
  - rewrite IH, Hextra. unfold Storage.updateRoom. cbn [rooms emit with_rooms].
    rewrite map_map. apply map_ext. intros r. cbn [existsb].
    destruct (Room.id r =? key x) eqn:E.
    + rewrite set_status_id. cbn.
      destruct (existsb (Z.eqb (Room.id r)) (map key l)); reflexivity.
    + cbn. reflexivity.
Qed.

Lemma room_has_status_after_fold {A} (v : string) (key : A -> Z)
  (extra : Store -> Store) :
  (forall s, rooms (extra s) = rooms s) ->
  forall (l : list A) (s : Store) (x : A),
    In x l ->
    room_has_status
      (fold_left (fun s x => extra (Storage.updateRoom (key x) v s)) l s)
      (key x) v.
Proof.
  intros Hextra l s x Hx r Hr Hid.
  rewrite (rooms_fold_updateRoom v key extra Hextra) in Hr.
  apply in_map_iff in Hr. destruct Hr as (r0 & <- & _).
  assert (Hmem : existsb (Z.eqb (Room.id r0)) (map key l) = true).
  { apply existsb_exists. exists (key x). split; [now apply in_map |].
    apply Z.eqb_eq.
    destruct (existsb (Z.eqb (Room.id r0)) (map key l)); exact Hid. }
  rewrite Hmem. reflexivity.
Qed.

Lemma cascadeRoomStatus_run (status : string) (l : list ReservationRoom.t)
  (s : Store) :
  cascadeRoomStatus status l s
  = (Next tt,
     fold_left (fun s rr => emit (EvBroadcast "rooms" "updated")
                              (Storage.updateRoom (ReservationRoom.roomId rr)
                                 (newRoomStatus status) s)) l s).
Proof.
  unfold cascadeRoomStatus.
  apply (for_each_update
           (fun rr s => emit (EvBroadcast "rooms" "updated")
                          (Storage.updateRoom (ReservationRoom.roomId rr)
                             (newRoomStatus status) s))).
  reflexivity.
Qed.

Lemma releaseRooms_run (l : list ReservationRoom.t) (s : Store) :
  releaseRooms l s
  = (Next tt,
     fold_left (fun s rr => emit (EvBroadcast "rooms" "updated")
                              (Storage.updateRoom (ReservationRoom.roomId rr)
                                 "available" s)) l s).
Proof.
  unfold releaseRooms.
  apply (for_each_update
           (fun rr s => emit (EvBroadcast "rooms" "updated")
                          (Storage.updateRoom (ReservationRoom.roomId rr)
                             "available" s))).
  reflexivity.
Qed.

Lemma reserveRooms_run (l : list RoomData.t) (s : Store) :
  reserveRooms l s
  = (Next tt,
     fold_left (fun s d => Storage.updateRoom (RoomData.roomId d)
                             "reserved" s) l s).
Proof.
  unfold reserveRooms.
  apply (for_each_update
           (fun d s => Storage.updateRoom (RoomData.roomId d) "reserved" s)).
  reflexivity.
Qed.

(* ------------------------------------------------------------------ *)
(** ** The status-only update *)


(** What a status-only update that is answered 200 has done. *)
Lemma updateReservationHandler_status_only
  (userId : string) (req : Request.t) (s s' : Store) (resp : Response)
  (st : string) :
  updateReservationHandler userId req s = (resp, s') ->
  code resp = 200 ->
  Body.guest (Request.body req) = None ->
  Body.reservation (Request.body req) = None ->
  Body.rooms (Request.body req) = None ->
  ReservationData.status (Body.flat (Request.body req)) = Some st ->
  st <> "" ->
  exists existing validated row s1,
    Storage.getReservation (Request.param_id req) s = Some existing
    /\ is_terminal (Reservation.status (ReservationDetail.row existing))
       = false
    /\ parseReservationPatch (Body.flat (Request.body req)) = Some validated
    /\ ReservationPatch.status validated = Some st
    /\ Storage.updateReservation (Request.param_id req) validated s
       = Some (row, s1)
    /\ s' = fold_left
              (fun s rr => emit (EvBroadcast "rooms" "updated")
                             (Storage.updateRoom (ReservationRoom.roomId rr)
                                (newRoomStatus st) s))
              (ReservationDetail.reservationRooms existing)
              (emit (EvBroadcast "reservations" "updated") s1).
Proof.
  intros Hrun Hcode Hg Hr Hrooms Hst Hne.
  unfold updateReservationHandler, try_catch in Hrun.
  rewrite bind_query in Hrun.
  destruct (Storage.getUser userId s) as [user |];
    [| cbn in Hrun; injection Hrun as <- _; discriminate Hcode].
  rewrite bind_query in Hrun.
  destruct (checkUserPermission userId "reservations" Write s);
    [| cbn in Hrun; injection Hrun as <- _; discriminate Hcode].
  cbn [negb] in Hrun. rewrite bind_guard_false, bind_query in Hrun.
  destruct (Storage.getReservation (Request.param_id req) s) as [existing |];
    [| cbn in Hrun; injection Hrun as <- _; discriminate Hcode].
  destruct (checkBranchPermissions (User.role user) (User.branchId user)
              (Reservation.branchId (ReservationDetail.row existing)));
    [| cbn in Hrun; injection Hrun as <- _; discriminate Hcode].
  cbn [negb] in Hrun. rewrite bind_guard_false in Hrun.
  destruct (is_terminal (Reservation.status (ReservationDetail.row existing)))
    eqn:Hterm;
    [cbn in Hrun; injection Hrun as <- _; discriminate Hcode |].
  rewrite bind_guard_false in Hrun.
  rewrite Hg, Hr, Hrooms in Hrun. cbn [is_some orb] in Hrun.
  destruct (parseReservationPatch (Body.flat (Request.body req)))
    as [validated |] eqn:Hparse;
    [| cbn in Hrun; injection Hrun as <- _; discriminate Hcode].
  assert (Hvst : ReservationPatch.status validated = Some st).
  { unfold parseReservationPatch in Hparse.
    repeat match type of Hparse with
           | context [match parse_money ?m with _ => _ end] =>
               destruct (parse_money m)
           end; try discriminate Hparse.
    injection Hparse as <-. exact Hst. }
  cbn [defined] in Hrun. rewrite bind_ret in Hrun.
  unfold updateReservationCall in Hrun. unfold bind at 1, attempt in Hrun.
  destruct (Storage.updateReservation (Request.param_id req) validated s)
    as [[row s1] |] eqn:Hupd;
    [| cbn in Hrun; injection Hrun as <- _; discriminate Hcode].
  unfold broadcastChange in Hrun. rewrite bind_update in Hrun.
  rewrite Hvst in Hrun.
  assert (Htruthy : JS.truthy_string (Some st) = true).
  { destruct st; [contradiction | reflexivity]. }
  rewrite Htruthy in Hrun. unfold when in Hrun.
  unfold bind at 1 in Hrun. rewrite cascadeRoomStatus_run in Hrun.
  cbn in Hrun. injection Hrun as _ <-.
  exists existing, validated, row, s1. repeat split; assumption.
Qed.

Lemma fold_left_preserves {A B} (f : Store -> A -> Store) (proj : Store -> B) :
  (forall s x, proj (f s x) = proj s) ->
  forall l s, proj (fold_left f l s) = proj s.
Proof.
  intros Hf. induction l as [| x l IH]; intros s; cbn; [reflexivity |].
  now rewrite IH.
Qed.





(* ------------------------------------------------------------------ *)
(** ** Reservation creation: what a 201 answer has done *)

Lemma resolveGuest_run (guestData : GuestData.t) (branchId : option Z)
  (now : Z) (s : Store) :
  resolveGuest guestData branchId now s
  = match existingGuests guestData s with
    | guest :: _ => (Next guest, s)
    | [] => (Next (fst (Storage.createGuest guestData branchId now s)),
             snd (Storage.createGuest guestData branchId now s))
    end.
Proof.
  unfold resolveGuest. rewrite bind_query.
  destruct (existingGuests guestData s); reflexivity.
Qed.

Lemma resolveGuest_next (guestData : GuestData.t) (branchId : option Z)
  (now : Z) (s : Store) :
  exists guest s1, resolveGuest guestData branchId now s = (Next guest, s1).
Proof.
  rewrite resolveGuest_run.
  destruct (existingGuests guestData s); eauto.
Qed.

(** Closes a branch of a handler whose response is not the expected one. *)
Ltac wrong_code Hrun Hcode :=
  cbn in Hrun; injection Hrun as <- _; discriminate Hcode.

(** The first reservation-creating handler, answered 201. *)
Lemma createReservationHandler_created
  (userId : string) (req : Request.t) (s s' : Store) (resp : Response) :
  createReservationHandler userId req s = (resp, s') ->
  code resp = 201 ->
  exists user reservationData guestData roomsData guest s1 reservation s2,
    Storage.getUser userId s = Some user
    /\ Body.reservation (Request.body req) = Some reservationData
    /\ Body.guest (Request.body req) = Some guestData
    /\ Body.rooms (Request.body req) = Some roomsData
    /\ resolveGuest guestData (ReservationData.branchId reservationData)
         (Request.now req) s = (Next guest, s1)
    /\ Storage.createReservation
         (reservationWithConfirmation reservationData guest user
            (Request.now req)) roomsData s1 = Some (reservation, s2)
    /\ resp = {| code := 201; payload := ReservationRow (Some reservation) |}
    /\ s' = fold_left (fun s d => Storage.updateRoom (RoomData.roomId d)
                                    "reserved" s)
              roomsData (emit (EvBroadcast "reservations" "created") s2).
Proof.
  intros Hrun Hcode.
  unfold createReservationHandler, try_catch in Hrun.
  rewrite bind_query in Hrun.
  destruct (Storage.getUser userId s) as [user |] eqn:Hu;
    [| wrong_code Hrun Hcode].
  destruct (Body.reservation (Request.body req)) as [reservationData |];
    [| wrong_code Hrun Hcode].
  cbn [defined] in Hrun. rewrite bind_ret in Hrun.
  destruct (checkBranchPermissions (User.role user) (User.branchId user)
              (ReservationData.branchId reservationData));
    [| wrong_code Hrun Hcode].
  cbn [negb] in Hrun. rewrite bind_guard_false in Hrun.
  destruct (Body.guest (Request.body req)) as [guestData |];
    [| wrong_code Hrun Hcode].
  cbn [defined] in Hrun. rewrite bind_ret in Hrun.
  destruct (resolveGuest_next guestData
              (ReservationData.branchId reservationData) (Request.now req) s)
    as (guest & s1 & Hguest).
  unfold bind at 1 in Hrun. rewrite Hguest in Hrun.
  unfold bind at 1, attempt in Hrun.
  destruct (Storage.createReservation _ _ s1) as [[reservation s2] |] eqn:Hc;
    [| wrong_code Hrun Hcode].
  unfold broadcastChange in Hrun. rewrite bind_update in Hrun.
  destruct (Body.rooms (Request.body req)) as [roomsData |];
    [| wrong_code Hrun Hcode].
  cbn [defined] in Hrun. rewrite bind_ret in Hrun.
  unfold bind at 1 in Hrun. rewrite reserveRooms_run in Hrun.
  cbn in Hrun. injection Hrun as <- <-.
  exists user, reservationData, guestData, roomsData, guest, s1,
    reservation, s2.
  repeat split; try reflexivity; assumption.
Qed.

(** The second, tax-computing handler, answered 201. *)
Lemma createReservationWithTaxesHandler_created
  (userId : string) (req : Request.t) (s s' : Store) (resp : Response) :
  createReservationWithTaxesHandler userId req s = (resp, s') ->
  code resp = 201 ->
  exists user reservationData guestData roomsData guest s1 reservation s2,
    Storage.getUser userId s = Some user
    /\ effectiveReservationData user (Body.reservation (Request.body req))
       = Some reservationData
    /\ Body.guest (Request.body req) = Some guestData
    /\ Body.rooms (Request.body req) = Some roomsData
    /\ resolveGuest guestData (ReservationData.branchId reservationData)
         (Request.now req) s = (Next guest, s1)
    /\ Storage.createReservation
         (reservationWithTaxes reservationData guest user (Request.now req)
            (subtotalOf roomsData
             + fst (calculateTaxes (subtotalOf roomsData)
                      (getActiveReservationTaxes s1)))%float
            (fst (calculateTaxes (subtotalOf roomsData)
                    (getActiveReservationTaxes s1)))
            (snd (calculateTaxes (subtotalOf roomsData)
                    (getActiveReservationTaxes s1))))
         roomsData s1 = Some (reservation, s2)
    /\ resp = {| code := 201; payload := ReservationRow (Some reservation) |}
    /\ s' = fold_left (fun s d => Storage.updateRoom (RoomData.roomId d)
                                    "reserved" s)
              roomsData (emit (EvBroadcast "reservations" "created") s2).
Proof.
  intros Hrun Hcode.
  unfold createReservationWithTaxesHandler, try_catch in Hrun.
  rewrite bind_query in Hrun.
  destruct (Storage.getUser userId s) as [user |] eqn:Hu;
    [| wrong_code Hrun Hcode].
  rewrite bind_query in Hrun.
  destruct (checkUserPermission userId "reservations" Write s);
    [| wrong_code Hrun Hcode].
  cbn [negb] in Hrun. rewrite bind_guard_false in Hrun.
  assert (Hdata :
    exists reservationData,
      effectiveReservationData user (Body.reservation (Request.body req))
      = Some reservationData
      /\ branchOfReservation user (Body.reservation (Request.body req)) s
         = (Next reservationData, s)).
  { unfold bind at 1 in Hrun.
    unfold effectiveReservationData, branchOfReservation in *.
    destruct (String.eqb (User.role user) "custom").
    - destruct (JS.truthy_int (User.branchId user)).
      + eexists. split; reflexivity.
      + wrong_code Hrun Hcode.
    - destruct (Body.reservation (Request.body req)) as [d |].
      + cbn [defined] in *. rewrite bind_ret in *.
        destruct (checkBranchPermissions (User.role user)
                    (User.branchId user) (ReservationData.branchId d)).
        * exists d. split; reflexivity.
        * wrong_code Hrun Hcode.
      + wrong_code Hrun Hcode. }
  destruct Hdata as (reservationData & Heff & Hdata).
  unfold bind at 1 in Hrun. rewrite Hdata in Hrun.
  destruct (Body.guest (Request.body req)) as [guestData |];
    [| wrong_code Hrun Hcode].
  cbn [defined] in Hrun. rewrite bind_ret in Hrun.
  destruct (resolveGuest_next guestData
              (ReservationData.branchId reservationData) (Request.now req) s)
    as (guest & s1 & Hguest).
  unfold bind at 1 in Hrun. rewrite Hguest in Hrun.
  destruct (Body.rooms (Request.body req)) as [roomsData |];
    [| wrong_code Hrun Hcode].
  cbn [defined] in Hrun. rewrite bind_ret, bind_query in Hrun.
  destruct (calculateTaxes (subtotalOf roomsData)
              (getActiveReservationTaxes s1))
    as [totalTaxAmount appliedTaxes] eqn:Htax.
  unfold bind at 1, attempt in Hrun.
  destruct (Storage.createReservation _ _ s1) as [[reservation s2] |] eqn:Hc;
    [| wrong_code Hrun Hcode].
  unfold broadcastChange in Hrun. rewrite bind_update in Hrun.
  unfold bind at 1 in Hrun. rewrite reserveRooms_run in Hrun.
  cbn in Hrun. injection Hrun as <- <-.
  exists user, reservationData, guestData, roomsData, guest, s1,
    reservation, s2.
  rewrite Htax. cbn [fst snd].
  repeat split; try reflexivity; assumption.
Qed.

(* ------------------------------------------------------------------ *)
(** ** Cancellation: what a 204 answer has done *)

Lemma updateReservation_only_status (id v : string) (s : Store) :
  Storage.updateReservation id (ReservationPatch.only_status v) s
  = Some (find (fun r => String.eqb (Reservation.id r) id)
            (map (fun r => if String.eqb (Reservation.id r) id
                           then Storage.apply_reservation_patch
                                  (ReservationPatch.only_status v)
                                  None None None r
                           else r) (reservations s)),
          emit (EvUpdateReservation id)
            (with_reservations
               (map (fun r => if String.eqb (Reservation.id r) id
                              then Storage.apply_reservation_patch
                                     (ReservationPatch.only_status v)
                                     None None None r
                              else r) (reservations s))
               (nextReservationId s) s)).
Proof. reflexivity. Qed.

Lemma cancelReservationHandler_cancelled
  (userId : string) (req : Request.t) (s s' : Store) (resp : Response) :
  cancelReservationHandler userId req s = (resp, s') ->
  code resp = 204 ->
  exists existing row s1,
    Storage.getReservation (Request.param_id req) s = Some existing
    /\ Storage.updateReservation (Request.param_id req)
         (ReservationPatch.only_status "cancelled") s = Some (row, s1)
    /\ s' = fold_left
              (fun s rr => emit (EvBroadcast "rooms" "updated")
                             (Storage.updateRoom (ReservationRoom.roomId rr)
                                "available" s))
              (ReservationDetail.reservationRooms existing)
              (emit (EvBroadcast "reservations" "deleted") s1).
Proof.
  intros Hrun Hcode.
  unfold cancelReservationHandler, try_catch in Hrun.
  rewrite bind_query in Hrun.
  destruct (Storage.getUser userId s) as [user |];
    [| wrong_code Hrun Hcode].
  rewrite bind_query in Hrun.
  destruct (checkUserPermission userId "reservations" Delete s);
    [| wrong_code Hrun Hcode].
  cbn [negb] in Hrun. rewrite bind_guard_false, bind_query in Hrun.
  destruct (Storage.getReservation (Request.param_id req) s) as [existing |];
    [| wrong_code Hrun Hcode].
  destruct (checkBranchPermissions (User.role user) (User.branchId user)
              (Reservation.branchId (ReservationDetail.row existing)));
    [| wrong_code Hrun Hcode].
  cbn [negb] in Hrun. rewrite bind_guard_false in Hrun.
  unfold updateReservationCall in Hrun.
  unfold bind at 1, attempt in Hrun.
  rewrite updateReservation_only_status in Hrun.
  unfold broadcastChange in Hrun. rewrite bind_update in Hrun.
  unfold bind at 1 in Hrun. rewrite releaseRooms_run in Hrun.
  cbn [respond] in Hrun. injection Hrun as _ <-.
  eexists existing, _, _.
  split; [reflexivity | split; [apply updateReservation_only_status |]].
  reflexivity.
Qed.

(* ------------------------------------------------------------------ *)
(** ** Room status after creation and after cancellation *)


(* ------------------------------------------------------------------ *)
(** ** Terminal reservations *)

(** The update handler's guard: on a reservation that is checked-out or
    cancelled nothing is written, whoever asks, and a caller who passes
    the permission and branch checks is answered 403 with the handler's
    own message. *)
Lemma update_refused_after_checkout
  (userId : string) (req : Request.t) (s s' : Store) (resp : Response)
  (existing : ReservationDetail.t) :
  Storage.getReservation (Request.param_id req) s = Some existing ->
  is_terminal (Reservation.status (ReservationDetail.row existing)) = true ->
  updateReservationHandler userId req s = (resp, s') ->
  s' = s
  /\ (code resp = 401 \/ code resp = 403)
  /\ (forall user,
        Storage.getUser userId s = Some user ->
        checkUserPermission userId "reservations" Write s = true ->
        checkBranchPermissions (User.role user) (User.branchId user)
          (Reservation.branchId (ReservationDetail.row existing)) = true ->
        resp = {| code := 403;
                  payload := Message "Cannot edit reservation after checkout or cancellation" |}).
Proof.
  intros Hget Hterm Hrun.
  unfold updateReservationHandler, try_catch in Hrun.
  rewrite bind_query in Hrun.
  destruct (Storage.getUser userId s) as [user |].
  2:{ cbn in Hrun. injection Hrun as <- <-.
      split; [reflexivity | split; [now left | discriminate]]. }
  rewrite bind_query in Hrun.
  destruct (checkUserPermission userId "reservations" Write s).
  2:{ cbn in Hrun. injection Hrun as <- <-.
      split; [reflexivity | split; [now right | discriminate]]. }
  cbn [negb] in Hrun. rewrite bind_guard_false, bind_query, Hget in Hrun.
  destruct (checkBranchPermissions (User.role user) (User.branchId user)
              (Reservation.branchId (ReservationDetail.row existing)))
    eqn:Hchk.
  2:{ cbn in Hrun. injection Hrun as <- <-.
      split; [reflexivity | split; [now right |]].
      intros u [= <-] _ H. congruence. }
  cbn [negb] in Hrun. rewrite bind_guard_false, Hterm in Hrun.
  cbn in Hrun. injection Hrun as <- <-.
  split; [reflexivity | split; [now right |]]. reflexivity.
Qed.

(** C4, at the failing input: the cancel handler has no such guard.  On
    the sample reservation [r1], already checked-out, DELETE
    /api/reservations/r1 is answered 204, rewrites the status from
    [checked-out] to [cancelled] and sets the rooms 101, 102 and 103,
    reserved in the meantime, to [available]; the same request through
    PATCH is answered 403 and writes nothing. *)
Theorem cancel_ignores_terminal_status :
  let s := Sample.booked "checked-out" in
  let cancelled := cancelReservationHandler "u-admin" cancel_request s in
  let patched :=
    updateReservationHandler "u-admin"
      (Sample.request "u-admin" "r1" (Sample.status_body "confirmed")) s in
  code (fst cancelled) = 204
  /\ map Reservation.status (reservations s) = [Some "checked-out"]
  /\ map Reservation.status (reservations (snd cancelled)) = [Some "cancelled"]
  /\ map Room.status (rooms s)
     = ["reserved"; "reserved"; "reserved"; "available"]
  /\ map Room.status (rooms (snd cancelled))
     = ["available"; "available"; "available"; "available"]
  /\ fst patched
     = {| code := 403;
          payload := Message "Cannot edit reservation after checkout or cancellation" |}
  /\ snd patched = s.
Proof. vm_compute. repeat split. Qed.

(* ------------------------------------------------------------------ *)
(** ** Room reconciliation of the comprehensive update *)

(** The removal loop stops at its first turn: [deleteReservationRoom] is
    not a method of the storage, and the call throws. *)
Lemma removeRooms_run (l : list ReservationRoom.t) (s : Store) :
  removeRooms l s
  = match l with
    | [] => (Next tt, s)
    | _ :: _ => (Thrown, s)
    end.
Proof. destruct l; reflexivity. Qed.

(** The loop over the payload inserts the entries without an id until it
    meets one with an id: [updateReservationRoom] is not a method of the
    storage either. *)
Lemma processRooms_run (reservationId : string) (l : list RoomData.t)
  (s : Store) :
  processRooms reservationId l s
  = (if forallb (fun d => negb (JS.truthy_int (RoomData.id d))) l
     then Next tt else Thrown,
     fold_left (insert_step reservationId) (leading_new l) s).
Proof.
  unfold processRooms. revert s.
  induction l as [| d l IH]; intros s; cbn [for_each forallb leading_new];
    [reflexivity |].
  destruct (JS.truthy_int (RoomData.id d)); [reflexivity |].
  cbn [negb andb fold_left]. unfold bind at 1.
  rewrite !bind_update. exact (IH (insert_step reservationId s d)).
Qed.

Lemma reconcileRooms_run (reservationId : string)
  (current : list ReservationRoom.t) (rooms : list RoomData.t) (s : Store) :
  reconcileRooms reservationId current rooms s
  = match roomsToRemove current rooms with
    | [] =>
        (if forallb (fun d => negb (JS.truthy_int (RoomData.id d))) rooms
         then Next tt else Thrown,
         fold_left (insert_step reservationId) (leading_new rooms) s)
    | _ :: _ => (Thrown, s)
    end.
Proof.
  unfold reconcileRooms, bind. rewrite removeRooms_run.
  destruct (roomsToRemove current rooms); [apply processRooms_run |].
  reflexivity.
Qed.

Lemma incomingRoomIds_nil (rooms : list RoomData.t) :
  forallb (fun d => negb (JS.truthy_int (RoomData.id d))) rooms = true ->
  incomingRoomIds rooms = [].
Proof.
  induction rooms as [| d l IH]; cbn [forallb incomingRoomIds flat_map];
    [reflexivity |].
  intros H. apply andb_true_iff in H. destruct H as [Hd Hl].
  apply negb_true_iff in Hd. rewrite Hd. exact (IH Hl).
Qed.

(** Neither loop throws only when there is nothing to reconcile: the
    reservation has no room and no payload entry names one. *)
Lemma nothing_to_reconcile (current : list ReservationRoom.t)
  (rooms : list RoomData.t) :
  roomsToRemove current rooms = [] ->
  forallb (fun d => negb (JS.truthy_int (RoomData.id d))) rooms = true ->
  current = [] /\ incomingRoomIds rooms = [] /\ leading_new rooms = rooms.
Proof.
  intros Hremove Hnew. pose proof (incomingRoomIds_nil rooms Hnew) as Hids.
  split; [| split; [exact Hids |]].
  - unfold roomsToRemove in Hremove. rewrite Hids in Hremove.
    cbn [existsb negb] in Hremove.
    destruct current as [| rr l]; [reflexivity | discriminate Hremove].
  - clear Hremove Hids.
    induction rooms as [| d l IH]; cbn [leading_new]; [reflexivity |].
    cbn [forallb] in Hnew. apply andb_true_iff in Hnew.
    destruct Hnew as [Hd Hl]. apply negb_true_iff in Hd. rewrite Hd.
    now rewrite (IH Hl).
Qed.

(** C3, at the failing input: the spec's example.  Reservation [r1] has
    the rows A, B, C (ids 1, 2, 3 over rooms 101, 102, 103) and the payload
    is {B (updated), D (new, room 104)}.  The handler calls
    [storage.deleteReservationRoom] for A, which the storage does not
    define: the request is answered 500 and nothing is reconciled, the
    rows are still A, B, C with two adults each, rooms 101 and 103 are
    still reserved and room 104 still available.  With the payload
    {D, A, B, C}, which drops no row, D is inserted and room 104 reserved,
    then [storage.updateReservationRoom] for A throws: the request is
    answered 500 with D's row left behind. *)
Theorem comprehensive_update_calls_missing_methods :
  let s := Sample.booked "confirmed" in
  let run := app PATCH ["api"; "reservations"; "r1"] rooms_request s in
  let added := app PATCH ["api"; "reservations"; "r1"] add_first_request s in
  Body.rooms (Request.body rooms_request)
  = Some [Sample.roomData (Some 2) 102 3; Sample.roomData None 104 2]
  /\ map ReservationRoom.id (reservationRooms s) = [1; 2; 3]
  /\ fst run
     = {| code := 500; payload := Message "Failed to update reservation" |}
  /\ snd run = s
  /\ map ReservationRoom.id (reservationRooms (snd run)) = [1; 2; 3]
  /\ map ReservationRoom.adults (reservationRooms (snd run)) = [2; 2; 2]
  /\ map Room.status (rooms (snd run))
     = ["reserved"; "reserved"; "reserved"; "available"]
  /\ fst added
     = {| code := 500; payload := Message "Failed to update reservation" |}
  /\ map ReservationRoom.id (reservationRooms (snd added)) = [1; 2; 3; 4]
  /\ map Room.status (rooms (snd added))
     = ["reserved"; "reserved"; "reserved"; "reserved"].
Proof. vm_compute. repeat split. Qed.


(* ------------------------------------------------------------------ *)
(** ** The row of a created reservation *)

Lemma createReservation_row (r : InsertReservation.t) (l : list RoomData.t)
  (s s2 : Store) (row : Reservation.t) :
  Storage.createReservation r l s = Some (row, s2) ->
  money_column (InsertReservation.totalAmount r)
  = Some (Reservation.totalAmount row)
  /\ money_column (InsertReservation.taxAmount r)
     = Some (Reservation.taxAmount row)
  /\ Reservation.appliedTaxes row = InsertReservation.appliedTaxes r
  /\ Reservation.guestId row = InsertReservation.guestId r
  /\ Reservation.confirmationNumber row
     = InsertReservation.confirmationNumber r.
Proof.
  unfold Storage.createReservation.
  destruct (money_column (InsertReservation.totalAmount r)); [| discriminate].
  destruct (money_column (InsertReservation.taxAmount r)); [| discriminate].
  destruct (money_column (InsertReservation.paidAmount r)); [| discriminate].
  intros [= <- _]. repeat split.
Qed.

(* ------------------------------------------------------------------ *)
(** ** The confirmation number *)

Lemma is_digit_digit_char (d : Z) :
  0 <= d < 10 -> JS.is_digit (JS.digit_char d) = true.
Proof.
  intros H.
  assert (Hd : d = 0 \/ d = 1 \/ d = 2 \/ d = 3 \/ d = 4 \/ d = 5 \/ d = 6
               \/ d = 7 \/ d = 8 \/ d = 9) by lia.
  repeat (destruct Hd as [-> | Hd]; [reflexivity |]). now subst.
Qed.

Lemma Z_digits_fuel_digits (fuel : nat) (n : Z) (acc : list ascii) :
  0 <= n -> forallb JS.is_digit acc = true ->
  forallb JS.is_digit (JS.Z_digits_fuel fuel n acc) = true.
Proof.
  revert n acc. induction fuel as [| f IH]; intros n acc Hn Hacc; cbn;
    [exact Hacc |].
  destruct (n <? 10) eqn:E.
  - cbn. rewrite Hacc, is_digit_digit_char; [reflexivity |].
    apply Z.ltb_lt in E. lia.
  - apply IH.
    + apply Z.div_pos; lia.
    + cbn. rewrite Hacc, is_digit_digit_char; [reflexivity |].
      apply Z.mod_pos_bound. lia.
Qed.

Lemma Z_digits_fuel_grows (fuel : nat) (n : Z) (acc : list ascii) :
  (List.length acc <= List.length (JS.Z_digits_fuel fuel n acc))%nat.
Proof.
  revert n acc. induction fuel as [| f IH]; intros n acc; cbn; [lia |].
  destruct (n <? 10); cbn; [lia |].
  specialize (IH (n / 10) (JS.digit_char (n mod 10) :: acc)). cbn in IH. lia.
Qed.

Lemma Z_digits_fuel_length (k fuel : nat) (n : Z) (acc : list ascii) :
  (k < fuel)%nat -> 10 ^ Z.of_nat k <= n ->
  (k + 1 + List.length acc
   <= List.length (JS.Z_digits_fuel fuel n acc))%nat.
Proof.
  revert fuel n acc. induction k as [| k IH]; intros fuel n acc Hk Hn;
    (destruct fuel as [| f]; [lia |]); cbn [JS.Z_digits_fuel].
  - destruct (n <? 10); cbn; [lia |].
    pose proof (Z_digits_fuel_grows f (n / 10)
                  (JS.digit_char (n mod 10) :: acc)) as H.
    cbn in H. lia.
  - assert (H10 : 10 <= n).
    { rewrite Nat2Z.inj_succ, Z.pow_succ_r in Hn by lia.
      assert (0 < 10 ^ Z.of_nat k) by (apply Z.pow_pos_nonneg; lia). lia. }
    destruct (n <? 10) eqn:E; [apply Z.ltb_lt in E; lia |].
    assert (Hdiv : 10 ^ Z.of_nat k <= n / 10).
    { apply Z.div_le_lower_bound; [lia |].
      rewrite Nat2Z.inj_succ, Z.pow_succ_r in Hn by lia. lia. }
    specialize (IH f (n / 10) (JS.digit_char (n mod 10) :: acc)
                  ltac:(lia) Hdiv).
    cbn in IH. lia.
Qed.

(** From 10^7 milliseconds after the epoch on (less than three hours),
    the time has at least eight digits, and the confirmation number is
    RES and the last eight of them. *)
Lemma confirmationNumber_pattern (now : Z) :
  10 ^ 7 <= now -> matches_RES_d8 (confirmationNumber now) = true.
Proof.
  intros Hnow. unfold matches_RES_d8, confirmationNumber.
  cbn [String.append list_ascii_of_string].
  rewrite list_ascii_of_string_of_list_ascii.
  unfold JS.Z_to_string. destruct (now <? 0) eqn:E;
    [apply Z.ltb_lt in E; lia |].
  rewrite list_ascii_of_string_of_list_ascii.
  unfold JS.slice_last, JS.Z_digits.
  set (fuel := S (Z.to_nat (Z.log2 now))).
  assert (Hfuel : (7 < fuel)%nat).
  { unfold fuel.
    assert (Z.log2 (10 ^ 7) <= Z.log2 now) by (apply Z.log2_le_mono; lia).
    change (Z.log2 (10 ^ 7)) with 23 in H. lia. }
  pose proof (Z_digits_fuel_length 7 fuel now [] Hfuel Hnow) as Hlen.
  cbn [List.length] in Hlen.
  pose proof (Z_digits_fuel_digits fuel now [] ltac:(lia) eq_refl) as Hdig.
  set (ds := JS.Z_digits_fuel fuel now []) in *.
  apply andb_true_intro. split.
  - apply Nat.eqb_eq. rewrite length_skipn. lia.
  - rewrite forallb_forall in *. intros c Hc. apply Hdig.
    rewrite <- (firstn_skipn (List.length ds - 8) ds).
    apply in_or_app. now right.
Qed.

(* ------------------------------------------------------------------ *)
(** ** Which handler answers POST /api/reservations *)

(** The router runs the handler registered first (line 971); the
    tax-computing handler registered after it for the same method and
    path (line 1119) is never reached. *)
Lemma post_reservations_runs_first_handler (req : Request.t) (s : Store) :
  app POST ["api"; "reservations"] req s
  = isAuthenticated createReservationHandler
      (with_param (Request.param_id req) req) s.
Proof. reflexivity. Qed.

(** C1, at the failing input: a creation for two rooms with line totals
    of 200.00 each, on a store with one active reservation tax of 10 %,
    the reservation part of the body carrying 400.00 as its total.  The
    claim asks for a stored total of 440.00, a tax of 40.00 and a
    breakdown with one entry of 40.  The request is answered by the
    handler registered first, which never reads the taxes: it stores the
    payload's 400.00, no tax amount and no breakdown, exactly what it
    stores when the tax table is empty.  The handler registered second
    computes the claim's values; the router does not reach it. *)
Theorem live_creation_stores_no_tax :
  let live := app POST ["api"; "reservations"] Sample.two_rooms_request
                Sample.store in
  let untaxed := app POST ["api"; "reservations"] Sample.two_rooms_request
                   Sample.untaxed in
  let shadowed := createReservationWithTaxesHandler "u-admin"
                    Sample.two_rooms_request Sample.store in
  getActiveReservationTaxes Sample.store = [Sample.vat]
  /\ JS.toString (subtotalOf [Sample.roomData None 101 2;
                              Sample.roomData None 102 2]) = "400"
  /\ code (fst live) = 201
  /\ option_map Reservation.totalAmount (created_row (fst live))
     = Some (Some "400.00")
  /\ option_map Reservation.taxAmount (created_row (fst live)) = Some None
  /\ option_map Reservation.appliedTaxes (created_row (fst live)) = Some None
  /\ fst untaxed = fst live
  /\ code (fst shadowed) = 201
  /\ option_map Reservation.totalAmount (created_row (fst shadowed))
     = Some (Some "440.00")
  /\ option_map Reservation.taxAmount (created_row (fst shadowed))
     = Some (Some "40.00")
  /\ option_map Reservation.appliedTaxes (created_row (fst shadowed))
     = Some (Some (json_appliedTaxes
                     [ {| AppliedTax.taxId := 1; AppliedTax.taxName := "VAT";
                          AppliedTax.rate := 10%float;
                          AppliedTax.amount := 40%float |} ])).
Proof. vm_compute. repeat split. Qed.

(** C9, at the failing input: the spec's scenario (branch 1, guest phone
    555-0100, one room at 100.00 for two nights with line total 200.00,
    one active 10 % reservation tax), sent to POST /api/reservations with
    the room total as the reservation's total.  The request is answered by
    the first registered handler, which computes no tax: the reservation
    keeps the client's total 200.00, has no tax amount and no breakdown.
    The values of the claim, 20.00 and 220.00, are those of the second
    handler, which the router does not reach.  The confirmation number
    matches RES and eight digits either way. *)
Theorem scenario_is_answered_without_taxes :
  let live := app POST ["api"; "reservations"] Sample.create_request
                Sample.store in
  let shadowed := createReservationWithTaxesHandler "u-admin"
                    Sample.create_request Sample.store in
  live = createReservationHandler "u-admin" Sample.create_request Sample.store
  /\ code (fst live) = 201
  /\ option_map Reservation.totalAmount (created_row (fst live))
     = Some (Some "200.00")
  /\ option_map Reservation.taxAmount (created_row (fst live)) = Some None
  /\ option_map Reservation.appliedTaxes (created_row (fst live)) = Some None
  /\ option_map (fun r => matches_RES_d8 (Reservation.confirmationNumber r))
       (created_row (fst live)) = Some true
  /\ created_row (fst shadowed) = Some scenario_row
  /\ Reservation.taxAmount scenario_row = Some "20.00"
  /\ Reservation.totalAmount scenario_row = Some "220.00"
  /\ matches_RES_d8 (Reservation.confirmationNumber scenario_row) = true.
Proof. vm_compute. repeat split. Qed.

(* ------------------------------------------------------------------ *)
(** ** Guest search *)

Lemma insert_desc_In (g x : Guest.t) (l : list Guest.t) :
  In x (Storage.insert_desc g l) <-> x = g \/ In x l.
Proof.
  induction l as [| h r IH]; cbn.
  - intuition congruence.
  - destruct (Guest.createdAt h <? Guest.createdAt g); cbn.
    + intuition congruence.
    + rewrite IH. intuition congruence.
Qed.

Lemma orderBy_In (x : Guest.t) (l : list Guest.t) :
  In x (Storage.orderBy_createdAt_desc l) <-> In x l.
Proof.
  unfold Storage.orderBy_createdAt_desc.
  induction l as [| h r IH]; cbn; [tauto |].
  rewrite insert_desc_In, IH. intuition congruence.
Qed.

Lemma firstn_incl {A} (n : nat) (l : list A) (x : A) :
  In x (firstn n l) -> In x l.
Proof.
  intros H. rewrite <- (firstn_skipn n l). apply in_or_app. now left.
Qed.

Lemma searchGuests_In (query : string) (branchId : option Z) (s : Store)
  (g : Guest.t) :
  In g (Storage.searchGuests query branchId s) ->
  In g (guests s)
  /\ Storage.guest_matches ("%" ++ query ++ "%")%string branchId g = true.
Proof.
  unfold Storage.searchGuests. intros H.
  apply firstn_incl, orderBy_In, filter_In in H. exact H.
Qed.

(** Guest search returns active guests only. *)
Lemma searchGuests_active (query : string) (branchId : option Z) (s : Store)
  (g : Guest.t) :
  In g (Storage.searchGuests query branchId s) -> Guest.isActive g = true.
Proof.
  intros H. apply searchGuests_In in H. destruct H as [_ H].
  unfold Storage.guest_matches in H.
  apply andb_true_iff in H. destruct H as [H _].
  apply andb_true_iff in H. now destruct H.
Qed.

Lemma searchGuests_nonempty (query : string) (s : Store) (g : Guest.t) :
  In g (guests s) ->
  Storage.guest_matches ("%" ++ query ++ "%")%string None g = true ->
  Storage.searchGuests query None s <> [].
Proof.
  intros Hin Hm. unfold Storage.searchGuests.
  assert (Hf : In g (Storage.orderBy_createdAt_desc
                       (filter (Storage.guest_matches
                                  ("%" ++ query ++ "%")%string None)
                          (guests s)))).
  { apply orderBy_In, filter_In. now split. }
  destruct (Storage.orderBy_createdAt_desc _) as [| h r]; [contradiction |].
  discriminate.
Qed.

(** *** A phone number matches its own search pattern *)

Lemma like_match_percent (p t : list ascii) :
  Pg.like_match ("%"%char :: p) t
  = Pg.like_match p t
    || match t with
       | [] => false
       | _ :: t' => Pg.like_match ("%"%char :: p) t'
       end.
Proof. destruct t; reflexivity. Qed.

Lemma like_match_step (c d : ascii) (p t : list ascii) :
  Pg.like_match (c :: p) (d :: t)
  = if Ascii.eqb c "%" then
      Pg.like_match p (d :: t) || Pg.like_match (c :: p) t
    else if Ascii.eqb c "_" then Pg.like_match p t
    else if Ascii.eqb c "\" then
      match p with
      | e :: p' => Ascii.eqb e d && Pg.like_match p' t
      | [] => false
      end
    else Ascii.eqb c d && Pg.like_match p t.
Proof.
  destruct (Ascii.eqb c "%") eqn:E1; [| destruct (Ascii.eqb c "_") eqn:E2;
    [| destruct (Ascii.eqb c "\") eqn:E3]];
    simpl; rewrite ?E1, ?E2, ?E3; reflexivity.
Qed.

Lemma like_match_self (q : list ascii) :
  forallb (fun c => negb (Ascii.eqb c "\")) q = true ->
  Pg.like_match (q ++ ["%"%char]) q = true.
Proof.
  induction q as [| c q IH]; intros Hq; [reflexivity |].
  cbn [forallb] in Hq. apply andb_true_iff in Hq. destruct Hq as [Hc Hq].
  specialize (IH Hq). apply negb_true_iff in Hc.
  destruct (Ascii.eqb c "%") eqn:Ep.
  - apply Ascii.eqb_eq in Ep. subst c.
    change (("%"%char :: q) ++ ["%"%char]) with ("%"%char :: (q ++ ["%"%char])).
    rewrite like_match_percent. apply orb_true_iff. right.
    rewrite like_match_percent, IH. reflexivity.
  - change ((c :: q) ++ ["%"%char]) with (c :: (q ++ ["%"%char])).
    rewrite like_match_step, Ep.
    destruct (Ascii.eqb c "_"); [exact IH |].
    rewrite Hc, Ascii.eqb_refl. exact IH.
Qed.

Lemma lower_char_not_backslash (c : ascii) :
  Ascii.eqb c "\" = false -> Ascii.eqb (Pg.lower_char c) "\" = false.
Proof.
  destruct c as [[] [] [] [] [] [] [] []]; intros H;
    first [discriminate H | vm_compute; reflexivity].
Qed.

Lemma lower_no_backslash (q : list ascii) :
  forallb (fun c => negb (Ascii.eqb c "\")) q = true ->
  forallb (fun c => negb (Ascii.eqb c "\")) (Pg.lower q) = true.
Proof.
  unfold Pg.lower.
  induction q as [| c q IH]; cbn [map forallb]; [reflexivity |].
  intros H. apply andb_true_iff in H. destruct H as [Hc Hq].
  apply negb_true_iff in Hc.
  now rewrite (lower_char_not_backslash c Hc), IH.
Qed.

Lemma list_ascii_of_string_app (a b : string) :
  list_ascii_of_string (a ++ b)
  = list_ascii_of_string a ++ list_ascii_of_string b.
Proof. induction a as [| c a IH]; cbn; [reflexivity | now rewrite IH]. Qed.

Lemma ilike_own_pattern (p : string) :
  no_backslash p = true ->
  Pg.ilike (Some p) ("%" ++ p ++ "%")%string = true.
Proof.
  intros Hp. unfold Pg.ilike.
  change ("%" ++ p ++ "%")%string with (String "%" (p ++ "%"))%string.
  cbn [list_ascii_of_string]. rewrite list_ascii_of_string_app.
  unfold Pg.lower. cbn [map]. rewrite map_app. cbn [list_ascii_of_string map].
  change (Pg.lower_char "%") with "%"%char.
  rewrite like_match_percent.
  fold (Pg.lower (list_ascii_of_string p)).
  rewrite (like_match_self _ (lower_no_backslash _ Hp)). reflexivity.
Qed.

(** An active guest with the payload's phone number is found by the
    lookup. *)
Lemma existingGuests_finds_phone (d : GuestData.t) (s : Store) (g : Guest.t)
  (p : string) :
  GuestData.phone d = Some p -> p <> "" -> no_backslash p = true ->
  In g (guests s) -> Guest.isActive g = true -> Guest.phone g = Some p ->
  existingGuests d s <> [].
Proof.
  intros Hd Hne Hp Hin Hact Hph. unfold existingGuests. rewrite Hd.
  assert (Ht : JS.truthy_string (Some p) = true)
    by (destruct p; [contradiction | reflexivity]).
  rewrite Ht. apply (searchGuests_nonempty p s g Hin).
  unfold Storage.guest_matches. rewrite Hact, Hph, (ilike_own_pattern p Hp).
  cbn. now rewrite !orb_true_r.
Qed.

(* ------------------------------------------------------------------ *)
(** ** The guest of a created reservation *)

Lemma createReservation_guests (r : InsertReservation.t)
  (l : list RoomData.t) (s s2 : Store) (row : Reservation.t) :
  Storage.createReservation r l s = Some (row, s2) ->
  guests s2
  = match l with
    | [] => guests s
    | _ :: _ =>
        if negb (InsertReservation.guestId r =? 0)
        then Storage.increment_reservationCount (InsertReservation.guestId r)
               (guests s)
        else guests s
    end.
Proof.
  unfold Storage.createReservation.
  destruct (money_column (InsertReservation.totalAmount r)); [| discriminate].
  destruct (money_column (InsertReservation.taxAmount r)); [| discriminate].
  destruct (money_column (InsertReservation.paidAmount r)); [| discriminate].
  intros [= _ <-]. destruct l as [| d l]; [reflexivity |].
  destruct (negb (InsertReservation.guestId r =? 0)); reflexivity.
Qed.

(** The guest a creation resolves to, and the guests table it leaves: the
    same for both reservation-creating handlers. *)
Lemma creation_guest_effects
  (h : string -> Request.t -> Store -> Response * Store)
  (userId : string) (req : Request.t) (s s' : Store) (resp : Response)
  (d : GuestData.t) (roomsData : list RoomData.t) :
  h = createReservationHandler \/ h = createReservationWithTaxesHandler ->
  h userId req s = (resp, s') ->
  code resp = 201 ->
  Body.guest (Request.body req) = Some d ->
  Body.rooms (Request.body req) = Some roomsData ->
  exists row new,
    resp = {| code := 201; payload := ReservationRow (Some row) |}
    /\ Guest.id new = nextGuestId s
    /\ Guest.phone new = GuestData.phone d
    /\ Guest.reservationCount new
       = match GuestData.reservationCount d with
         | Some v => v
         | None => 0
         end
    /\ Guest.isActive new = match GuestData.isActive d with
                            | Some v => v
                            | None => true
                            end
    /\ Reservation.guestId row
       = match existingGuests d s with
         | g :: _ => Guest.id g
         | [] => nextGuestId s
         end
    /\ guests s'
       = match roomsData with
         | [] => guests_after_resolution (existingGuests d s) new s
         | _ :: _ =>
             if negb (Reservation.guestId row =? 0)
             then Storage.increment_reservationCount (Reservation.guestId row)
                    (guests_after_resolution (existingGuests d s) new s)
             else guests_after_resolution (existingGuests d s) new s
         end.
Proof.
  intros Hh Hrun Hcode Hd Hrooms.
  assert (H : exists branch ins guest s1 row s2,
             resolveGuest d branch (Request.now req) s = (Next guest, s1)
             /\ Storage.createReservation ins roomsData s1 = Some (row, s2)
             /\ InsertReservation.guestId ins = Guest.id guest
             /\ resp = {| code := 201; payload := ReservationRow (Some row) |}
             /\ guests s' = guests s2).
  { destruct Hh as [-> | ->].
    - destruct (createReservationHandler_created _ _ _ _ _ Hrun Hcode)
        as (user & rd & gd & l & guest & s1 & row & s2
            & _ & _ & Hg & Hl & Hres & Hcreate & Hresp & ->).
      rewrite Hd in Hg. injection Hg as <-.
      rewrite Hrooms in Hl. injection Hl as <-.
      eexists _, _, guest, s1, row, s2.
      split; [exact Hres | split; [exact Hcreate |]].
      split; [reflexivity | split; [exact Hresp |]].
      now rewrite (fold_left_preserves _ guests) by reflexivity.
    - destruct (createReservationWithTaxesHandler_created _ _ _ _ _
                  Hrun Hcode)
        as (user & rd & gd & l & guest & s1 & row & s2
            & _ & _ & Hg & Hl & Hres & Hcreate & Hresp & ->).
      rewrite Hd in Hg. injection Hg as <-.
      rewrite Hrooms in Hl. injection Hl as <-.
      eexists _, _, guest, s1, row, s2.
      split; [exact Hres | split; [exact Hcreate |]].
      split; [reflexivity | split; [exact Hresp |]].
      now rewrite (fold_left_preserves _ guests) by reflexivity. }
  destruct H as (branch & ins & guest & s1 & row & s2
                 & Hres & Hcreate & Hgid & Hresp & Hguests).
  exists row, (fst (Storage.createGuest d branch (Request.now req) s)).
  split; [exact Hresp |].
  repeat (split; [reflexivity |]).
  destruct (createReservation_row _ _ _ _ _ Hcreate) as (_ & _ & _ & Hrow & _).
  rewrite Hguests, (createReservation_guests _ _ _ _ _ Hcreate), Hrow, Hgid.
  rewrite resolveGuest_run in Hres. unfold guests_after_resolution.
  destruct (existingGuests d s) as [| g rest]; injection Hres as <- <-;
    split; reflexivity.
Qed.

Lemma increment_ids (gid : Z) (l : list Guest.t) :
  map Guest.id (Storage.increment_reservationCount gid l) = map Guest.id l.
Proof.
  unfold Storage.increment_reservationCount. rewrite map_map.
  apply map_ext. intros g. destruct (Guest.id g =? gid); reflexivity.
Qed.

Lemma increment_other (gid : Z) (l : list Guest.t) :
  (forall g, In g l -> Guest.id g <> gid) ->
  Storage.increment_reservationCount gid l = l.
Proof.
  intros H. unfold Storage.increment_reservationCount.
  rewrite <- (map_id l) at 2. apply map_ext_in. intros g Hg.
  destruct (Guest.id g =? gid) eqn:E; [| reflexivity].
  apply Z.eqb_eq in E. now apply H in Hg.
Qed.

Lemma increment_active_phones (gid : Z) (l : list Guest.t) :
  active_phones (Storage.increment_reservationCount gid l) = active_phones l.
Proof.
  unfold active_phones, Storage.increment_reservationCount.
  induction l as [| g l IH]; cbn [map flat_map]; [reflexivity |].
  rewrite IH. destruct (Guest.id g =? gid); reflexivity.
Qed.

Lemma NoDup_map_injective {A B} (f : A -> B) (l : list A) (a b : A) :
  NoDup (map f l) -> In a l -> In b l -> f a = f b -> a = b.
Proof.
  induction l as [| x l IH]; cbn; [contradiction |].
  intros Hnd [-> | Ha] [-> | Hb] Heq; try reflexivity.
  - apply NoDup_cons_iff in Hnd. destruct Hnd as [Hnot _].
    exfalso. apply Hnot. rewrite Heq. now apply in_map.
  - apply NoDup_cons_iff in Hnd. destruct Hnd as [Hnot _].
    exfalso. apply Hnot. rewrite <- Heq. now apply in_map.
  - apply NoDup_cons_iff in Hnd. destruct Hnd as [_ Hnd]. now apply IH.
Qed.

Lemma active_phones_In (l : list Guest.t) (p : string) :
  In p (active_phones l) ->
  exists g, In g l /\ Guest.isActive g = true /\ Guest.phone g = Some p.
Proof.
  unfold active_phones. intros H. apply in_flat_map in H.
  destruct H as (g & Hg & Hp). exists g. split; [exact Hg |].
  destruct (Guest.isActive g); cbn in Hp; [| contradiction].
  destruct (Guest.phone g) as [q |]; cbn in Hp; [| contradiction].
  destruct q; cbn in Hp; [contradiction |].
  destruct Hp as [<- | []]. now split.
Qed.

Lemma active_phones_app (l1 l2 : list Guest.t) :
  active_phones (l1 ++ l2) = active_phones l1 ++ active_phones l2.
Proof. unfold active_phones. apply flat_map_app. Qed.

(** C2, amended: a reservation creation that is answered 201 (by either
    handler registered for POST /api/reservations) with a non-empty phone
    number [p], on a store whose guest ids come from the counter.
    - When the guest search for [p] returns guests, its first result, an
      active guest, is the reservation's guest; no guest row is added;
      with a non-empty room list that guest's [reservationCount] goes up
      by exactly one, and the rows of the other guests stay as they are;
      with an empty room list no guest row changes at all.
    - When the search returns nothing, one guest row with phone [p] is
      added, and it is the reservation's guest; the other rows stay as
      they are; its [reservationCount] is the count its payload names (0
      when it names none), plus one with a non-empty room list.
    - When [p] has no backslash and no two active guests shared a phone
      number before, none do after. *)
Theorem guest_is_reused_and_counted
  (h : string -> Request.t -> Store -> Response * Store)
  (userId : string) (req : Request.t) (s s' : Store) (resp : Response)
  (d : GuestData.t) (roomsData : list RoomData.t) (p : string) :
  h = createReservationHandler \/ h = createReservationWithTaxesHandler ->
  h userId req s = (resp, s') ->
  code resp = 201 ->
  Body.guest (Request.body req) = Some d ->
  Body.rooms (Request.body req) = Some roomsData ->
  GuestData.phone d = Some p ->
  p <> "" ->
  guest_ids_wf s ->
  exists row,
    resp = {| code := 201; payload := ReservationRow (Some row) |}
    /\ (forall g rest,
          Storage.searchGuests p None s = g :: rest ->
          In g (guests s) /\ Guest.isActive g = true
          /\ Reservation.guestId row = Guest.id g
          /\ map Guest.id (guests s') = map Guest.id (guests s)
          /\ (roomsData <> [] ->
              forall g', In g' (guests s') -> Guest.id g' = Guest.id g ->
                         Guest.reservationCount g'
                         = Guest.reservationCount g + 1)
          /\ (roomsData = [] -> guests s' = guests s)
          /\ (forall g0, In g0 (guests s) -> Guest.id g0 <> Guest.id g ->
                         In g0 (guests s')))
    /\ (Storage.searchGuests p None s = [] ->
        exists new,
          guests s' = guests s ++ [new]
          /\ Reservation.guestId row = Guest.id new
          /\ Guest.phone new = Some p
          /\ Guest.reservationCount new
             = match GuestData.reservationCount d with
               | Some v => v
               | None => 0
               end
               + match roomsData with [] => 0 | _ :: _ => 1 end)
    /\ (no_backslash p = true ->
        unique_active_phones s -> unique_active_phones s').
Proof.
  intros Hh Hrun Hcode Hd Hrooms Hphone Hne (Hnext & Hids & Hnodup).
  destruct (creation_guest_effects h userId req s s' resp d roomsData
              Hh Hrun Hcode Hd Hrooms)
    as (row & new & Hresp & Hnid & Hnphone & Hncount & Hnact & Hgid & Hguests).
  assert (Hfound : existingGuests d s = Storage.searchGuests p None s).
  { unfold existingGuests. rewrite Hphone.
    destruct p; [contradiction | reflexivity]. }
  rewrite Hfound in Hgid, Hguests.
  exists row. split; [exact Hresp |]. split; [| split].
  - (* a guest is found *)
    intros g rest Hsearch. rewrite Hsearch in Hgid, Hguests.
    cbn [guests_after_resolution] in Hguests.
    assert (Hin : In g (Storage.searchGuests p None s))
      by (rewrite Hsearch; now left).
    pose proof (searchGuests_active _ _ _ _ Hin) as Hact.
    apply searchGuests_In in Hin. destruct Hin as [Hin _].
    assert (Hpos : negb (Reservation.guestId row =? 0) = true).
    { rewrite Hgid. apply negb_true_iff, Z.eqb_neq.
      specialize (Hids g Hin). lia. }
    rewrite Hpos, Hgid in Hguests.
    split; [exact Hin | split; [exact Hact | split; [exact Hgid |]]].
    split; [| split; [| split]].
    + rewrite Hguests. destruct roomsData; [reflexivity | apply increment_ids].
    + intros Hrooms' g' Hg' Hid. rewrite Hguests in Hg'.
      destruct roomsData as [| r0 rs]; [contradiction |].
      apply in_map_iff in Hg'. destruct Hg' as (g0 & <- & Hg0).
      assert (Hsame : Guest.id g0 = Guest.id g).
      { destruct (Guest.id g0 =? Guest.id g); exact Hid. }
      assert (g0 = g) by
        exact (NoDup_map_injective Guest.id _ g0 g Hnodup Hg0 Hin Hsame).
      subst g0. rewrite Z.eqb_refl. reflexivity.
    + intros ->. exact Hguests.
    + intros g0 Hg0 Hother. rewrite Hguests.
      destruct roomsData; [exact Hg0 |].
      apply in_map_iff. exists g0. split; [| exact Hg0].
      destruct (Guest.id g0 =? Guest.id g) eqn:E; [| reflexivity].
      apply Z.eqb_eq in E. contradiction.
  - (* no guest is found *)
    intros Hsearch. rewrite Hsearch in Hgid, Hguests.
    cbn [guests_after_resolution] in Hguests.
    assert (Hpos : negb (Reservation.guestId row =? 0) = true).
    { rewrite Hgid. apply negb_true_iff, Z.eqb_neq. lia. }
    rewrite Hpos, Hgid in Hguests.
    destruct roomsData as [| r0 rs].
    + exists new. rewrite Hnphone, Hphone, Hncount, Hgid, Hnid.
      repeat split; try assumption. lia.
    + exists (Guest.set_reservationCount (Guest.reservationCount new + 1) new).
      rewrite Hncount. cbn [Guest.id Guest.phone Guest.reservationCount
                              Guest.set_reservationCount].
      rewrite Hnphone, Hphone, Hgid, Hnid. repeat split; try assumption.
      rewrite Hguests. unfold Storage.increment_reservationCount.
      rewrite map_app. cbn [map]. rewrite Hnid, Z.eqb_refl, Hncount. f_equal.
      apply (increment_other (nextGuestId s)). intros g0 Hg0.
      specialize (Hids g0 Hg0). lia.
  - (* phones stay unique *)
    intros Hp Huniq. unfold unique_active_phones in *.
    assert (Hcases :
      active_phones (guests s') = active_phones (guests s)
      \/ (Storage.searchGuests p None s = []
          /\ active_phones (guests s') = active_phones (guests s) ++ [p])).
    { rewrite Hguests.
      assert (Hres :
        active_phones
          (guests_after_resolution (Storage.searchGuests p None s) new s)
        = active_phones (guests s)
        \/ (Storage.searchGuests p None s = []
            /\ active_phones
                 (guests_after_resolution (Storage.searchGuests p None s)
                    new s)
               = active_phones (guests s) ++ [p])).
      { destruct (Storage.searchGuests p None s) as [| g rest];
          cbn [guests_after_resolution]; [| now left].
        rewrite active_phones_app.
        assert (Hone : active_phones [new]
                       = if Guest.isActive new then [p] else []).
        { unfold active_phones. cbn [flat_map]. rewrite app_nil_r.
          rewrite Hnphone, Hphone.
          destruct (Guest.isActive new); [| reflexivity].
          destruct p; [contradiction | reflexivity]. }
        rewrite Hone. destruct (Guest.isActive new).
        - right. split; reflexivity.
        - left. now rewrite app_nil_r. }
      destruct roomsData as [| r0 rs]; [exact Hres |].
      destruct (negb (Reservation.guestId row =? 0));
        [rewrite increment_active_phones |]; exact Hres. }
    destruct Hcases as [-> | [Hsearch ->]]; [exact Huniq |].
    apply NoDup_app; [exact Huniq | repeat constructor; intros [] |].
    intros q Hq [Heq | []]. subst q.
    apply active_phones_In in Hq. destruct Hq as (g & Hg & Hact & Hph).
    apply (existingGuests_finds_phone d s g p Hphone Hne Hp Hg Hact Hph).
    now rewrite Hfound.
Qed.

Lemma booked_guest_ids_wf (status : string) :
  guest_ids_wf (Sample.booked status).
Proof.
  split; [cbn; lia | split].
  - intros g [<- | []]. cbn. lia.
  - cbn. repeat constructor. intros [].
Qed.

(** Ann books again under her phone number: she is found, no guest row is
    added, and her count goes from 1 to 2. *)
Lemma guest_is_reused_and_counted_witness :
  let r := createReservationHandler "u-admin" Sample.create_request
             (Sample.booked "confirmed") in
  exists row,
    fst r = {| code := 201; payload := ReservationRow (Some row) |}
    /\ Reservation.guestId row = 1
    /\ map Guest.id (guests (snd r)) = [1]
    /\ (forall g', In g' (guests (snd r)) -> Guest.id g' = 1 ->
                   Guest.reservationCount g' = 1 + 1).
Proof.
  cbv zeta.
  destruct (guest_is_reused_and_counted createReservationHandler "u-admin"
              Sample.create_request (Sample.booked "confirmed") _ _
              (Sample.guestData "Ann" "555-0100")
              [Sample.roomData None 101 2] "555-0100"
              (or_introl eq_refl) (surjective_pairing _) eq_refl eq_refl
              eq_refl eq_refl ltac:(discriminate)
              (booked_guest_ids_wf "confirmed"))
    as (row & Hresp & Hreuse & _ & _).
  destruct (Hreuse (Sample.guest 1 "Ann" "555-0100" true 1000) [] eq_refl)
    as (_ & _ & Hgid & Hids & Hcount & _ & _).
  exists row. split; [exact Hresp | split; [exact Hgid | split]].
  - exact Hids.
  - apply Hcount. discriminate.
Defined.

(** C2, as stated, fails in each of its three parts.
    - A phone number that matches an existing guest does not reuse that
      guest when the guest is inactive: with Ann deactivated, a creation
      under her phone number adds guest 2 and books for guest 2.
    - A creation does not always raise the count: with an empty room list
      it is answered 201, adds a reservation, and leaves Ann's count at 1.
    - Two active guests can share a phone number: a comprehensive update
      of Bob's reservation that sets his phone to Ann's is answered 200 and
      leaves both active under 555-0100. *)
Lemma guest_claims_fail :
  let inactive := app POST ["api"; "reservations"] Sample.create_request
                    deactivated in
  let roomless := app POST ["api"; "reservations"] Sample.roomless_request
                    (Sample.booked "confirmed") in
  let shared := app PATCH ["api"; "reservations"; "r1"]
                  (Sample.phone_request "555-0100") Sample.two_guests in
  (map Guest.isActive (guests deactivated) = [false]
   /\ map Guest.phone (guests deactivated) = [Some "555-0100"]
   /\ code (fst inactive) = 201
   /\ option_map Reservation.guestId (created_row (fst inactive)) = Some 2
   /\ map Guest.id (guests (snd inactive)) = [1; 2])
  /\ (code (fst roomless) = 201
      /\ List.length (reservations (snd roomless)) = 2%nat
      /\ option_map Reservation.guestId (created_row (fst roomless)) = Some 1
      /\ map Guest.reservationCount (guests (Sample.booked "confirmed")) = [1]
      /\ map Guest.reservationCount (guests (snd roomless)) = [1])
  /\ (code (fst shared) = 200
      /\ map Guest.isActive (guests (snd shared)) = [true; true]
      /\ map Guest.phone (guests (snd shared))
         = [Some "555-0100"; Some "555-0100"]).
Proof. vm_compute. repeat split. Qed.

(* ------------------------------------------------------------------ *)
(** ** Deactivated guests *)

(** C10, amended: guest search, as used by GET /api/guests/search and by
    the lookup of the reservation creation, returns active guests only;
    so a creation answered 201 (by either handler) never books for a
    deactivated guest, whatever the phone number; it adds a guest row
    exactly when the lookup finds no active guest, and then books for the
    guest it adds; when the lookup finds active guests it adds none and
    books for the first of them. *)
Theorem deactivated_guest_is_never_reused :
  (forall query branchId s g,
     In g (Storage.searchGuests query branchId s) -> Guest.isActive g = true)
  /\ (forall userId req s resp s' found g,
        searchGuestsHandler userId req s = (resp, s') ->
        payload resp = GuestList found -> In g found ->
        Guest.isActive g = true)
  /\ (forall h userId req s resp s' d roomsData,
        h = createReservationHandler
        \/ h = createReservationWithTaxesHandler ->
        h userId req s = (resp, s') ->
        code resp = 201 ->
        Body.guest (Request.body req) = Some d ->
        Body.rooms (Request.body req) = Some roomsData ->
        guest_ids_wf s ->
        exists row,
          resp = {| code := 201; payload := ReservationRow (Some row) |}
          /\ (forall inactive,
                In inactive (guests s) -> Guest.isActive inactive = false ->
                Reservation.guestId row <> Guest.id inactive)
          /\ (existingGuests d s = [] ->
              List.length (guests s') = S (List.length (guests s))
              /\ map Guest.id (guests s')
                 = map Guest.id (guests s) ++ [Reservation.guestId row])
          /\ (existingGuests d s <> [] ->
              List.length (guests s') = List.length (guests s))
          /\ (forall g rest,
                existingGuests d s = g :: rest ->
                In g (guests s) /\ Guest.isActive g = true
                /\ Reservation.guestId row = Guest.id g
                /\ map Guest.id (guests s') = map Guest.id (guests s))).
Proof.
  split; [exact searchGuests_active | split].
  - intros userId req s resp s' found g Hrun Hpay Hg.
    unfold searchGuestsHandler, try_catch in Hrun. rewrite bind_query in Hrun.
    destruct (Storage.getUser userId s);
      [| cbn in Hrun; injection Hrun as <- _; discriminate Hpay].
    rewrite bind_guard_false in Hrun.
    destruct (JS.truthy_string (Request.query_q req)); cbn in Hrun;
      injection Hrun as <- _; cbn in Hpay; injection Hpay as <-.
    + exact (searchGuests_active _ _ _ _ Hg).
    + contradiction.
  - intros h userId req s resp s' d roomsData Hh Hrun Hcode Hd Hrooms
      (Hnext & Hids & Hnodup).
    destruct (creation_guest_effects h userId req s s' resp d roomsData
                Hh Hrun Hcode Hd Hrooms)
      as (row & new & Hresp & Hnid & _ & _ & _ & Hgid & Hguests).
    assert (Hlen : List.length (guests s')
                   = List.length (guests_after_resolution
                                    (existingGuests d s) new s)).
    { rewrite Hguests. destruct roomsData; [reflexivity |].
      destruct (negb (Reservation.guestId row =? 0)); [| reflexivity].
      apply length_map. }
    assert (Hmap : map Guest.id (guests s')
                   = map Guest.id (guests_after_resolution
                                     (existingGuests d s) new s)).
    { rewrite Hguests. destruct roomsData; [reflexivity |].
      destruct (negb (Reservation.guestId row =? 0)); [| reflexivity].
      apply increment_ids. }
    exists row. split; [exact Hresp | split; [| split; [| split]]].
    + intros inactive Hin Hinact Heq. rewrite Hgid in Heq.
      destruct (existingGuests d s) as [| g rest] eqn:Hfound.
      * specialize (Hids inactive Hin). lia.
      * assert (Hg : In g (existingGuests d s)) by (rewrite Hfound; now left).
        unfold existingGuests in Hg.
        destruct (JS.truthy_string (GuestData.phone d)); [| contradiction].
        pose proof (searchGuests_active _ _ _ _ Hg) as Hact.
        apply searchGuests_In in Hg. destruct Hg as [Hg _].
        assert (g = inactive) by
          exact (NoDup_map_injective Guest.id _ g inactive Hnodup Hg Hin Heq).
        subst g. congruence.
    + intros Hnone. rewrite Hlen, Hmap, Hgid, Hnone.
      cbn [guests_after_resolution]. rewrite length_app, map_app.
      cbn [map List.length]. rewrite Hnid.
      split; [lia | reflexivity].
    + intros Hsome. rewrite Hlen.
      destruct (existingGuests d s); [contradiction | reflexivity].
    + intros g rest Hfound. rewrite Hmap, Hgid, Hfound.
      cbn [guests_after_resolution].
      assert (Hg : In g (existingGuests d s)) by (rewrite Hfound; now left).
      unfold existingGuests in Hg.
      destruct (JS.truthy_string (GuestData.phone d)); [| contradiction].
      pose proof (searchGuests_active _ _ _ _ Hg) as Hact.
      apply searchGuests_In in Hg. destruct Hg as [Hg _].
      repeat split; assumption.
Qed.

(** Ann is deactivated and her phone number books again: the reservation
    is for a new guest 2, and the guests table has one row more. *)
Lemma deactivated_guest_is_never_reused_witness :
  let r := createReservationHandler "u-admin" Sample.create_request
             deactivated in
  exists row,
    fst r = {| code := 201; payload := ReservationRow (Some row) |}
    /\ Reservation.guestId row <> 1
    /\ List.length (guests (snd r)) = 2%nat.
Proof.
  cbv zeta.
  destruct deactivated_guest_is_never_reused as (_ & _ & H).
  destruct (H createReservationHandler "u-admin" Sample.create_request
              deactivated _ _ (Sample.guestData "Ann" "555-0100")
              [Sample.roomData None 101 2]
              (or_introl eq_refl) (surjective_pairing _) eq_refl eq_refl
              eq_refl)
    as (row & Hresp & Hnot & Hnew & _).
  - split; [vm_compute; reflexivity | split].
    + intros g Hg. vm_compute in Hg. destruct Hg as [<- | []].
      vm_compute. split; reflexivity.
    + vm_compute. repeat constructor. intros [].
  - exists row. split; [exact Hresp | split].
    + apply (Hnot (Sample.guest 1 "Ann" "555-0100" false 1000));
        [now left | reflexivity].
    + exact (proj1 (Hnew eq_refl)).
Defined.

(** C10, as stated, fails on "and instead creates a new guest record":
    after Ann is deactivated and her phone number has booked once, adding
    guest 2, the next creation under the phone number of the deactivated
    Ann finds the active guest 2, books for guest 2 and adds no guest row,
    through the router and by the tax-computing handler alike. *)
Lemma second_booking_creates_no_guest :
  let once := app POST ["api"; "reservations"] Sample.create_request
                deactivated in
  let twice := app POST ["api"; "reservations"] Sample.create_request
                 (snd once) in
  let taxed := createReservationWithTaxesHandler "u-admin"
                 Sample.create_request (snd once) in
  map Guest.isActive (guests deactivated) = [false]
  /\ map Guest.phone (guests deactivated) = [Some "555-0100"]
  /\ map Guest.id (guests (snd once)) = [1; 2]
  /\ code (fst twice) = 201
  /\ option_map Reservation.guestId (created_row (fst twice)) = Some 2
  /\ map Guest.id (guests (snd twice)) = [1; 2]
  /\ code (fst taxed) = 201
  /\ option_map Reservation.guestId (created_row (fst taxed)) = Some 2
  /\ map Guest.id (guests (snd taxed)) = [1; 2].
Proof. vm_compute. repeat split. Qed.

(* ================================================================== *)
(** * Further properties of the handlers and of the storage *)
(* ================================================================== *)

(** ** What a role may do *)

(** X1: [checkUserPermission] by role.  A user id without a row is
    granted nothing; a superadmin everything; a branch-admin everything
    but the modules users, branches and settings, whatever the action; a
    front-desk user the modules dashboard, reservations, rooms, guests and
    billing, and of the deletions only that of reservations; a role that
    is none of superadmin, branch-admin, front-desk and custom nothing. *)
Theorem checkUserPermission_builtin_roles
  (userId module : string) (action : PermissionAction) (s : Store) :
  (Storage.getUser userId s = None ->
   checkUserPermission userId module action s = false)
  /\ (forall user,
        Storage.getUser userId s = Some user ->
        (User.role user = "superadmin" ->
         checkUserPermission userId module action s = true)
        /\ (User.role user = "branch-admin" ->
            (checkUserPermission userId module action s = true
             <-> module <> "users" /\ module <> "branches"
                 /\ module <> "settings"))
        /\ (User.role user = "front-desk" ->
            (checkUserPermission userId module action s = true
             <-> In module ["dashboard"; "reservations"; "rooms"; "guests";
                            "billing"]
                 /\ (action = Delete -> module = "reservations")))
        /\ (User.role user <> "superadmin" ->
            User.role user <> "branch-admin" ->
            User.role user <> "front-desk" ->
            User.role user <> "custom" ->
            checkUserPermission userId module action s = false)).
Proof.
  unfold checkUserPermission. split.
  - intros ->. reflexivity.
  - intros user ->. split; [| split; [| split]].
    + intros ->. reflexivity.
    + intros ->. cbn [String.eqb Ascii.eqb Bool.eqb].
      unfold mem_string. cbn [existsb].
      rewrite negb_true_iff, !orb_false_iff, !String.eqb_neq.
      intuition congruence.
    + intros ->. cbn [String.eqb Ascii.eqb Bool.eqb].
      unfold mem_string. cbn [existsb In].
      destruct (String.eqb module "dashboard") eqn:E1;
        destruct (String.eqb module "reservations") eqn:E2;
        destruct (String.eqb module "rooms") eqn:E3;
        destruct (String.eqb module "guests") eqn:E4;
        destruct (String.eqb module "billing") eqn:E5;
        repeat match goal with
               | H : String.eqb _ _ = true |- _ => apply String.eqb_eq in H
               | H : String.eqb _ _ = false |- _ => apply String.eqb_neq in H
               end;
        destruct action; cbn;
        (split;
         [ intros H;
           first [ discriminate H
                 | split;
                   [ intuition
                   | intros Hd; first [discriminate Hd | congruence] ] ]
         | intros [Hin Hd];
           first [ reflexivity
                 | exfalso;
                   first [ specialize (Hd eq_refl); intuition congruence
                         | intuition congruence ] ] ]).
    + intros H1 H2 H3 H4.
      rewrite !string_eqb_false by assumption. reflexivity.
Qed.

(** X2: the built-in roles are nested.  Whatever a front-desk user may do
    a branch-admin may do, and whatever a branch-admin may do a superadmin
    may do. *)
Theorem role_privileges_are_nested
  (s : Store) (clerk manager admin module : string)
  (action : PermissionAction) (u1 u2 u3 : User.t) :
  Storage.getUser clerk s = Some u1 -> User.role u1 = "front-desk" ->
  Storage.getUser manager s = Some u2 -> User.role u2 = "branch-admin" ->
  Storage.getUser admin s = Some u3 -> User.role u3 = "superadmin" ->
  (checkUserPermission clerk module action s = true ->
   checkUserPermission manager module action s = true)
  /\ (checkUserPermission manager module action s = true ->
      checkUserPermission admin module action s = true).
Proof.
  intros H1 R1 H2 R2 H3 R3. unfold checkUserPermission.
  rewrite H1, H2, H3, R1, R2, R3.
  cbn [String.eqb Ascii.eqb Bool.eqb]. unfold mem_string. cbn [existsb].
  split; [| reflexivity].
  destruct (String.eqb module "dashboard") eqn:E1;
    [apply String.eqb_eq in E1; subst module; reflexivity |].
  destruct (String.eqb module "reservations") eqn:E2;
    [apply String.eqb_eq in E2; subst module; reflexivity |].
  destruct (String.eqb module "rooms") eqn:E3;
    [apply String.eqb_eq in E3; subst module; reflexivity |].
  destruct (String.eqb module "guests") eqn:E4;
    [apply String.eqb_eq in E4; subst module; reflexivity |].
  destruct (String.eqb module "billing") eqn:E5;
    [apply String.eqb_eq in E5; subst module; reflexivity |].
  cbn. discriminate.
Qed.

Lemma role_privileges_are_nested_witness :
  (checkUserPermission "u-clerk" "guests" Write Sample.store = true ->
   checkUserPermission "u-manager" "guests" Write Sample.store = true)
  /\ (checkUserPermission "u-manager" "guests" Write Sample.store = true ->
      checkUserPermission "u-admin" "guests" Write Sample.store = true).
Proof.
  apply (role_privileges_are_nested Sample.store "u-clerk" "u-manager"
           "u-admin" "guests" Write Sample.clerk Sample.manager Sample.admin);
    reflexivity.
Defined.

(* ------------------------------------------------------------------ *)
(** ** Running a handler to its answer *)

Lemma updateGuest_deactivation (id : Z) (s : Store) :
  Storage.updateGuest id deactivation s
  = Some (Storage.getGuest id (Storage.set_guest id deactivation s),
          Storage.set_guest id deactivation s).
Proof. reflexivity. Qed.

Lemma updateGuest_some (id : Z) (d : GuestData.t) (s s1 : Store)
  (row : option Guest.t) :
  Storage.updateGuest id d s = Some (row, s1) ->
  guest_has_keys d = true /\ s1 = Storage.set_guest id d s
  /\ row = Storage.getGuest id s1.
Proof.
  unfold Storage.updateGuest. destruct (guest_has_keys d); [| discriminate].
  intros [= <- <-]. repeat split.
Qed.

(** The loops of the handlers, in the form [Next tt] and the store they
    leave. *)
Ltac run_loops H :=
  first
    [ rewrite reserveRooms_run in H
    | rewrite releaseRooms_run in H
    | rewrite cascadeRoomStatus_run in H
    | rewrite reconcileRooms_run in H
    | rewrite resolveGuest_run in H
    | rewrite updateGuest_deactivation in H ].

(** Splits a run [H : handler userId req s = (resp, s')] into its paths:
    every test of the handler is decided, and each path ends with the
    response and the store of that path. *)
Ltac run_paths H :=
  unfold defined, when, guard, broadcastChange in H;
  unfold try_catch, bind, query, respond, ret, throw, update, attempt in H;
  cbv beta iota in H;
  repeat
    (first
       [ run_loops H
       | match type of H with
         | context [match ?x with _ => _ end] =>
             lazymatch x with
             | context [match _ with _ => _ end] => fail
             | _ => destruct x eqn:?
             end
         end ];
     cbv beta iota in H).

Ltac run_handler H := run_paths H; try (injection H as <- <-).

(** Names the store a guest update has left. *)
Ltac guest_writes :=
  repeat match goal with
         | Hg : Storage.updateGuest _ _ _ = Some _ |- _ =>
             apply updateGuest_some in Hg; destruct Hg as (_ & -> & _)
         end.

(* ------------------------------------------------------------------ *)
(** ** Refusals *)

(** X3: for every registered handler, a request whose session user has no
    user row is refused (401, and 403 by the branch deletion), and a
    request that is answered 401, 403 or 404 leaves the store exactly as
    it was: every check of a handler comes before its first write. *)
Theorem refusals_leave_the_store_unchanged
  (r : Route) (userId : string) (req : Request.t) (s s' : Store)
  (resp : Response) :
  In r registerRoutes ->
  handler r userId req s = (resp, s') ->
  (Storage.getUser userId s = None -> is_refusal resp = true)
  /\ (is_refusal resp = true -> s' = s).
Proof.
  intros Hin H. unfold registerRoutes in Hin. cbn [In] in Hin.
  repeat (destruct Hin as [<- | Hin]); [.. | contradiction];
    cbn [handler] in H.
  - unfold deleteBranchHandler, lookup in H. run_handler H;
      (split; [intros Hu; first [reflexivity | congruence]
              | intros Hr; first [reflexivity | discriminate Hr]]).
  - unfold searchGuestsHandler in H. run_handler H;
      (split; [intros Hu; first [reflexivity | congruence]
              | intros Hr; first [reflexivity | discriminate Hr]]).
  - unfold deleteGuestHandler, lookup in H. run_handler H;
      (split; [intros Hu; first [reflexivity | congruence]
              | intros Hr; first [reflexivity | discriminate Hr]]).
  - unfold createReservationHandler in H. run_handler H;
      (split; [intros Hu; first [reflexivity | congruence]
              | intros Hr; first [reflexivity | discriminate Hr]]).
  - unfold createReservationWithTaxesHandler, branchOfReservation in H.
    run_handler H;
      (split; [intros Hu; first [reflexivity | congruence]
              | intros Hr; first [reflexivity | discriminate Hr]]).
  - unfold updateReservationHandler, updateGuestIfProvided,
      updateReservationIfProvided, updateGuestCall, updateReservationCall
      in H.
    run_handler H;
      (split; [intros Hu; first [reflexivity | congruence]
              | intros Hr; first [reflexivity | discriminate Hr]]).
  - unfold cancelReservationHandler, updateReservationCall in H.
    run_handler H;
      (split; [intros Hu; first [reflexivity | congruence]
              | intros Hr; first [reflexivity | discriminate Hr]]).
Qed.

Lemma refusals_leave_the_store_unchanged_witness :
  let s := Sample.booked "confirmed" in
  let run := cancelReservationHandler "u-clerk"
               (Sample.request "u-clerk" "r1" Sample.empty_body) s in
  code (fst run) = 403 /\ snd run = s.
Proof.
  intros s run.
  destruct (refusals_leave_the_store_unchanged
              {| method := DELETE; path := ["api"; "reservations"; ":id"];
                 handler := cancelReservationHandler |}
              "u-clerk" (Sample.request "u-clerk" "r1" Sample.empty_body)
              s (snd run) (fst run)) as [_ Hsame].
  - unfold registerRoutes. do 6 right. left. reflexivity.
  - cbn [handler]. apply surjective_pairing.
  - split; [vm_compute; reflexivity | apply Hsame; vm_compute; reflexivity].
Defined.

(* ------------------------------------------------------------------ *)
(** ** The permission each handler asks for *)

(** X4: a caller that lacks the permission a handler asks for is answered
    403 with that handler's message, and nothing is written: the branch
    deletion asks for the superadmin role, the guest deletion for
    [guests]/delete, the tax-computing creation and the update for
    [reservations]/write, the cancellation for [reservations]/delete. *)
Theorem permission_is_required
  (userId : string) (req : Request.t) (s : Store) (user : User.t) :
  Storage.getUser userId s = Some user ->
  (User.role user <> "superadmin" ->
   deleteBranchHandler userId req s
   = ({| code := 403; payload := Message "Insufficient permissions" |}, s))
  /\ (checkUserPermission userId "guests" Delete s = false ->
      deleteGuestHandler userId req s
      = ({| code := 403;
            payload := Message "You do not have permission to delete guests" |},
         s))
  /\ (checkUserPermission userId "reservations" Write s = false ->
      createReservationWithTaxesHandler userId req s
      = ({| code := 403;
            payload :=
              Message "You do not have permission to create reservations" |},
         s)
      /\ updateReservationHandler userId req s
         = ({| code := 403;
               payload :=
                 Message "You do not have permission to update reservations" |},
            s))
  /\ (checkUserPermission userId "reservations" Delete s = false ->
      cancelReservationHandler userId req s
      = ({| code := 403;
            payload :=
              Message "You do not have permission to delete reservations" |},
         s)).
Proof.
  intros Hu. split; [| split; [| split]].
  - intros Hrole. unfold deleteBranchHandler, try_catch.
    rewrite bind_query, Hu, (string_eqb_false _ _ Hrole). reflexivity.
  - intros Hp. unfold deleteGuestHandler, try_catch.
    rewrite bind_query, Hu. cbn [guard]. rewrite bind_ret, bind_query, Hp.
    reflexivity.
  - intros Hp. split.
    + unfold createReservationWithTaxesHandler, try_catch.
      rewrite bind_query, Hu, bind_query, Hp. reflexivity.
    + unfold updateReservationHandler, try_catch.
      rewrite bind_query, Hu, bind_query, Hp. reflexivity.
  - intros Hp. unfold cancelReservationHandler, try_catch.
    rewrite bind_query, Hu, bind_query, Hp. reflexivity.
Qed.

Lemma permission_is_required_witness :
  deleteGuestHandler "u-clerk" (Sample.guest_request "1")
    (Sample.booked "confirmed")
  = ({| code := 403;
        payload := Message "You do not have permission to delete guests" |},
     Sample.booked "confirmed").
Proof.
  apply (permission_is_required "u-clerk" (Sample.guest_request "1")
           (Sample.booked "confirmed") Sample.clerk); reflexivity.
Defined.

(* ------------------------------------------------------------------ *)
(** ** Branch isolation *)

Lemma checkBranchPermissions_foreign (role : string) (own : option Z)
  (b : Z) :
  role <> "superadmin" -> b <> 0 -> own <> Some b ->
  checkBranchPermissions role own (Some b) = false.
Proof.
  intros Hrole Hb Hown. unfold checkBranchPermissions.
  rewrite (string_eqb_false _ _ Hrole). cbn [JS.truthy_int].
  destruct (b =? 0) eqn:E; [apply Z.eqb_eq in E; contradiction |].
  cbn [negb]. destruct (_ || _); [| reflexivity].
  destruct own as [x |]; cbn; [| reflexivity].
  apply Z.eqb_neq. congruence.
Qed.

Lemma checkBranchPermissions_own (role : string) (own target : option Z) :
  checkBranchPermissions role own target = true ->
  role <> "superadmin" ->
  target = None \/ target = Some 0 \/ target = own.
Proof.
  unfold checkBranchPermissions. intros H Hrole.
  rewrite (string_eqb_false _ _ Hrole) in H.
  destruct target as [b |]; [| now left]. cbn [JS.truthy_int] in H.
  destruct (b =? 0) eqn:E.
  - apply Z.eqb_eq in E. subst b. right. now left.
  - cbn [negb] in H. destruct (_ || _); [| discriminate H].
    destruct own as [x |]; cbn in H; [| discriminate H].
    apply Z.eqb_eq in H. subst x. right. now right.
Qed.

(** X5: a reservation of another branch is out of reach.  For a caller
    that is not a superadmin and a reservation whose branch is set and is
    not the caller's, reading it (GET), updating it (PATCH) and cancelling
    it (DELETE) are all answered 403 and change nothing. *)
Theorem other_branches_are_out_of_reach
  (h : string -> Request.t -> Store -> Response * Store)
  (userId : string) (req : Request.t) (s : Store) (user : User.t)
  (existing : ReservationDetail.t) (b : Z) :
  h = getReservationHandler \/ h = updateReservationHandler
  \/ h = cancelReservationHandler ->
  Storage.getUser userId s = Some user ->
  User.role user <> "superadmin" ->
  Storage.getReservation (Request.param_id req) s = Some existing ->
  Reservation.branchId (ReservationDetail.row existing) = Some b ->
  b <> 0 ->
  User.branchId user <> Some b ->
  code (fst (h userId req s)) = 403 /\ snd (h userId req s) = s.
Proof.
  intros Hh Hu Hrole Hget Hb Hb0 Hown.
  pose proof (checkBranchPermissions_foreign _ _ _ Hrole Hb0 Hown) as Hchk.
  rewrite <- Hb in Hchk.
  destruct Hh as [-> | [-> | ->]].
  - unfold getReservationHandler, try_catch.
    rewrite bind_query, Hu, bind_query, Hget, Hchk. split; reflexivity.
  - unfold updateReservationHandler, try_catch.
    rewrite bind_query, Hu, bind_query.
    destruct (checkUserPermission userId "reservations" Write s);
      [| split; reflexivity].
    cbn [negb]. rewrite bind_guard_false, bind_query, Hget, Hchk.
    split; reflexivity.
  - unfold cancelReservationHandler, try_catch.
    rewrite bind_query, Hu, bind_query.
    destruct (checkUserPermission userId "reservations" Delete s);
      [| split; reflexivity].
    cbn [negb]. rewrite bind_guard_false, bind_query, Hget, Hchk.
    split; reflexivity.
Qed.

Lemma other_branches_are_out_of_reach_witness :
  let s := Sample.booked_with [] 1 "confirmed" in
  let visitor := {| User.id := "u-visitor"; User.role := "branch-admin";
                    User.branchId := Some 2 |} in
  let s2 := {| users := visitor :: users s; branches := branches s;
               rooms := rooms s; guests := guests s;
               reservations := reservations s;
               reservationRooms := reservationRooms s; taxes := taxes s;
               rolePermissions := rolePermissions s;
               nextGuestId := nextGuestId s;
               nextReservationId := nextReservationId s;
               nextReservationRoomId := nextReservationRoomId s;
               trace := trace s |} in
  let req := Sample.request "u-visitor" "r1" (Sample.status_body "cancelled") in
  code (fst (updateReservationHandler "u-visitor" req s2)) = 403
  /\ snd (updateReservationHandler "u-visitor" req s2) = s2.
Proof.
  intros s visitor s2 req.
  apply (other_branches_are_out_of_reach updateReservationHandler "u-visitor"
           req s2 visitor
           {| ReservationDetail.row := Sample.reservation "r1" "confirmed" 1;
              ReservationDetail.guest := None;
              ReservationDetail.reservationRooms :=
                [Sample.reservationRoom 1 "r1" 101;
                 Sample.reservationRoom 2 "r1" 102;
                 Sample.reservationRoom 3 "r1" 103] |} 1).
  - right. now left.
  - reflexivity.
  - discriminate.
  - reflexivity.
  - reflexivity.
  - lia.
  - discriminate.
Defined.

Lemma createReservation_branch (r : InsertReservation.t)
  (l : list RoomData.t) (s s2 : Store) (row : Reservation.t) :
  Storage.createReservation r l s = Some (row, s2) ->
  Reservation.branchId row = InsertReservation.branchId r
  /\ Reservation.createdById row = InsertReservation.createdById r
  /\ Reservation.id row = Storage.reservation_id (nextReservationId s).
Proof.
  unfold Storage.createReservation. intros H.
  destruct (money_column (InsertReservation.totalAmount r));
    [| discriminate H].
  destruct (money_column (InsertReservation.taxAmount r));
    [| discriminate H].
  destruct (money_column (InsertReservation.paidAmount r));
    [| discriminate H].
  injection H as <- _. repeat split.
Qed.

(** X6: a reservation is created in the caller's own branch.  When a
    creation by a caller that is not a superadmin is answered 201, by
    either handler, the stored row's branch is the caller's branch, or is
    absent or 0; with the tax-computing handler and a custom role it is
    the caller's branch, whatever the payload says.  The row records the
    caller as its creator. *)
Theorem created_reservation_stays_in_the_callers_branch
  (userId : string) (req : Request.t) (s s' : Store) (user : User.t)
  (row : Reservation.t) :
  Storage.getUser userId s = Some user ->
  User.role user <> "superadmin" ->
  (createReservationHandler userId req s
   = ({| code := 201; payload := ReservationRow (Some row) |}, s') ->
   (Reservation.branchId row = None \/ Reservation.branchId row = Some 0
    \/ Reservation.branchId row = User.branchId user)
   /\ Reservation.createdById row = User.id user)
  /\ (createReservationWithTaxesHandler userId req s
      = ({| code := 201; payload := ReservationRow (Some row) |}, s') ->
      (Reservation.branchId row = None \/ Reservation.branchId row = Some 0
       \/ Reservation.branchId row = User.branchId user)
      /\ (User.role user = "custom" ->
          Reservation.branchId row = User.branchId user
          /\ JS.truthy_int (Reservation.branchId row) = true)
      /\ Reservation.createdById row = User.id user).
Proof.
  intros Hu Hrole. split; intros H.
  - unfold createReservationHandler, try_catch in H.
    rewrite bind_query, Hu in H.
    run_handler H; try discriminate H;
      match goal with
      | Hc : Storage.createReservation _ _ _ = Some _ |- _ =>
          apply createReservation_branch in Hc;
          destruct Hc as (Hb & Hc & _); cbn in Hb, Hc; rewrite Hb, Hc
      end;
      match goal with
      | Hn : negb (checkBranchPermissions _ _ _) = false |- _ =>
          apply negb_false_iff in Hn;
          apply checkBranchPermissions_own in Hn; [| assumption]
      end;
      (split; [assumption | reflexivity]).
  - unfold createReservationWithTaxesHandler, branchOfReservation,
      try_catch in H.
    rewrite bind_query, Hu in H.
    run_handler H; try discriminate H;
      match goal with
      | Hc : Storage.createReservation _ _ _ = Some _ |- _ =>
          apply createReservation_branch in Hc;
          destruct Hc as (Hb & Hc & _); cbn in Hb, Hc; rewrite Hb, Hc
      end.
    all: match goal with
         | Hr : String.eqb (User.role _) "custom" = true |- _ =>
             apply String.eqb_eq in Hr
         | Hr : String.eqb (User.role _) "custom" = false |- _ =>
             apply String.eqb_neq in Hr
         end.
    all: try match goal with
         | Hn : negb (checkBranchPermissions _ _ _) = false |- _ =>
             apply negb_false_iff in Hn;
             apply checkBranchPermissions_own in Hn; [| assumption]
         end.
    all: try match goal with
         | Hn : negb (JS.truthy_int _) = false |- _ =>
             apply negb_false_iff in Hn
         end.
    all: split; [| split; [| reflexivity]];
      first [ assumption
            | now (right; right)
            | intros Hcustom; first [contradiction | now split] ].
Qed.

Lemma created_reservation_stays_in_the_callers_branch_witness :
  exists row s',
    createReservationHandler "u-manager"
      (Sample.request "u-manager" "" Sample.create_body) Sample.store
    = ({| code := 201; payload := ReservationRow (Some row) |}, s')
    /\ Reservation.branchId row = Some 1
    /\ Reservation.createdById row = "u-manager".
Proof.
  eexists. eexists. split; [vm_compute; reflexivity |].
  split; [reflexivity |].
  refine (proj2 (proj1 (created_reservation_stays_in_the_callers_branch
                          "u-manager"
                          (Sample.request "u-manager" "" Sample.create_body)
                          Sample.store _ Sample.manager _ eq_refl
                          ltac:(discriminate)) _)).
  vm_compute. reflexivity.
Defined.

(* ------------------------------------------------------------------ *)
(** ** Reading a reservation *)

(** X7: [getReservation] joins a reservation with its own rows only.  The
    row returned has the id asked for and is a row of the table; its
    reservation-rooms are exactly the rows that reference that id; its
    guest, when there is one, is a guest row with the reservation's guest
    id; and nothing is returned exactly when no row has the id. *)
Theorem getReservation_joins_its_own_rows (id : string) (s : Store) :
  (forall found,
     Storage.getReservation id s = Some found ->
     Reservation.id (ReservationDetail.row found) = id
     /\ In (ReservationDetail.row found) (reservations s)
     /\ (forall rr,
           In rr (ReservationDetail.reservationRooms found)
           <-> In rr (reservationRooms s)
               /\ ReservationRoom.reservationId rr = id)
     /\ (forall g,
           ReservationDetail.guest found = Some g ->
           In g (guests s)
           /\ Guest.id g = Reservation.guestId (ReservationDetail.row found))
     /\ (ReservationDetail.guest found = None ->
         forall g, In g (guests s) ->
                   Guest.id g
                   <> Reservation.guestId (ReservationDetail.row found)))
  /\ (Storage.getReservation id s = None
      <-> forall r, In r (reservations s) -> Reservation.id r <> id).
Proof.
  unfold Storage.getReservation. split.
  - intros found H.
    destruct (find _ (reservations s)) as [r |] eqn:Hfind; [| discriminate H].
    injection H as <-. cbn.
    apply find_some in Hfind. destruct Hfind as [Hin Heq].
    apply String.eqb_eq in Heq. subst id.
    split; [reflexivity | split; [exact Hin | split; [| split]]].
    + intros rr. rewrite filter_In, String.eqb_eq. reflexivity.
    + intros g Hg. apply find_some in Hg. destruct Hg as [Hg Heq].
      apply Z.eqb_eq in Heq. now split.
    + intros Hnone g Hg Heq.
      apply (find_none _ _ Hnone) in Hg. apply Z.eqb_neq in Hg.
      contradiction.
  - split.
    + intros H r Hr Heq.
      destruct (find _ (reservations s)) eqn:Hfind; [discriminate H |].
      apply (find_none _ _ Hfind) in Hr. apply String.eqb_neq in Hr.
      contradiction.
    + intros H.
      destruct (find _ (reservations s)) as [r |] eqn:Hfind; [| reflexivity].
      apply find_some in Hfind. destruct Hfind as [Hin Heq].
      apply String.eqb_eq in Heq. now apply H in Hin.
Qed.

(** X8: GET /api/reservations/:id never writes.  Whatever the request,
    the store is left as it was; the answer is 200 exactly when the caller
    has a user row, the reservation exists and the caller passes the
    branch check on the reservation's branch, and then it carries the
    joined reservation of that id; a missing reservation is answered 404
    to every caller that has a user row. *)
Theorem reading_a_reservation_never_writes
  (userId : string) (req : Request.t) (s : Store) :
  snd (getReservationHandler userId req s) = s
  /\ (code (fst (getReservationHandler userId req s)) = 200
      <-> exists user found,
            Storage.getUser userId s = Some user
            /\ Storage.getReservation (Request.param_id req) s = Some found
            /\ checkBranchPermissions (User.role user) (User.branchId user)
                 (Reservation.branchId (ReservationDetail.row found))
               = true)
  /\ (forall found,
        code (fst (getReservationHandler userId req s)) = 200 ->
        Storage.getReservation (Request.param_id req) s = Some found ->
        payload (fst (getReservationHandler userId req s))
        = ReservationJoined (Some found))
  /\ (forall user,
        Storage.getUser userId s = Some user ->
        Storage.getReservation (Request.param_id req) s = None ->
        fst (getReservationHandler userId req s)
        = {| code := 404; payload := Message "Reservation not found" |}).
Proof.
  unfold getReservationHandler, try_catch. rewrite bind_query.
  destruct (Storage.getUser userId s) as [user |].
  2:{ cbn. repeat split; try discriminate.
      intros (u & f & Hu & _). discriminate Hu. }
  rewrite bind_query.
  destruct (Storage.getReservation (Request.param_id req) s) as [found |].
  2:{ cbn. repeat split; try discriminate.
      intros (u & f & _ & Hf & _). discriminate Hf. }
  destruct (checkBranchPermissions (User.role user) (User.branchId user)
              (Reservation.branchId (ReservationDetail.row found))) eqn:Hchk;
    cbn.
  - split; [reflexivity | split; [split | split]].
    + intros _. exists user, found. now repeat split.
    + reflexivity.
    + intros f _ [= <-]. reflexivity.
    + discriminate.
  - split; [reflexivity | split; [split | split]].
    + discriminate.
    + intros (u & f & [= <-] & [= <-] & Habs). congruence.
    + discriminate.
    + discriminate.
Qed.

(* ------------------------------------------------------------------ *)
(** ** Deleting a guest *)

Lemma deleteGuestHandler_run (userId : string) (req : Request.t) (s : Store)
  (user : User.t) (id : Z) (g : Guest.t) :
  Storage.getUser userId s = Some user ->
  checkUserPermission userId "guests" Delete s = true ->
  JS.parseInt (Request.param_id req) = Some id ->
  Storage.getGuest id s = Some g ->
  deleteGuestHandler userId req s
  = ({| code := 204; payload := NoBody |},
     emit (EvBroadcast "guests" "deleted")
       (Storage.set_guest id deactivation s)).
Proof.
  intros Hu Hp Hid Hg. unfold deleteGuestHandler, try_catch.
  rewrite bind_query, Hu. cbn [guard]. rewrite bind_ret, bind_query, Hp.
  cbn [negb guard]. rewrite bind_ret, Hid, (lookup_found _ _ _ _ _ Hg).
  reflexivity.
Qed.

Lemma deleteGuestHandler_deleted (userId : string) (req : Request.t)
  (s s' : Store) (resp : Response) :
  deleteGuestHandler userId req s = (resp, s') ->
  code resp = 204 ->
  exists user id g,
    Storage.getUser userId s = Some user
    /\ checkUserPermission userId "guests" Delete s = true
    /\ JS.parseInt (Request.param_id req) = Some id
    /\ Storage.getGuest id s = Some g
    /\ s' = emit (EvBroadcast "guests" "deleted")
              (Storage.set_guest id deactivation s).
Proof.
  intros H Hcode. unfold deleteGuestHandler, lookup in H.
  run_handler H; try discriminate Hcode.
  match goal with
  | Hn : negb _ = false |- _ => apply negb_false_iff in Hn
  end.
  eauto 10.
Qed.

Lemma getGuest_after_update (id : Z) (d : GuestData.t) (s : Store)
  (g : Guest.t) :
  Storage.getGuest id s = Some g ->
  Storage.getGuest id (Storage.set_guest id d s)
  = Some (Storage.apply_guest_data d g).
Proof.
  unfold Storage.getGuest, Storage.set_guest. cbn.
  induction (guests s) as [| h l IH]; cbn; [discriminate |].
  destruct (Guest.id h =? id) eqn:E; cbn.
  - intros [= <-]. rewrite E. reflexivity.
  - rewrite E. exact IH.
Qed.

(** X9: deleting a guest is a deactivation.  After DELETE /api/guests/:id
    is answered 204, no guest row was removed or added; every row with
    the id is inactive and keeps its names, phone, email, reservation
    count and creation time; the other guest rows, the reservations, the
    reservation-rooms and the rooms are untouched; no guest search
    returns the guest any more; and the same request again is answered
    204 again. *)
Theorem guest_deletion_is_a_deactivation
  (userId : string) (req : Request.t) (s s' : Store) (resp : Response) :
  deleteGuestHandler userId req s = (resp, s') ->
  code resp = 204 ->
  exists id,
    JS.parseInt (Request.param_id req) = Some id
    /\ map Guest.id (guests s') = map Guest.id (guests s)
    /\ (forall g', In g' (guests s') -> Guest.id g' = id ->
          Guest.isActive g' = false
          /\ exists g, In g (guests s) /\ Guest.id g = id
                       /\ Guest.firstName g' = Guest.firstName g
                       /\ Guest.lastName g' = Guest.lastName g
                       /\ Guest.phone g' = Guest.phone g
                       /\ Guest.email g' = Guest.email g
                       /\ Guest.reservationCount g'
                          = Guest.reservationCount g
                       /\ Guest.createdAt g' = Guest.createdAt g)
    /\ (forall g, In g (guests s) -> Guest.id g <> id -> In g (guests s'))
    /\ reservations s' = reservations s
    /\ reservationRooms s' = reservationRooms s
    /\ rooms s' = rooms s
    /\ (forall query branchId g,
          In g (Storage.searchGuests query branchId s') -> Guest.id g <> id)
    /\ code (fst (deleteGuestHandler userId req s')) = 204.
Proof.
  intros H Hcode.
  destruct (deleteGuestHandler_deleted _ _ _ _ _ H Hcode)
    as (user & id & g & Hu & Hp & Hid & Hg & ->).
  exists id. split; [exact Hid |].
  assert (Hrows :
            guests (emit (EvBroadcast "guests" "deleted")
                      (Storage.set_guest id deactivation s))
            = map (fun g => if Guest.id g =? id
                            then Storage.apply_guest_data deactivation g
                            else g) (guests s)) by reflexivity.
  rewrite Hrows.
  split; [| split; [| split; [| split; [| split; [| split; [| split]]]]]].
  - rewrite map_map. apply map_ext. intros a.
    destruct (Guest.id a =? id); reflexivity.
  - intros g' Hin Hg'. apply in_map_iff in Hin.
    destruct Hin as (g0 & <- & Hin0).
    destruct (Guest.id g0 =? id) eqn:E.
    + split; [reflexivity |]. exists g0. apply Z.eqb_eq in E.
      cbn. now repeat split.
    + apply Z.eqb_neq in E. contradiction.
  - intros g0 Hin Hne. apply in_map_iff. exists g0.
    apply Z.eqb_neq in Hne. rewrite Hne. now split.
  - reflexivity.
  - reflexivity.
  - reflexivity.
  - intros query branchId g0 Hin Heq.
    pose proof (searchGuests_active _ _ _ _ Hin) as Hact.
    apply searchGuests_In in Hin. destruct Hin as [Hin _].
    rewrite Hrows in Hin. apply in_map_iff in Hin.
    destruct Hin as (g1 & <- & _).
    destruct (Guest.id g1 =? id) eqn:E.
    + cbn in Hact. discriminate Hact.
    + apply Z.eqb_neq in E. contradiction.
  - rewrite (deleteGuestHandler_run userId req _ user id
               (Storage.apply_guest_data deactivation g)).
    + reflexivity.
    + exact Hu.
    + exact Hp.
    + exact Hid.
    + change (Storage.getGuest id
                (emit (EvBroadcast "guests" "deleted")
                   (Storage.set_guest id deactivation s)))
        with (Storage.getGuest id (Storage.set_guest id deactivation s)).
      now apply getGuest_after_update.
Qed.

Lemma guest_deletion_is_a_deactivation_witness :
  let s := Sample.booked "confirmed" in
  let run := deleteGuestHandler "u-admin" (Sample.guest_request "1") s in
  exists id,
    JS.parseInt "1" = Some id
    /\ map Guest.id (guests (snd run)) = [1]
    /\ reservations (snd run) = reservations s.
Proof.
  intros s run.
  destruct (guest_deletion_is_a_deactivation "u-admin"
              (Sample.guest_request "1") s (snd run) (fst run)
              (surjective_pairing _) eq_refl)
    as (id & Hid & Hids & _ & _ & Hres & _).
  exists id. split; [exact Hid | split; [exact Hids | exact Hres]].
Defined.

(* ------------------------------------------------------------------ *)
(** ** What a cancellation leaves alone *)

Lemma getReservation_rooms_inv (id : string) (s : Store)
  (existing : ReservationDetail.t) (rr : ReservationRoom.t) :
  Storage.getReservation id s = Some existing ->
  In rr (ReservationDetail.reservationRooms existing) ->
  In rr (reservationRooms s) /\ ReservationRoom.reservationId rr = id.
Proof.
  unfold Storage.getReservation. intros H Hin.
  destruct (find _ (reservations s)) as [r |] eqn:Hfind; [| discriminate H].
  injection H as <-. cbn in Hin. apply filter_In in Hin.
  destruct Hin as [Hin Heq]. apply String.eqb_eq in Heq.
  apply find_some in Hfind. destruct Hfind as [_ Hid].
  apply String.eqb_eq in Hid. split; [exact Hin | congruence].
Qed.

Lemma updateReservation_rows (id : string) (p : ReservationPatch.t)
  (s s1 : Store) (row : option Reservation.t) :
  Storage.updateReservation id p s = Some (row, s1) ->
  exists total tax paid,
    reservations s1
    = map (fun r => if String.eqb (Reservation.id r) id
                    then Storage.apply_reservation_patch p total tax paid r
                    else r) (reservations s)
    /\ guests s1 = guests s /\ rooms s1 = rooms s
    /\ reservationRooms s1 = reservationRooms s
    /\ users s1 = users s /\ rolePermissions s1 = rolePermissions s
    /\ taxes s1 = taxes s /\ branches s1 = branches s.
Proof.
  unfold Storage.updateReservation. intros H.
  destruct (patch_has_keys p); [| discriminate H].
  destruct (money_column (ReservationPatch.totalAmount p)) as [total |];
    [| discriminate H].
  destruct (money_column (ReservationPatch.taxAmount p)) as [tax |];
    [| discriminate H].
  destruct (money_column (ReservationPatch.paidAmount p)) as [paid |];
    [| discriminate H].
  injection H as _ <-. exists total, tax, paid. now repeat split.
Qed.

(** X10: a cancellation touches only its own rows.  After DELETE
    /api/reservations/:id is answered 204, the reservation-rooms are all
    still there (the cancelled reservation keeps its room assignments) and
    so are the guests; no reservation row was added or removed, the other
    reservations are untouched and the cancelled one keeps every column
    but its status; no room row was added or removed, and a room that no
    reservation-room of the reservation names is untouched. *)
Theorem cancellation_touches_only_its_own_rows
  (userId : string) (req : Request.t) (s s' : Store) (resp : Response) :
  cancelReservationHandler userId req s = (resp, s') ->
  code resp = 204 ->
  reservationRooms s' = reservationRooms s
  /\ guests s' = guests s
  /\ map Reservation.id (reservations s') = map Reservation.id (reservations s)
  /\ (forall r, In r (reservations s) ->
                Reservation.id r <> Request.param_id req ->
                In r (reservations s'))
  /\ (forall r', In r' (reservations s') ->
                 Reservation.id r' = Request.param_id req ->
                 exists r, In r (reservations s)
                           /\ Reservation.id r = Request.param_id req
                           /\ Reservation.guestId r' = Reservation.guestId r
                           /\ Reservation.branchId r' = Reservation.branchId r
                           /\ Reservation.totalAmount r'
                              = Reservation.totalAmount r
                           /\ Reservation.taxAmount r'
                              = Reservation.taxAmount r
                           /\ Reservation.paidAmount r'
                              = Reservation.paidAmount r
                           /\ Reservation.confirmationNumber r'
                              = Reservation.confirmationNumber r)
  /\ map Room.id (rooms s') = map Room.id (rooms s)
  /\ (forall room, In room (rooms s) ->
        (forall rr, In rr (reservationRooms s) ->
                    ReservationRoom.reservationId rr = Request.param_id req ->
                    ReservationRoom.roomId rr <> Room.id room) ->
        In room (rooms s')).
Proof.
  intros H Hcode.
  destruct (cancelReservationHandler_cancelled _ _ _ _ _ H Hcode)
    as (existing & row & s1 & Hget & Hupd & ->).
  rewrite updateReservation_only_status in Hupd.
  injection Hupd as _ <-.
  set (step := fun (s : Store) (rr : ReservationRoom.t) =>
                 emit (EvBroadcast "rooms" "updated")
                   (Storage.updateRoom (ReservationRoom.roomId rr)
                      "available" s)).
  rewrite (fold_left_preserves step reservationRooms) by reflexivity.
  rewrite (fold_left_preserves step guests) by reflexivity.
  rewrite (fold_left_preserves step reservations) by reflexivity.
  unfold step.
  rewrite (rooms_fold_updateRoom "available" ReservationRoom.roomId
             (emit (EvBroadcast "rooms" "updated"))) by reflexivity.
  cbn [reservationRooms guests reservations rooms emit with_reservations].
  split; [reflexivity | split; [reflexivity | split; [| split; [| split;
    [| split]]]]].
  - rewrite map_map. apply map_ext. intros r.
    destruct (String.eqb (Reservation.id r) (Request.param_id req));
      reflexivity.
  - intros r Hin Hne. apply in_map_iff. exists r.
    apply String.eqb_neq in Hne. rewrite Hne. now split.
  - intros r' Hin Heq. apply in_map_iff in Hin.
    destruct Hin as (r & <- & Hin).
    destruct (String.eqb (Reservation.id r) (Request.param_id req)) eqn:E.
    + apply String.eqb_eq in E. exists r. cbn. now repeat split.
    + apply String.eqb_neq in E. contradiction.
  - rewrite map_map. apply map_ext. intros r.
    destruct (existsb _ _); reflexivity.
  - intros room Hin Hfree. apply in_map_iff. exists room.
    split; [| exact Hin].
    destruct (existsb (Z.eqb (Room.id room))
                (map ReservationRoom.roomId
                   (ReservationDetail.reservationRooms existing))) eqn:E;
      [| reflexivity].
    apply existsb_exists in E. destruct E as (i & Hi & Heq).
    apply in_map_iff in Hi. destruct Hi as (rr & <- & Hrr).
    apply (getReservation_rooms_inv _ _ _ _ Hget) in Hrr.
    destruct Hrr as [Hrr Hid]. apply Z.eqb_eq in Heq.
    exfalso. apply (Hfree rr Hrr Hid). congruence.
Qed.

Lemma cancellation_touches_only_its_own_rows_witness :
  let s := Sample.booked "confirmed" in
  let s' := snd (cancelReservationHandler "u-admin" cancel_request s) in
  reservationRooms s' = reservationRooms s
  /\ In (Sample.room 104 "104" "available") (rooms s').
Proof.
  intros s s'.
  destruct (cancellation_touches_only_its_own_rows "u-admin" cancel_request
              s s' (fst (cancelReservationHandler "u-admin" cancel_request s))
              (surjective_pairing _) eq_refl)
    as (Hlinks & _ & _ & _ & _ & _ & Hrooms).
  split; [exact Hlinks |]. apply Hrooms.
  - cbn. tauto.
  - intros rr Hin _ Heq. cbn in Hin.
    destruct Hin as [<- | [<- | [<- | []]]]; discriminate Heq.
Defined.

(* ------------------------------------------------------------------ *)
(** ** What an update without a rooms member leaves alone *)

Lemma touches_only_refl (gid : Z) (rid : string) (s : Store) :
  touches_only gid rid s s.
Proof. unfold touches_only. now repeat split. Qed.

Lemma touches_only_trans (gid : Z) (rid : string) (s1 s2 s3 : Store) :
  touches_only gid rid s1 s2 -> touches_only gid rid s2 s3 ->
  touches_only gid rid s1 s3.
Proof.
  unfold touches_only.
  intros (A1 & A2 & A3 & A4 & A5 & A6 & A7 & A8)
         (B1 & B2 & B3 & B4 & B5 & B6 & B7 & B8).
  repeat split; try congruence.
  - intros g Hin Hne. apply B2; [now apply A2 | exact Hne].
  - intros r Hin Hne. apply B4; [now apply A4 | exact Hne].
Qed.

Lemma touches_only_emit (gid : Z) (rid : string) (e : Event) (s : Store) :
  touches_only gid rid s (emit e s).
Proof. unfold touches_only. now repeat split. Qed.

Lemma touches_only_updateRoom (gid : Z) (rid : string) (id : Z)
  (status : string) (s : Store) :
  touches_only gid rid s (Storage.updateRoom id status s).
Proof. unfold touches_only. now repeat split. Qed.

Lemma touches_only_updateGuest (gid : Z) (rid : string) (d : GuestData.t)
  (s : Store) :
  touches_only gid rid s (Storage.set_guest gid d s).
Proof.
  unfold touches_only. cbn. repeat split.
  - rewrite map_map. apply map_ext. intros g.
    destruct (Guest.id g =? gid); reflexivity.
  - intros g Hin Hne. apply in_map_iff. exists g.
    apply Z.eqb_neq in Hne. rewrite Hne. now split.
  - auto.
Qed.

Lemma touches_only_updateReservation (gid : Z) (rid : string)
  (p : ReservationPatch.t) (s s1 : Store) (row : option Reservation.t) :
  Storage.updateReservation rid p s = Some (row, s1) ->
  touches_only gid rid s s1.
Proof.
  intros H. apply updateReservation_rows in H.
  destruct H as (total & tax & paid & Hr & Hg & _ & Hrr & Hu & _ & Ht & Hb).
  unfold touches_only. rewrite Hr, Hg, Hrr, Hu, Ht, Hb.
  repeat split; try reflexivity.
  - auto.
  - rewrite map_map. apply map_ext. intros r.
    destruct (String.eqb (Reservation.id r) rid); reflexivity.
  - intros r Hin Hne. apply in_map_iff. exists r.
    apply String.eqb_neq in Hne. rewrite Hne. now split.
Qed.

Lemma touches_only_cascade (gid : Z) (rid status : string)
  (l : list ReservationRoom.t) (s : Store) :
  touches_only gid rid s
    (fold_left (fun s rr => emit (EvBroadcast "rooms" "updated")
                              (Storage.updateRoom (ReservationRoom.roomId rr)
                                 status s)) l s).
Proof.
  revert s. induction l as [| rr l IH]; intros s; cbn [fold_left].
  - apply touches_only_refl.
  - eapply touches_only_trans; [| apply IH].
    eapply touches_only_trans;
      [apply touches_only_updateRoom | apply touches_only_emit].
Qed.

(** Chains the frame lemmas along the writes of a path. *)
Ltac frame_steps :=
  repeat first
    [ apply touches_only_refl
    | match goal with
      | |- touches_only _ _ _ (emit _ _) =>
          eapply touches_only_trans; [| apply touches_only_emit]
      | |- touches_only _ _ _ (Storage.set_guest _ _ _) =>
          eapply touches_only_trans; [| apply touches_only_updateGuest]
      | |- touches_only _ _ _ (fold_left _ _ _) =>
          eapply touches_only_trans; [| apply touches_only_cascade]
      | H : Storage.updateReservation _ _ _ = Some (_, ?b)
        |- touches_only _ _ _ ?b =>
          eapply touches_only_trans;
          [| apply (touches_only_updateReservation _ _ _ _ _ _ H)]
      end ].

(** X11: an update without a rooms member.  When PATCH
    /api/reservations/:id is answered 200 for a body without a [rooms]
    member, no guest and no reservation was added or removed, every guest
    but the reservation's own and every reservation but the one addressed
    is untouched, and the reservation-rooms are as they were; when the
    body has a [guest] or a [reservation] member the rooms are untouched
    as well (only the status-only form cascades to the rooms). *)
Theorem update_without_rooms_member
  (userId : string) (req : Request.t) (s s' : Store) (resp : Response) :
  updateReservationHandler userId req s = (resp, s') ->
  code resp = 200 ->
  Body.rooms (Request.body req) = None ->
  exists existing,
    Storage.getReservation (Request.param_id req) s = Some existing
    /\ touches_only (Reservation.guestId (ReservationDetail.row existing))
         (Request.param_id req) s s'
    /\ (is_some (Body.guest (Request.body req))
        || is_some (Body.reservation (Request.body req)) = true ->
        rooms s' = rooms s).
Proof.
  intros H Hcode Hrooms.
  unfold updateReservationHandler, updateGuestIfProvided,
    updateReservationIfProvided, updateGuestCall, updateReservationCall in H.
  rewrite Hrooms in H.
  run_handler H; try discriminate Hcode.
  all: guest_writes.
  all: eexists; split; [reflexivity |].
  all: split; [frame_steps |].
  all: intros Hany; try discriminate Hany.
  all: try match goal with
           | Hno : _ || _ || is_some None = false |- _ =>
               rewrite orb_false_r in Hno; congruence
           end.
  all: repeat match goal with
              | Hu : Storage.updateReservation _ _ _ = Some _ |- _ =>
                  apply updateReservation_rows in Hu;
                  destruct Hu as (? & ? & ? & _ & _ & Hu & _)
              end.
  all: cbn [rooms emit];
    repeat match goal with
           | Hr : rooms _ = _ |- _ => rewrite Hr; clear Hr
           end;
    reflexivity.
Qed.

Lemma update_without_rooms_member_witness :
  let s := Sample.two_guests in
  let s' := snd (updateReservationHandler "u-admin"
                   (Sample.phone_request "555-0100") s) in
  rooms s' = rooms s /\ reservationRooms s' = reservationRooms s
  /\ In (Sample.guest 1 "Ann" "555-0100" true 1000) (guests s').
Proof.
  intros s s'.
  destruct (update_without_rooms_member "u-admin"
              (Sample.phone_request "555-0100") s s'
              (fst (updateReservationHandler "u-admin"
                      (Sample.phone_request "555-0100") s))
              (surjective_pairing _) eq_refl eq_refl)
    as (existing & Hget & Htouch & Hrooms).
  injection Hget as <-.
  destruct Htouch as (_ & Hguests & _ & _ & Hlinks & _).
  split; [apply Hrooms; reflexivity | split; [exact Hlinks |]].
  apply Hguests; [cbn; tauto | discriminate].
Defined.

(* ------------------------------------------------------------------ *)
(** ** What an update with a rooms member can do *)

(** PATCH /api/reservations/:id with a [rooms] array is answered 200 only
    when the reservation has no reservation-room and no payload entry
    carries an id: dropping a row calls [deleteReservationRoom] and naming
    one calls [updateReservationRoom], and the storage defines neither.
    What is left is the insertion of every entry, each with its room set
    to [reserved]. *)
Lemma rooms_fold_insert_step (reservationId : string)
  (l : list RoomData.t) (s : Store) :
  rooms (fold_left (insert_step reservationId) l s)
  = rooms (fold_left (fun s d => Storage.updateRoom (RoomData.roomId d)
                                   "reserved" s) l s).
Proof.
  assert (H : forall s1 s2, rooms s1 = rooms s2 ->
                rooms (fold_left (insert_step reservationId) l s1)
                = rooms (fold_left
                           (fun s d => Storage.updateRoom (RoomData.roomId d)
                                         "reserved" s) l s2)).
  { induction l as [| d l IH]; intros s1 s2 Heq; cbn [fold_left];
      [exact Heq |].
    apply IH. unfold insert_step, Storage.updateRoom,
      Storage.createReservationRoom. cbn. now rewrite Heq. }
  now apply H.
Qed.

Lemma rooms_update_answered_200
  (userId : string) (req : Request.t) (s s' : Store) (resp : Response)
  (payload : list RoomData.t) :
  updateReservationHandler userId req s = (resp, s') ->
  code resp = 200 ->
  Body.rooms (Request.body req) = Some payload ->
  exists existing,
    Storage.getReservation (Request.param_id req) s = Some existing
    /\ ReservationDetail.reservationRooms existing = []
    /\ incomingRoomIds payload = []
    /\ forall d, In d payload ->
                 room_has_status s' (RoomData.roomId d) "reserved".
Proof.
  intros H Hcode Hrooms.
  unfold updateReservationHandler, updateGuestIfProvided,
    updateReservationIfProvided, updateGuestCall, updateReservationCall in H.
  rewrite Hrooms in H.
  run_handler H; try discriminate Hcode.
  all: try match goal with
           | Hno : _ || _ || is_some (Some _) = false |- _ =>
               cbn [is_some] in Hno; rewrite !orb_true_r in Hno;
               discriminate Hno
           end.
  all: match goal with
       | Hr : roomsToRemove _ _ = [], Hn : forallb _ _ = true |- _ =>
           destruct (nothing_to_reconcile _ _ Hr Hn) as (Hnone & Hids & Hall)
       end.
  all: eexists; split; [reflexivity |];
    split; [exact Hnone | split; [exact Hids |]].
  all: rewrite Hall; intros d Hd room Hin Hid; cbn [rooms emit] in Hin;
    rewrite rooms_fold_insert_step in Hin;
    exact (room_has_status_after_fold "reserved" RoomData.roomId
             (fun s => s) (fun _ => eq_refl) payload _ d Hd room Hin Hid).
Qed.

(* ------------------------------------------------------------------ *)
(** ** Reservations that are checked out or cancelled *)

(** X12: a finished reservation cannot be edited.  Whoever sends it and
    whatever its body, PATCH /api/reservations/:id on a reservation whose
    status is [checked-out] or [cancelled] is refused (401 or 403) and
    writes nothing; a caller with the write permission and access to the
    branch is told why. *)
Theorem finished_reservation_cannot_be_edited
  (id : string) (req : Request.t) (s : Store)
  (existing : ReservationDetail.t) :
  Storage.getReservation id s = Some existing ->
  is_terminal (Reservation.status (ReservationDetail.row existing)) = true ->
  let run := app PATCH ["api"; "reservations"; id] req s in
  snd run = s
  /\ (code (fst run) = 401 \/ code (fst run) = 403)
  /\ (forall userId user,
        Request.sessionUser req = Some userId ->
        Storage.getUser userId s = Some user ->
        checkUserPermission userId "reservations" Write s = true ->
        checkBranchPermissions (User.role user) (User.branchId user)
          (Reservation.branchId (ReservationDetail.row existing)) = true ->
        fst run
        = {| code := 403;
             payload := Message "Cannot edit reservation after checkout or cancellation" |}).
Proof.
  intros Hget Hterm run.
  assert (Hrun : run = isAuthenticated updateReservationHandler
                         (with_param id req) s) by reflexivity.
  rewrite Hrun. clear Hrun run. unfold isAuthenticated.
  change (Request.sessionUser (with_param id req))
    with (Request.sessionUser req).
  destruct (Request.sessionUser req) as [userId |].
  2:{ split; [reflexivity | split; [now left | discriminate]]. }
  destruct (updateReservationHandler userId (with_param id req) s)
    as [resp s'] eqn:H.
  destruct (update_refused_after_checkout userId (with_param id req) s s'
              resp existing Hget Hterm H) as (-> & Hcode & Hwhy).
  split; [reflexivity | split; [exact Hcode |]].
  intros u user [= <-] Hu Hp Hb. exact (Hwhy user Hu Hp Hb).
Qed.

Lemma finished_reservation_cannot_be_edited_witness :
  let s := Sample.booked "checked-out" in
  let run := app PATCH ["api"; "reservations"; "r1"]
               (Sample.request "u-manager" "" (Sample.status_body "confirmed"))
               s in
  snd run = s /\ (code (fst run) = 401 \/ code (fst run) = 403).
Proof.
  intros s run.
  destruct (finished_reservation_cannot_be_edited "r1"
              (Sample.request "u-manager" "" (Sample.status_body "confirmed"))
              s _ eq_refl eq_refl) as (Hs & Hc & _).
  split; [exact Hs | exact Hc].
Defined.

(* ------------------------------------------------------------------ *)
(** ** A creation that fails half-way *)

Lemma createReservation_some (r : InsertReservation.t) (s : Store) :
  money_column (InsertReservation.totalAmount r) <> None ->
  money_column (InsertReservation.taxAmount r) <> None ->
  money_column (InsertReservation.paidAmount r) <> None ->
  exists row s2,
    Storage.createReservation r [] s = Some (row, s2)
    /\ reservations s2 = reservations s ++ [row]
    /\ guests s2 = guests s
    /\ trace s2 = trace s ++ [EvCreateReservation (Reservation.id row)].
Proof.
  intros H1 H2 H3. unfold Storage.createReservation.
  destruct (money_column (InsertReservation.totalAmount r));
    [| contradiction].
  destruct (money_column (InsertReservation.taxAmount r)); [| contradiction].
  destruct (money_column (InsertReservation.paidAmount r));
    [| contradiction].
  eexists. eexists. split; [reflexivity |]. now repeat split.
Qed.

(** X13: a creation that fails half-way is not undone.  When the body of
    POST /api/reservations has a guest and a reservation part but no
    [rooms] member, the request is answered 500, and yet the reservation
    row has been inserted and announced, and a guest row has been added
    when the guest lookup found no one: the handler stores the
    reservation before it walks the rooms. *)
Theorem creation_without_rooms_member_is_not_undone
  (userId : string) (req : Request.t) (s : Store) (user : User.t)
  (d : ReservationData.t) (g : GuestData.t) :
  Request.sessionUser req = Some userId ->
  Storage.getUser userId s = Some user ->
  Body.reservation (Request.body req) = Some d ->
  Body.guest (Request.body req) = Some g ->
  Body.rooms (Request.body req) = None ->
  checkBranchPermissions (User.role user) (User.branchId user)
    (ReservationData.branchId d) = true ->
  money_column (option_map money_text (ReservationData.totalAmount d))
  <> None ->
  money_column (option_map money_text (ReservationData.taxAmount d))
  <> None ->
  money_column (option_map money_text (ReservationData.paidAmount d))
  <> None ->
  let run := app POST ["api"; "reservations"] req s in
  fst run
  = {| code := 500; payload := Message "Failed to create reservation" |}
  /\ List.length (reservations (snd run))
     = S (List.length (reservations s))
  /\ List.length (guests (snd run))
     = match existingGuests g s with
       | [] => S (List.length (guests s))
       | _ :: _ => List.length (guests s)
       end
  /\ In (EvBroadcast "reservations" "created") (trace (snd run)).
Proof.
  intros Hsession Hu Hd Hg Hrooms Hchk Htotal Htax Hpaid run.
  unfold run. rewrite post_reservations_runs_first_handler.
  unfold isAuthenticated.
  change (Request.sessionUser (with_param (Request.param_id req) req))
    with (Request.sessionUser req).
  rewrite Hsession.
  destruct (createReservationHandler userId
              (with_param (Request.param_id req) req) s)
    as [resp s'] eqn:H.
  unfold createReservationHandler, try_catch in H.
  change (Request.body (with_param (Request.param_id req) req))
    with (Request.body req) in H.
  change (Request.now (with_param (Request.param_id req) req))
    with (Request.now req) in H.
  rewrite bind_query, Hu, Hd, Hg, Hrooms in H. cbn [defined] in H.
  rewrite bind_ret, Hchk in H. cbn [negb] in H.
  rewrite bind_guard_false, bind_ret in H.
  unfold bind at 1 in H. rewrite resolveGuest_run in H.
  assert (Hres : exists guest s1,
             match existingGuests g s with
             | guest :: _ => (Next guest, s)
             | [] => (Next (fst (Storage.createGuest g
                                   (ReservationData.branchId d)
                                   (Request.now req) s)),
                      snd (Storage.createGuest g (ReservationData.branchId d)
                             (Request.now req) s))
             end = (Next guest, s1)
             /\ List.length (guests s1)
                = match existingGuests g s with
                  | [] => S (List.length (guests s))
                  | _ :: _ => List.length (guests s)
                  end
             /\ reservations s1 = reservations s).
  { destruct (existingGuests g s) as [| guest rest].
    - eexists. eexists. split; [reflexivity |]. cbn.
      rewrite length_app. cbn. split; [lia | reflexivity].
    - eexists. eexists. split; [reflexivity |]. split; reflexivity. }
  destruct Hres as (guest & s1 & Hres & Hlen & Hsame).
  rewrite Hres in H. unfold bind at 1, attempt in H.
  destruct (createReservation_some
              (reservationWithConfirmation d guest user (Request.now req))
              s1 Htotal Htax Hpaid)
    as (row & s2 & Hcreate & Hrows & Hguests & Htrace).
  rewrite Hcreate in H. unfold broadcastChange in H.
  rewrite bind_update in H. cbn in H. injection H as <- <-.
  cbn [fst snd reservations guests trace emit].
  rewrite Hrows, Hguests, Hlen, Hsame, length_app. cbn [List.length].
  split; [reflexivity | split; [lia | split; [reflexivity |]]].
  apply in_or_app. right. now left.
Qed.

Lemma creation_without_rooms_member_is_not_undone_witness :
  let req := Sample.request "u-admin" ""
               {| Body.guest := Some (Sample.guestData "Ann" "555-0100");
                  Body.reservation := Some Sample.reservationData;
                  Body.rooms := None;
                  Body.flat := ReservationData.empty |} in
  let run := app POST ["api"; "reservations"] req Sample.store in
  code (fst run) = 500
  /\ List.length (reservations (snd run)) = 1%nat
  /\ List.length (guests (snd run)) = 1%nat.
Proof.
  intros req run.
  destruct (creation_without_rooms_member_is_not_undone "u-admin" req
              Sample.store Sample.admin Sample.reservationData
              (Sample.guestData "Ann" "555-0100")
              eq_refl eq_refl eq_refl eq_refl eq_refl eq_refl
              ltac:(vm_compute; discriminate) ltac:(vm_compute; discriminate)
              ltac:(vm_compute; discriminate))
    as (Hresp & Hrows & Hguests & _).
  fold run in Hresp, Hrows, Hguests.
  split; [now rewrite Hresp | split; [exact Hrows | exact Hguests]].
Defined.

(* ------------------------------------------------------------------ *)
(** ** Insert, then look up *)


Lemma find_app_other {A} (f : A -> bool) (l : list A) (x : A) :
  f x = false -> find f (l ++ [x]) = find f l.
Proof.
  intros Hx. induction l as [| y l IH]; cbn.
  - now rewrite Hx.
  - destruct (f y); [reflexivity | exact IH].
Qed.


Lemma filter_all {A} (f : A -> bool) (l : list A) :
  (forall y, In y l -> f y = true) -> filter f l = l.
Proof.
  intros Hl. induction l as [| y l IH]; cbn; [reflexivity |].
  rewrite (Hl y) by now left. f_equal. apply IH. intros z Hz. apply Hl.
  now right.
Qed.




Lemma set_guest_other (id other : Z) (d : GuestData.t) (s : Store) :
  other <> id ->
  Storage.getGuest other (Storage.set_guest id d s) = Storage.getGuest other s.
Proof.
  intros Hne. unfold Storage.getGuest, Storage.set_guest. cbn.
  induction (guests s) as [| h l IH]; cbn; [reflexivity |].
  destruct (Guest.id h =? id) eqn:E; cbn.
  - apply Z.eqb_eq in E.
    assert (Hoth : (Guest.id h =? other) = false)
      by (apply Z.eqb_neq; congruence).
    rewrite Hoth. exact IH.
  - destruct (Guest.id h =? other); [reflexivity | exact IH].
Qed.

Lemma set_guest_missing (id : Z) (d : GuestData.t) (s : Store) :
  Storage.getGuest id s = None ->
  guests (Storage.set_guest id d s) = guests s.
Proof.
  unfold Storage.getGuest, Storage.set_guest. cbn. intros Hnone.
  induction (guests s) as [| h l IH]; cbn in *; [reflexivity |].
  destruct (Guest.id h =? id); [discriminate Hnone |].
  f_equal. now apply IH.
Qed.

Lemma apply_guest_data_twice (d : GuestData.t) (g : Guest.t) :
  Storage.apply_guest_data d (Storage.apply_guest_data d g)
  = Storage.apply_guest_data d g.
Proof.
  unfold Storage.apply_guest_data, patched. cbn.
  destruct (GuestData.firstName d), (GuestData.lastName d),
    (GuestData.phone d), (GuestData.email d), (GuestData.branchId d),
    (GuestData.reservationCount d), (GuestData.isActive d); reflexivity.
Qed.

Lemma set_guest_twice (id : Z) (d : GuestData.t) (s : Store) :
  guests (Storage.set_guest id d (Storage.set_guest id d s))
  = guests (Storage.set_guest id d s).
Proof.
  unfold Storage.set_guest. cbn. rewrite map_map. apply map_ext. intros g.
  destruct (Guest.id g =? id) eqn:E; cbn [Storage.apply_guest_data Guest.id];
    rewrite E; [apply apply_guest_data_twice | reflexivity].
Qed.

(** X15: [updateGuest] rewrites the guest of one id, or throws.  The call
    throws exactly on a patch that names no column, and then writes
    nothing.  Otherwise it returns the row found under the id afterwards,
    which is none exactly when there was none, and then the table is
    unchanged (a missing id is not an error); no guest row is added or
    removed and no id or creation time changes; the rows of the other ids,
    the reservations, the reservation-rooms and the rooms are untouched;
    the same patch again leaves the table and the answer as they are; and
    a guest whose phone the patch sets, if it is active afterwards,
    matches the guest search for that phone (free of backslashes), the
    lookup of the reservation creation. *)
Theorem updateGuest_rewrites_one_guest
  (id : Z) (d : GuestData.t) (s : Store) :
  (Storage.updateGuest id d s = None <-> guest_has_keys d = false)
  /\ (forall row s1,
        Storage.updateGuest id d s = Some (row, s1) ->
        row = Storage.getGuest id s1
        /\ (row = None <-> Storage.getGuest id s = None)
        /\ (Storage.getGuest id s = None -> guests s1 = guests s)
        /\ map Guest.id (guests s1) = map Guest.id (guests s)
        /\ map Guest.createdAt (guests s1) = map Guest.createdAt (guests s)
        /\ (forall other, other <> id ->
              Storage.getGuest other s1 = Storage.getGuest other s)
        /\ (forall g, In g (guests s) -> Guest.id g <> id ->
                      In g (guests s1))
        /\ reservations s1 = reservations s
        /\ reservationRooms s1 = reservationRooms s
        /\ rooms s1 = rooms s
        /\ (exists s2,
              Storage.updateGuest id d s1 = Some (row, s2)
              /\ guests s2 = guests s1)
        /\ (forall g' p,
              row = Some g' -> GuestData.phone d = Some p ->
              no_backslash p = true -> Guest.isActive g' = true ->
              Storage.guest_matches ("%" ++ p ++ "%")%string None g'
              = true)).
Proof.
  split.
  - unfold Storage.updateGuest. destruct (guest_has_keys d); split;
      intros H; first [reflexivity | discriminate H].
  - intros row s1 H. destruct (updateGuest_some _ _ _ _ _ H) as (Hk & -> & ->).
    split; [reflexivity |].
    split; [| split; [exact (set_guest_missing id d s) |]].
    { destruct (Storage.getGuest id s) as [g |] eqn:Hg.
      - rewrite (getGuest_after_update _ _ _ _ Hg). split; discriminate.
      - unfold Storage.getGuest.
        rewrite (set_guest_missing id d s Hg). fold (Storage.getGuest id s).
        rewrite Hg. split; reflexivity. }
    split; [| split; [| split; [| split]]].
    + unfold Storage.set_guest. cbn. rewrite map_map. apply map_ext.
      intros g. destruct (Guest.id g =? id); reflexivity.
    + unfold Storage.set_guest. cbn. rewrite map_map. apply map_ext.
      intros g. destruct (Guest.id g =? id); reflexivity.
    + intros other Hne. now apply set_guest_other.
    + intros g Hin Hne. unfold Storage.set_guest. cbn.
      apply in_map_iff. exists g. apply Z.eqb_neq in Hne. rewrite Hne.
      now split.
    + repeat (split; [reflexivity |]). split.
      * exists (Storage.set_guest id d (Storage.set_guest id d s)).
        split; [| apply set_guest_twice].
        unfold Storage.updateGuest. rewrite Hk. do 2 f_equal.
        unfold Storage.getGuest. now rewrite set_guest_twice.
      * intros g' p Hrow Hphone Hp Hact.
        destruct (Storage.getGuest id s) as [g |] eqn:Hg.
        -- rewrite (getGuest_after_update _ _ _ _ Hg) in Hrow.
           injection Hrow as <-. unfold Storage.guest_matches.
           rewrite Hact. cbn [Storage.apply_guest_data Guest.phone].
           rewrite Hphone. cbn [patched].
           rewrite (ilike_own_pattern p Hp). cbn.
           now rewrite !orb_true_r.
        -- unfold Storage.getGuest in Hrow.
           rewrite (set_guest_missing id d s Hg) in Hrow.
           fold (Storage.getGuest id s) in Hrow. congruence.
Qed.

(* ------------------------------------------------------------------ *)
(** ** The guest search *)

Lemma like_match_nil_plain (c : ascii) (p : list ascii) :
  plain_char c = true -> Pg.like_match (c :: p) [] = false.
Proof.
  unfold plain_char. rewrite negb_true_iff, !orb_false_iff.
  intros [[E1 E2] E3]. simpl. rewrite E1, E2, E3. reflexivity.
Qed.

Lemma like_match_plain_prefix (q p t : list ascii) :
  forallb plain_char q = true ->
  (Pg.like_match (q ++ p) t = true
   <-> exists t', t = q ++ t' /\ Pg.like_match p t' = true).
Proof.
  revert t. induction q as [| c q IH]; intros t Hq.
  - cbn [app]. split; [intros H; now exists t | intros (t' & -> & H); exact H].
  - cbn [forallb] in Hq. apply andb_true_iff in Hq. destruct Hq as [Hc Hq].
    change ((c :: q) ++ p) with (c :: (q ++ p)).
    destruct t as [| d t].
    + rewrite (like_match_nil_plain c _ Hc). split; [discriminate |].
      intros (t' & Habs & _). discriminate Habs.
    + rewrite like_match_step. unfold plain_char in Hc.
      rewrite negb_true_iff, !orb_false_iff in Hc.
      destruct Hc as [[E1 E2] E3]. rewrite E1, E2, E3.
      rewrite andb_true_iff, (IH t Hq), Ascii.eqb_eq. split.
      * intros (-> & t' & -> & H). now exists t'.
      * intros (t' & [= -> ->] & H). split; [reflexivity | now exists t'].
Qed.

Lemma like_match_any (t : list ascii) : Pg.like_match ["%"%char] t = true.
Proof.
  induction t as [| d t IH]; [reflexivity |].
  rewrite like_match_percent, IH. apply orb_true_r.
Qed.

Lemma like_match_percent_suffix (p t : list ascii) :
  Pg.like_match ("%"%char :: p) t = true
  <-> exists a u, t = a ++ u /\ Pg.like_match p u = true.
Proof.
  induction t as [| d t IH].
  - rewrite like_match_percent, orb_false_r. split.
    + intros H. now exists [], [].
    + intros (a & u & Heq & H). symmetry in Heq.
      apply app_eq_nil in Heq. destruct Heq as [_ ->]. exact H.
  - rewrite like_match_percent, orb_true_iff, IH. split.
    + intros [H | (a & u & -> & H)].
      * now exists [], (d :: t).
      * now exists (d :: a), u.
    + intros (a & u & Heq & H). destruct a as [| x a].
      * cbn in Heq. subst u. now left.
      * injection Heq as -> ->. right. now exists a, u.
Qed.

Lemma like_match_contains (q t : list ascii) :
  forallb plain_char q = true ->
  (Pg.like_match ("%"%char :: q ++ ["%"%char]) t = true <-> contains q t).
Proof.
  intros Hq. rewrite like_match_percent_suffix. unfold contains. split.
  - intros (a & u & -> & H).
    apply (like_match_plain_prefix q ["%"%char] u Hq) in H.
    destruct H as (b & -> & _). now exists a, b.
  - intros (a & b & ->). exists a, (q ++ b). split; [reflexivity |].
    apply (like_match_plain_prefix q ["%"%char] (q ++ b) Hq).
    exists b. split; [reflexivity | apply like_match_any].
Qed.

Lemma lower_char_plain (c : ascii) :
  plain_char c = true -> plain_char (Pg.lower_char c) = true.
Proof.
  destruct c as [[] [] [] [] [] [] [] []]; intros H;
    first [discriminate H | vm_compute; reflexivity].
Qed.

Lemma lower_plain (q : list ascii) :
  forallb plain_char q = true -> forallb plain_char (Pg.lower q) = true.
Proof.
  unfold Pg.lower.
  induction q as [| c q IH]; cbn [map forallb]; [reflexivity |].
  intros H. apply andb_true_iff in H. destruct H as [Hc Hq].
  now rewrite (lower_char_plain c Hc), IH.
Qed.

Lemma ilike_contains (q : string) (column : option string) :
  plain_query q = true ->
  (Pg.ilike column ("%" ++ q ++ "%")%string = true
   <-> column_contains q column).
Proof.
  intros Hq. unfold Pg.ilike, column_contains.
  destruct column as [text |].
  - change ("%" ++ q ++ "%")%string with (String "%" (q ++ "%"))%string.
    cbn [list_ascii_of_string]. rewrite list_ascii_of_string_app.
    unfold Pg.lower at 1. cbn [map]. rewrite map_app.
    cbn [list_ascii_of_string map].
    change (Pg.lower_char "%") with "%"%char.
    fold (Pg.lower (list_ascii_of_string q)).
    rewrite (like_match_contains _ _ (lower_plain _ Hq)). split.
    + intros H. now exists text.
    + intros (t & [= <-] & H). exact H.
  - split; [discriminate | intros (t & Habs & _); discriminate Habs].
Qed.

(** X16: the guest search is a substring search, letter case apart.  For
    a search text without [%], [_] and backslash, a guest matches exactly
    when it is active, its first name, last name, phone or email contains
    the text (upper and lower case letters taken as equal), and, when a
    branch is asked for, the guest is of that branch. *)
Theorem search_is_a_substring_match
  (q : string) (branchId : option Z) (g : Guest.t) :
  plain_query q = true ->
  (Storage.guest_matches ("%" ++ q ++ "%")%string branchId g = true
   <-> Guest.isActive g = true
       /\ (column_contains q (Guest.firstName g)
           \/ column_contains q (Guest.lastName g)
           \/ column_contains q (Guest.phone g)
           \/ column_contains q (Guest.email g))
       /\ (JS.truthy_int branchId = true -> Guest.branchId g = branchId)).
Proof.
  intros Hq. unfold Storage.guest_matches.
  rewrite !andb_true_iff, !orb_true_iff, !(ilike_contains q _ Hq).
  assert (Hbranch :
            (if JS.truthy_int branchId
             then JS.strict_eq_int (Guest.branchId g) branchId else true)
            = true
            <-> (JS.truthy_int branchId = true ->
                 Guest.branchId g = branchId)).
  { destruct branchId as [b |]; cbn.
    - destruct (b =? 0); cbn; [split; [discriminate | reflexivity] |].
      destruct (Guest.branchId g) as [x |]; cbn.
      + rewrite Z.eqb_eq. split; [intros -> _; reflexivity |].
        intros H. specialize (H eq_refl). congruence.
      + split; [discriminate |]. intros H. specialize (H eq_refl).
        discriminate H.
    - split; [discriminate | reflexivity]. }
  rewrite Hbranch. tauto.
Qed.

Lemma search_is_a_substring_match_witness :
  Storage.guest_matches "%0100%" None
    (Sample.guest 1 "Ann" "555-0100" true 1000) = true.
Proof.
  apply (search_is_a_substring_match "0100" None
           (Sample.guest 1 "Ann" "555-0100" true 1000) eq_refl).
  split; [reflexivity | split; [| discriminate]].
  right. right. left. exists "555-0100". split; [reflexivity |].
  exists (list_ascii_of_string "555-"), []. reflexivity.
Defined.

Lemma insert_desc_newest_first (g : Guest.t) (l : list Guest.t) :
  newest_first l -> newest_first (Storage.insert_desc g l).
Proof.
  unfold newest_first. induction l as [| h r IH]; intros Hl; cbn.
  - constructor; constructor.
  - inversion Hl as [| a l' Hh Hr]; subst.
    destruct (Guest.createdAt h <? Guest.createdAt g) eqn:E.
    + apply Z.ltb_lt in E. constructor; [| exact Hl].
      constructor; [lia |].
      rewrite Forall_forall in *. intros x Hx. specialize (Hh x Hx). lia.
    + apply Z.ltb_ge in E. constructor; [| now apply IH].
      rewrite Forall_forall in *. intros x Hx.
      apply insert_desc_In in Hx. destruct Hx as [-> | Hx];
        [exact E | now apply Hh].
Qed.

Lemma orderBy_newest_first (l : list Guest.t) :
  newest_first (Storage.orderBy_createdAt_desc l).
Proof.
  unfold Storage.orderBy_createdAt_desc.
  induction l as [| g l IH]; cbn; [constructor |].
  now apply insert_desc_newest_first.
Qed.

Lemma firstn_newest_first (n : nat) (l : list Guest.t) :
  newest_first l -> newest_first (firstn n l).
Proof.
  unfold newest_first. revert n. induction l as [| g l IH]; intros n Hl.
  - rewrite firstn_nil. constructor.
  - destruct n as [| n]; cbn; [constructor |].
    inversion Hl as [| a l' Hg Hr]; subst. constructor; [| now apply IH].
    rewrite Forall_forall in *. intros x Hx. apply Hg.
    now apply firstn_incl in Hx.
Qed.

(** X17: the guest search returns at most ten guests, newest first.
    Every guest returned is a guest row that matches; no guest returned
    comes before one created later; the first one is a newest of all the
    matching guests; and when fewer than ten are returned, every matching
    guest is among them. *)
Theorem searchGuests_newest_first_at_most_ten
  (query : string) (branchId : option Z) (s : Store) :
  let matches := Storage.guest_matches ("%" ++ query ++ "%")%string branchId in
  let found := Storage.searchGuests query branchId s in
  (List.length found <= 10)%nat
  /\ newest_first found
  /\ (forall g, In g found -> In g (guests s) /\ matches g = true)
  /\ (forall g rest, found = g :: rest ->
        forall g', In g' (guests s) -> matches g' = true ->
                   Guest.createdAt g' <= Guest.createdAt g)
  /\ ((List.length found < 10)%nat ->
      forall g, In g (guests s) -> matches g = true -> In g found).
Proof.
  intros matches found. unfold found, Storage.searchGuests.
  fold matches.
  set (sorted := Storage.orderBy_createdAt_desc (filter matches (guests s))).
  assert (Hsorted : newest_first sorted) by apply orderBy_newest_first.
  assert (Hin : forall g, In g sorted <-> In g (guests s) /\ matches g = true).
  { intros g. unfold sorted. rewrite orderBy_In, filter_In. reflexivity. }
  split; [apply firstn_le_length | split; [now apply firstn_newest_first |]].
  split; [| split].
  - intros g Hg. apply Hin. now apply firstn_incl in Hg.
  - intros g rest Hfound g' Hg' Hm.
    destruct sorted as [| h l] eqn:Hs; [discriminate Hfound |].
    cbn in Hfound. injection Hfound as -> _.
    assert (Hg : In g' (g :: l)) by (apply Hin; now split).
    inversion Hsorted as [| a l' Hhead _]; subst.
    destruct Hg as [<- | Hg]; [lia |].
    rewrite Forall_forall in Hhead. now apply Hhead.
  - intros Hlen g Hg Hm.
    assert (Hall : firstn 10 sorted = sorted).
    { apply firstn_all2.
      destruct (Nat.le_gt_cases (List.length sorted) 10) as [Hle | Hgt];
        [exact Hle |].
      rewrite length_firstn in Hlen. lia. }
    rewrite Hall. apply Hin. now split.
Qed.

(** X18: the pattern characters of a search text are not escaped.  The
    search text [%] matches every active guest (of the branch asked for)
    that has a first name, a last name, a phone number or an email,
    whatever these are. *)
Theorem search_text_percent_matches_everyone
  (branchId : option Z) (g : Guest.t) :
  Storage.guest_matches ("%" ++ "%" ++ "%")%string branchId g
  = Guest.isActive g
    && (is_some (Guest.firstName g) || is_some (Guest.lastName g)
        || is_some (Guest.phone g) || is_some (Guest.email g))
    && (if JS.truthy_int branchId
        then JS.strict_eq_int (Guest.branchId g) branchId else true).
Proof.
  unfold Storage.guest_matches.
  assert (Hany : forall column,
             Pg.ilike column ("%" ++ "%" ++ "%")%string = is_some column).
  { intros [text |]; [| reflexivity]. unfold Pg.ilike.
    change (Pg.lower (list_ascii_of_string ("%" ++ "%" ++ "%")%string))
      with ["%"%char; "%"%char; "%"%char].
    cbn [is_some].
    apply like_match_percent_suffix. exists [], (Pg.lower (list_ascii_of_string text)).
    split; [reflexivity |].
    apply like_match_percent_suffix. exists [], (Pg.lower (list_ascii_of_string text)).
    split; [reflexivity | apply like_match_any]. }
  now rewrite !Hany.
Qed.

(* ------------------------------------------------------------------ *)
(** ** The confirmation number, digit by digit *)

Lemma fixed_digits_length (k : nat) (n : Z) :
  List.length (fixed_digits k n) = k.
Proof.
  revert n. induction k as [| k IH]; intros n; cbn; [reflexivity |].
  rewrite length_app, IH. cbn. lia.
Qed.

Lemma fixed_digits_period (k : nat) (n m : Z) :
  fixed_digits k (n + m * 10 ^ Z.of_nat k) = fixed_digits k n.
Proof.
  revert n m. induction k as [| k IH]; intros n m; cbn [fixed_digits];
    [reflexivity |].
  rewrite Nat2Z.inj_succ, Z.pow_succ_r by lia.
  replace (n + m * (10 * 10 ^ Z.of_nat k))
    with (n + (m * 10 ^ Z.of_nat k) * 10) by lia.
  rewrite Z.div_add, Z.mod_add by lia. now rewrite IH.
Qed.

Lemma fixed_digits_head (k : nat) (n : Z) :
  fixed_digits (S k) n
  = JS.digit_char ((n / 10 ^ Z.of_nat k) mod 10) :: fixed_digits k n.
Proof.
  revert n. induction k as [| k IH]; intros n.
  - cbn [fixed_digits app Z.of_nat]. now rewrite Z.pow_0_r, Z.div_1_r.
  - change (fixed_digits (S (S k)) n)
      with (fixed_digits (S k) (n / 10) ++ [JS.digit_char (n mod 10)]).
    rewrite IH. cbn [app fixed_digits].
    rewrite Nat2Z.inj_succ, Z.pow_succ_r by lia.
    rewrite Z.div_div by (try lia; apply Z.pow_pos_nonneg; lia).
    reflexivity.
Qed.

Lemma Z_digits_fuel_acc (fuel : nat) (n : Z) (acc : list ascii) :
  exists pre, JS.Z_digits_fuel fuel n acc = pre ++ acc.
Proof.
  revert n acc. induction fuel as [| f IH]; intros n acc; cbn.
  - now exists [].
  - destruct (n <? 10).
    + now exists [JS.digit_char n].
    + destruct (IH (n / 10) (JS.digit_char (n mod 10) :: acc)) as [pre ->].
      exists (pre ++ [JS.digit_char (n mod 10)]).
      now rewrite <- app_assoc.
Qed.

Lemma Z_digits_fuel_split (k fuel : nat) (n : Z) (acc : list ascii) :
  (k < fuel)%nat -> 10 ^ Z.of_nat k <= n ->
  JS.Z_digits_fuel fuel n acc
  = JS.Z_digits_fuel (fuel - k) (n / 10 ^ Z.of_nat k)
      (fixed_digits k n ++ acc).
Proof.
  revert fuel n acc. induction k as [| k IH]; intros fuel n acc Hk Hn.
  - cbn [fixed_digits app Z.of_nat].
    now rewrite Nat.sub_0_r, Z.pow_0_r, Z.div_1_r.
  - destruct fuel as [| f]; [lia |].
    rewrite Nat2Z.inj_succ, Z.pow_succ_r in * by lia.
    assert (Hpos : 0 < 10 ^ Z.of_nat k) by (apply Z.pow_pos_nonneg; lia).
    cbn [JS.Z_digits_fuel].
    destruct (n <? 10) eqn:E; [apply Z.ltb_lt in E; lia |].
    rewrite (IH f (n / 10) _ ltac:(lia)).
    + cbn [fixed_digits Nat.sub]. rewrite <- app_assoc. cbn [app].
      rewrite Z.div_div by lia. reflexivity.
    + apply Z.div_le_lower_bound; lia.
Qed.

Lemma Z_digits_last_eight (n : Z) :
  10 ^ 7 <= n -> exists pre, JS.Z_digits n = pre ++ fixed_digits 8 n.
Proof.
  intros Hn. unfold JS.Z_digits.
  set (fuel := S (Z.to_nat (Z.log2 n))).
  assert (Hfuel : (7 < fuel)%nat).
  { unfold fuel.
    assert (Z.log2 (10 ^ 7) <= Z.log2 n) by (apply Z.log2_le_mono; lia).
    change (Z.log2 (10 ^ 7)) with 23 in H. lia. }
  rewrite (Z_digits_fuel_split 7 fuel n [] Hfuel Hn), app_nil_r.
  rewrite (fixed_digits_head 7 n).
  destruct (fuel - 7)%nat as [| f] eqn:Ef; [lia |].
  cbn [JS.Z_digits_fuel].
  change (Z.of_nat 7) with 7.
  destruct (n / 10 ^ 7 <? 10) eqn:E.
  - apply Z.ltb_lt in E. exists [].
    rewrite Z.mod_small; [reflexivity |].
    split; [apply Z.div_pos; lia | exact E].
  - apply Z_digits_fuel_acc.
Qed.

(** X19: the confirmation number is RES and the last eight decimal digits
    of the clock.  From 10^7 milliseconds on it is [RES] followed by the
    digits of [now mod 10^8], with leading zeros; so two creations whose
    clock values differ by a multiple of 10^8 ms (a little under 28
    hours) get the same confirmation number. *)
Theorem confirmationNumber_is_the_last_eight_digits (now : Z) :
  10 ^ 7 <= now ->
  confirmationNumber now
  = ("RES" ++ string_of_list_ascii (fixed_digits 8 now))%string
  /\ fixed_digits 8 now = fixed_digits 8 (now mod 10 ^ 8)
  /\ (forall k, 0 <= k ->
        confirmationNumber (now + k * 10 ^ 8) = confirmationNumber now).
Proof.
  assert (Hform : forall n, 10 ^ 7 <= n ->
            confirmationNumber n
            = ("RES" ++ string_of_list_ascii (fixed_digits 8 n))%string).
  { intros n Hn. unfold confirmationNumber, JS.Z_to_string.
    destruct (n <? 0) eqn:E; [apply Z.ltb_lt in E; lia |].
    rewrite list_ascii_of_string_of_list_ascii.
    destruct (Z_digits_last_eight n Hn) as [pre ->].
    unfold JS.slice_last. rewrite length_app, fixed_digits_length.
    replace (List.length pre + 8 - 8)%nat with (List.length pre + 0)%nat
      by lia.
    now rewrite skipn_app, Nat.add_0_r, skipn_all, Nat.sub_diag. }
  intros Hnow. split; [now apply Hform | split].
  - rewrite (Z.div_mod now (10 ^ 8)) at 1 by lia.
    rewrite Z.add_comm, Z.mul_comm.
    exact (fixed_digits_period 8 (now mod 10 ^ 8) (now / 10 ^ 8)).
  - intros k Hk. rewrite !Hform by nia.
    pose proof (fixed_digits_period 8 now k) as Hperiod.
    change (Z.of_nat 8) with 8 in Hperiod. now rewrite Hperiod.
Qed.

Lemma confirmationNumber_is_the_last_eight_digits_witness :
  confirmationNumber 1751328000123 = "RES28000123"
  /\ confirmationNumber (1751328000123 + 1 * 10 ^ 8)
     = confirmationNumber 1751328000123.
Proof.
  destruct (confirmationNumber_is_the_last_eight_digits 1751328000123
              ltac:(lia)) as (Hform & _ & Hsame).
  split; [rewrite Hform; reflexivity | apply Hsame; lia].
Defined.

(* ------------------------------------------------------------------ *)
(** ** Listing the guests *)

Lemma insert_desc_length (g : Guest.t) (l : list Guest.t) :
  List.length (Storage.insert_desc g l) = S (List.length l).
Proof.
  induction l as [| h r IH]; cbn; [reflexivity |].
  destruct (Guest.createdAt h <? Guest.createdAt g); cbn; [reflexivity |].
  now rewrite IH.
Qed.

Lemma orderBy_length (l : list Guest.t) :
  List.length (Storage.orderBy_createdAt_desc l) = List.length l.
Proof.
  unfold Storage.orderBy_createdAt_desc.
  induction l as [| g l IH]; cbn; [reflexivity |].
  now rewrite insert_desc_length, IH.
Qed.

(** X20: [getGuests] lists the guests of a branch newest first, and all
    the guests when no branch (or branch 0) is asked for; a guest is
    listed whether it is active or not, once per row. *)
Theorem getGuests_lists_the_branch (branchId : option Z) (s : Store) :
  newest_first (getGuests branchId s)
  /\ (forall g,
        In g (getGuests branchId s)
        <-> In g (guests s)
            /\ (JS.truthy_int branchId = true -> Guest.branchId g = branchId))
  /\ (JS.truthy_int branchId = false ->
      List.length (getGuests branchId s) = List.length (guests s))
  /\ (List.length (getGuests branchId s) <= List.length (guests s))%nat.
Proof.
  unfold getGuests. split; [apply orderBy_newest_first | split; [| split]].
  - intros g. rewrite orderBy_In, filter_In.
    destruct branchId as [b |]; cbn.
    + destruct (b =? 0); cbn; [intuition discriminate |].
      destruct (Guest.branchId g) as [x |]; cbn.
      * rewrite Z.eqb_eq. intuition congruence.
      * intuition discriminate.
    + intuition discriminate.
  - intros Hfalsy. rewrite orderBy_length, Hfalsy.
    now rewrite filter_all.
  - rewrite orderBy_length. apply filter_length_le.
Qed.

(* ------------------------------------------------------------------ *)
(** ** The room figures of the dashboards *)

Lemma leftJoin_fst {A B} (on : A -> B -> bool) (l : list A) (r : list B)
  (row : A * option B) :
  In row (leftJoin on l r) -> In (fst row) l.
Proof.
  unfold leftJoin. rewrite in_flat_map. intros (a & Ha & Hrow).
  destruct (filter (on a) r) as [| b m].
  - destruct Hrow as [<- | []]. exact Ha.
  - apply in_map_iff in Hrow. destruct Hrow as (b' & <- & _). exact Ha.
Qed.

Lemma count_distinct_le (ids : list Z) (l : list Room.t) :
  (forall i, In i ids -> exists room, In room l /\ Room.id room = i) ->
  0 <= count_distinct ids <= Z.of_nat (List.length l).
Proof.
  intros Hids. unfold count_distinct. split; [lia |].
  apply inj_le. rewrite <- (length_map Room.id l).
  apply NoDup_incl_length; [apply NoDup_nodup |].
  intros i Hi. apply nodup_In in Hi. destruct (Hids i Hi) as (room & Hr & <-).
  now apply in_map.
Qed.

(** X21: on the dashboards the occupied rooms never outnumber the rooms.
    For [getDashboardMetrics], with or without a branch, [occupiedRooms]
    lies between 0 and [totalRooms]; for every branch entry of
    [getSuperAdminDashboardMetrics], [bookedRooms] lies between 0 and
    [totalRooms], and [availableRooms] is their difference and is not
    negative. *)
Theorem occupied_rooms_never_outnumber_the_rooms (s : Store) :
  (forall branchId,
     0 <= occupiedRooms branchId s <= totalRooms branchId s)
  /\ (forall branch,
        let '(total, booked, available) := branchRoomMetrics branch s in
        0 <= booked <= total /\ available = total - booked
        /\ 0 <= available).
Proof.
  split.
  - intros branchId. unfold occupiedRooms, totalRooms.
    apply count_distinct_le. intros i Hi. apply in_map_iff in Hi.
    destruct Hi as (row & <- & Hrow). apply filter_In in Hrow.
    destruct Hrow as [Hrow Hkeep]. apply andb_true_iff in Hkeep.
    destruct Hkeep as [_ Hbranch].
    exists (fst (fst row)). split; [| reflexivity].
    apply filter_In. split; [| exact Hbranch].
    unfold roomsWithReservations in Hrow.
    apply leftJoin_fst in Hrow. now apply leftJoin_fst in Hrow.
  - intros branch. unfold branchRoomMetrics. cbv zeta.
    match goal with
    | |- 0 <= ?booked <= ?total /\ _ =>
        assert (Hle : 0 <= booked <= total)
    end.
    { apply count_distinct_le. intros i Hi. apply in_map_iff in Hi.
      destruct Hi as (row & <- & Hrow). apply filter_In in Hrow.
      destruct Hrow as [Hrow Hkeep]. apply andb_true_iff in Hkeep.
      destruct Hkeep as [Hbranch _].
      exists (fst (fst row)). split; [| reflexivity].
      apply filter_In. split; [| exact Hbranch].
      unfold roomsWithReservations in Hrow.
      apply leftJoin_fst in Hrow. now apply leftJoin_fst in Hrow. }
    split; [exact Hle | split; [reflexivity | lia]].
Qed.

(* ------------------------------------------------------------------ *)
(** ** The life of a reservation *)

Lemma getReservation_after_status (id : string) (p : ReservationPatch.t)
  (s s1 : Store) (row : option Reservation.t) (st : string)
  (existing : ReservationDetail.t) :
  Storage.updateReservation id p s = Some (row, s1) ->
  ReservationPatch.status p = Some st ->
  Storage.getReservation id s = Some existing ->
  forall s',
    reservations s' = reservations s1 ->
    exists existing',
      Storage.getReservation id s' = Some existing'
      /\ Reservation.status (ReservationDetail.row existing') = Some st.
Proof.
  intros Hupd Hst Hget s' Hsame.
  apply updateReservation_rows in Hupd.
  destruct Hupd as (total & tax & paid & Hrows & _).
  unfold Storage.getReservation in *. rewrite Hsame, Hrows.
  destruct (find _ (reservations s)) as [r |] eqn:Hfind; [| discriminate Hget].
  clear Hget Hrows Hsame.
  assert (Hfound :
            find (fun r => String.eqb (Reservation.id r) id)
              (map (fun r => if String.eqb (Reservation.id r) id
                             then Storage.apply_reservation_patch p total tax
                                    paid r
                             else r) (reservations s))
            = Some (Storage.apply_reservation_patch p total tax paid r)).
  { induction (reservations s) as [| h l IH]; cbn in *; [discriminate |].
    destruct (String.eqb (Reservation.id h) id) eqn:E; cbn.
    - rewrite E. now injection Hfind as ->.
    - rewrite E. now apply IH. }
  rewrite Hfound. eexists. split; [reflexivity |].
  cbn. now rewrite Hst.
Qed.

(** X22: checking out and cancelling are final.  After a status-only
    PATCH to [checked-out] or [cancelled] that is answered 200, and after
    a DELETE /api/reservations/:id that is answered 204, every further
    PATCH of that reservation, by any caller and with any body, is refused
    (401 or 403) and writes nothing. *)
Theorem checking_out_and_cancelling_are_final
  (userId : string) (req : Request.t) (s s' : Store) (resp : Response) :
  (updateReservationHandler userId req s = (resp, s')
   /\ code resp = 200
   /\ Body.guest (Request.body req) = None
   /\ Body.reservation (Request.body req) = None
   /\ Body.rooms (Request.body req) = None
   /\ (ReservationData.status (Body.flat (Request.body req))
       = Some "checked-out"
       \/ ReservationData.status (Body.flat (Request.body req))
          = Some "cancelled"))
  \/ (cancelReservationHandler userId req s = (resp, s')
      /\ code resp = 204) ->
  forall (later : string) (req2 : Request.t),
    Request.param_id req2 = Request.param_id req ->
    snd (updateReservationHandler later req2 s') = s'
    /\ (code (fst (updateReservationHandler later req2 s')) = 401
        \/ code (fst (updateReservationHandler later req2 s')) = 403).
Proof.
  intros Hdone later req2 Hid.
  assert (Hfinal : exists existing',
             Storage.getReservation (Request.param_id req) s'
             = Some existing'
             /\ is_terminal
                  (Reservation.status (ReservationDetail.row existing'))
                = true).
  { destruct Hdone as [(H & Hcode & Hg & Hr & Hrooms & Hst) | (H & Hcode)].
    - assert (Hsome : exists st,
                 ReservationData.status (Body.flat (Request.body req))
                 = Some st
                 /\ st <> ""
                 /\ is_terminal (Some st) = true).
      { destruct Hst as [Hst | Hst]; eexists; (split; [exact Hst |]);
          split; try discriminate; reflexivity. }
      destruct Hsome as (st & Hst' & Hne & Hterm).
      destruct (updateReservationHandler_status_only _ _ _ _ _ st H Hcode
                  Hg Hr Hrooms Hst' Hne)
        as (existing & validated & row & s1 & Hget & _ & _ & Hvst & Hupd
            & ->).
      destruct (getReservation_after_status _ _ _ _ _ st existing Hupd Hvst
                  Hget
                  (fold_left
                     (fun s rr => emit (EvBroadcast "rooms" "updated")
                                    (Storage.updateRoom
                                       (ReservationRoom.roomId rr)
                                       (newRoomStatus st) s))
                     (ReservationDetail.reservationRooms existing)
                     (emit (EvBroadcast "reservations" "updated") s1)))
        as (existing' & Hget' & Hstatus).
      + now rewrite (fold_left_preserves _ reservations) by reflexivity.
      + exists existing'. split; [exact Hget' |]. now rewrite Hstatus.
    - destruct (cancelReservationHandler_cancelled _ _ _ _ _ H Hcode)
        as (existing & row & s1 & Hget & Hupd & ->).
      destruct (getReservation_after_status _ _ _ _ _ "cancelled" existing
                  Hupd eq_refl Hget
                  (fold_left
                     (fun s rr => emit (EvBroadcast "rooms" "updated")
                                    (Storage.updateRoom
                                       (ReservationRoom.roomId rr)
                                       "available" s))
                     (ReservationDetail.reservationRooms existing)
                     (emit (EvBroadcast "reservations" "deleted") s1)))
        as (existing' & Hget' & Hstatus).
      + now rewrite (fold_left_preserves _ reservations) by reflexivity.
      + exists existing'. split; [exact Hget' |]. now rewrite Hstatus. }
  destruct Hfinal as (existing' & Hget' & Hterm).
  rewrite <- Hid in Hget'.
  destruct (updateReservationHandler later req2 s') as [resp2 s2] eqn:H2.
  destruct (update_refused_after_checkout later req2 s' s2 resp2 existing'
              Hget' Hterm H2) as (-> & Hcode2 & _).
  split; [reflexivity | exact Hcode2].
Qed.

Lemma checking_out_and_cancelling_are_final_witness :
  let s := Sample.booked "checked-in" in
  let s' := snd (updateReservationHandler "u-manager"
                   (Sample.request "u-manager" "r1"
                      (Sample.status_body "checked-out")) s) in
  let again := updateReservationHandler "u-admin"
                 (Sample.request "u-admin" "r1"
                    (Sample.status_body "checked-in")) s' in
  snd again = s' /\ (code (fst again) = 401 \/ code (fst again) = 403).
Proof.
  intros s s' again.
  apply (checking_out_and_cancelling_are_final "u-manager"
           (Sample.request "u-manager" "r1" (Sample.status_body "checked-out"))
           s s'
           (fst (updateReservationHandler "u-manager"
                   (Sample.request "u-manager" "r1"
                      (Sample.status_body "checked-out")) s))).
  - left. split; [apply surjective_pairing |].
    split; [reflexivity |]. repeat split. now left.
  - reflexivity.
Defined.




(* ------------------------------------------------------------------ *)
(** ** What no request does *)

























